(** * dither-me: a shallow embedding of the WebGL dithering pipeline

    The development follows the layout of the repository:

    - [JS]              the fragments of JavaScript number and string
                        semantics the services rely on;
    - [ColorUtils]      [src/lib/color-utils.ts];
    - [PaletteService]  [src/lib/palette-service.ts];
    - [GLSL], [Shader]  [src/shaders/dither.glsl];
    - [GL]              the part of the WebGL state machine the services
                        drive (canvas, textures, uniforms, draw calls);
    - [ShaderService], [TextureService], [RendererService], [WebGLService]
                        the files of the same names under [src/lib].

    JavaScript numbers that take part in a rounding decision are IEEE
    binary64 values (Rocq's primitive floats); integers that are only
    compared, shifted or masked are [Z].  Shader arithmetic is carried out
    over the rationals [Q]: GLSL leaves the precision of [mediump] floats to
    the implementation, so the embedding describes the algorithm the shader
    text denotes, with [sin] and [pow] left as parameters. *)

From Stdlib Require Import ZArith QArith Qround Qabs List String Ascii Bool Lia Lqa.
From Stdlib Require Import Floats Uint63.
Import ListNotations.

Open Scope string_scope.
Open Scope Z_scope.

(* ================================================================== *)
(** ** JavaScript values *)
(* ================================================================== *)

Module JS.

(** An integer-valued JS number, as a binary64. *)
Definition toNumber (z : Z) : float := PrimFloat.of_uint63 (Uint63.of_Z z).

(** [Math.floor] of a finite number; [None] stands for [NaN] and the
  infinities, on which [Math.floor] is the identity. *)
Definition Math_floor (x : float) : option Z :=
match Prim2SF x with
| S754_zero _ => Some 0
| S754_finite s m e =>
    let v := if s then Z.neg m else Z.pos m in
    Some (if 0 <=? e then v * 2 ^ e else v / 2 ^ (- e))
| _ => None
end.

(** [ToInt32]: the operand conversion of [>>] and [&]. *)
Definition toInt32 (z : Z) : Z := (z + 2 ^ 31) mod 2 ^ 32 - 2 ^ 31.

(** [a >> k] and [a & m] on a left operand that may be [NaN] ([None]). *)
Definition shr (a : option Z) (k : Z) : Z :=
Z.shiftr (toInt32 (match a with Some z => z | None => 0 end)) k.

Definition band (a : option Z) (m : Z) : Z :=
Z.land (toInt32 (match a with Some z => z | None => 0 end)) (toInt32 m).

(** [ToUint8], the conversion of a store into a [Uint8Array]. *)
Definition toUint8 (z : Z) : Z := z mod 256.

Definition hexDigit (c : ascii) : option Z :=
let n := Z.of_nat (nat_of_ascii c) in
if (48 <=? n) && (n <=? 57) then Some (n - 48)
else if (65 <=? n) && (n <=? 70) then Some (n - 55)
else if (97 <=? n) && (n <=? 102) then Some (n - 87)
else None.

Definition isWhiteSpace (c : ascii) : bool :=
let n := Z.of_nat (nat_of_ascii c) in
((9 <=? n) && (n <=? 13)) || (n =? 32).

Fixpoint trimStart (s : string) : string :=
match s with
| String c r => if isWhiteSpace c then trimStart r else s
| EmptyString => s
end.

(** The longest prefix of hexadecimal digits, as a number; [None] when
  the prefix is empty. *)
Fixpoint hexPrefix (acc : option Z) (s : string) : option Z :=
match s with
| String c r =>
    match hexDigit c with
    | Some d => hexPrefix (Some (16 * match acc with Some a => a | None => 0 end + d)) r
    | None => acc
    end
| EmptyString => acc
end.

Definition strip0x (s : string) : string :=
match s with
| String "0" (String "x" r) => r
| String "0" (String "X" r) => r
| _ => s
end.

(** [Number.parseInt(s, 16)]; [None] is [NaN].  The value is the exact
  integer, which is what the binary64 result holds for up to thirteen
  digits. *)
Definition parseInt16 (s : string) : option Z :=
let s := trimStart s in
let '(neg, s) :=
  match s with
  | String "-" r => (true, r)
  | String "+" r => (false, r)
  | _ => (false, s)
  end in
match hexPrefix None (strip0x s) with
| Some v => Some (if neg then - v else v)
| None => None
end.

(** [s.startsWith("#") ? s.slice(1) : s] *)
Definition dropHash (s : string) : string :=
match s with
| String "#" r => r
| _ => s
end.

(** [Array.prototype.find] *)
Definition find {A} (p : A -> bool) (l : list A) : option A := List.find p l.

(** A [for (let i = start; ...; i++)] loop that runs [n] times over a
  state; the body may throw ([None]). *)
Fixpoint for_loop {S : Type} (n : nat) (i : Z) (body : Z -> S -> option S) (s : S)
: option S :=
match n with
| O => Some s
| Datatypes.S k =>
    match body i s with
    | Some s' => for_loop k (i + 1) body s'
    | None => None
    end
end.

(** [a[k] = v] on a typed array: a store outside the array is dropped. *)
Fixpoint store (k : nat) (v : Z) (a : list Z) : list Z :=
match a, k with
| [], _ => []
| _ :: r, O => v :: r
| x :: r, Datatypes.S k' => x :: store k' v r
end.

(** [a[k]] for an index that may be negative: [None] is [undefined]. *)
Definition index {A} (a : list A) (k : Z) : option A :=
if k <? 0 then None else nth_error a (Z.to_nat k).

End JS.

(* ================================================================== *)
(** ** color-utils.ts *)
(* ================================================================== *)

Module ColorUtils.

(** [hexToRgb]: both the [#RGB] and the [#RRGGBB] form. *)
Definition hexToRgb (hex : string) : Z * Z * Z :=
let cleanHex := JS.dropHash hex in
let bigint := JS.parseInt16 cleanHex in
if (Z.of_nat (String.length cleanHex) <=? 3) then
  (JS.band (Some (JS.shr bigint 8)) 15 * 17,
   JS.band (Some (JS.shr bigint 4)) 15 * 17,
   JS.band bigint 15 * 17)
else
  (JS.band (Some (JS.shr bigint 16)) 255,
   JS.band (Some (JS.shr bigint 8)) 255,
   JS.band bigint 255).

End ColorUtils.


(* ================================================================== *)
(** ** types.ts *)
(* ================================================================== *)

Module Types.

Record PaletteDefinition := {
name : string;
colors : list string
}.

Record UserPaletteDefinition := {
up_id : Z;
up_name : string;
up_colors : list string
}.

(** [DitherOptions]; an optional field that is absent is [None]. *)
Record DitherOptions := {
ditherAmount : Q;
ditherType : Z;
bayerSize : option Z;
downSampling : option Z;
contrast : option Q;
highlights : option Q;
midtones : option Q;
brightness : option Q;
usePalette : option bool;
paletteType : option Z;
paletteColors : option Z;
customPalette : option (list string);
userPalettes : option (list UserPaletteDefinition);
selectedUserPalette : option Z
}.

(** [enum PaletteType] *)
Module PaletteType.
Definition BW := 0.
Definition CGA := 1.
Definition GAMEBOY := 2.
Definition GAMEBOY_CLASSIC := 5.
Definition GAMEBOY_POCKET := 6.
Definition GRAYSCALE := 7.
Definition SEPIA := 8.
Definition CUSTOM := 3.
Definition USER := 4.
End PaletteType.

End Types.


(* ================================================================== *)
(** ** GLSL built-ins, over the rationals *)
(* ================================================================== *)

Module GLSL.
Local Open Scope Q_scope.

Definition vec2 : Type := Q * Q.
Definition vec3 : Type := Q * Q * Q.
Definition vec4 : Type := Q * Q * Q * Q.

(** [vec3(x)] *)
Definition splat (x : Q) : vec3 := (x, x, x).

Definition map3 (f : Q -> Q) (v : vec3) : vec3 :=
let '(r, g, b) := v in (f r, f g, f b).

Definition zip3 (f : Q -> Q -> Q) (v w : vec3) : vec3 :=
let '(r, g, b) := v in let '(r', g', b') := w in (f r r', f g g', f b b').

Definition add3 : vec3 -> vec3 -> vec3 := zip3 Qplus.
Definition sub3 : vec3 -> vec3 -> vec3 := zip3 Qminus.
Definition scale3 (v : vec3) (k : Q) : vec3 := map3 (fun x => x * k) v.

Definition dot3 (v w : vec3) : Q :=
let '(r, g, b) := v in let '(r', g', b') := w in r * r' + g * g' + b * b'.

Definition dot2 (v w : vec2) : Q := fst v * fst w + snd v * snd w.

(** Comparisons, as booleans. *)
Definition gt (a b : Q) : bool := negb (Qle_bool a b).
Definition lt (a b : Q) : bool := negb (Qle_bool b a).
Definition neq (a b : Q) : bool := negb (Qeq_bool a b).

Definition min (a b : Q) : Q := if Qle_bool a b then a else b.
Definition max (a b : Q) : Q := if Qle_bool a b then b else a.

Definition clamp (x lo hi : Q) : Q := min (max x lo) hi.
Definition clamp3 (v : vec3) (lo hi : Q) : vec3 := map3 (fun x => clamp x lo hi) v.

Definition mix (x y a : Q) : Q := x * (1 - a) + y * a.
Definition mix3 (v w : vec3) (a : Q) : vec3 := zip3 (fun x y => mix x y a) v w.

Definition step (edge x : Q) : Q := if lt x edge then 0 else 1.

Definition smoothstep (edge0 edge1 x : Q) : Q :=
let t := clamp ((x - edge0) / (edge1 - edge0)) 0 1 in
t * t * (3 - 2 * t).

Definition floor (x : Q) : Q := inject_Z (Qfloor x).
Definition floor3 : vec3 -> vec3 := map3 floor.
Definition fract (x : Q) : Q := x - floor x.

(** [mod(x, y) = x - y * floor(x / y)] *)
Definition mod_ (x y : Q) : Q := x - y * floor (x / y).

(** [int(x)]: conversion to [int] drops the fractional part. *)
Definition int (x : Q) : Z := if Qle_bool 0 x then Qfloor x else Qceiling x.

(** [float(n)] *)
Definition float (n : Z) : Q := inject_Z n.

Definition abs : Q -> Q := Qabs.

(** Equality of colors, component by component. *)
Definition eq3 (v w : vec3) : Prop :=
let '(r, g, b) := v in let '(r', g', b') := w in r == r' /\ g == g' /\ b == b'.

(** [m[c][r]] on a matrix given by its columns. *)
Definition at_ (m : list (list Q)) (c r : nat) : Q := nth r (nth c m []) 0.

Definition divm (m : list (list Q)) (k : Q) : list (list Q) :=
List.map (List.map (fun x => x / k)) m.

End GLSL.

(* ================================================================== *)
(** ** dither.glsl *)
(* ================================================================== *)

Module Shader.
Import GLSL.
Local Open Scope Q_scope.

(** The uniforms of the program.  A sampler uniform holds the number of
  the texture unit it reads. *)
Record Uniforms := {
u_image : Z;
u_errorTexture : Z;
u_palette : Z;
u_resolution : vec2;
u_ditherAmount : Q;
u_ditherType : Z;
u_passIndex : Z;
u_pixelStep : vec2;
u_bayerSize : Z;
u_usePalette : bool;
u_contrast : Q;
u_highlights : Q;
u_midtones : Q;
u_brightness : Q
}.

Definition bayerMatrix4x4 : list (list Q) :=
divm [ [0; 8; 2; 10];
       [12; 4; 14; 6];
       [3; 11; 1; 9];
       [15; 7; 13; 5] ] 16.

Definition bayerMatrix2x2 : list (list Q) :=
divm [ [0; 2];
       [3; 1] ] 4.

Definition toGrayscale (color : vec3) : Q :=
dot3 color (299 # 1000, 587 # 1000, 114 # 1000).

Definition getBayer8x8Value (x y : Z) : Q :=
match x with
| 0%Z => match y with
       | 0%Z => 0 | 1%Z => 48 | 2%Z => 12 | 3%Z => 60
       | 4%Z => 3 | 5%Z => 51 | 6%Z => 15 | 7%Z => 63 | _ => 0 end
| 1%Z => match y with
       | 0%Z => 32 | 1%Z => 16 | 2%Z => 44 | 3%Z => 28
       | 4%Z => 35 | 5%Z => 19 | 6%Z => 47 | 7%Z => 31 | _ => 0 end
| 2%Z => match y with
       | 0%Z => 8 | 1%Z => 56 | 2%Z => 4 | 3%Z => 52
       | 4%Z => 11 | 5%Z => 59 | 6%Z => 7 | 7%Z => 55 | _ => 0 end
| 3%Z => match y with
       | 0%Z => 40 | 1%Z => 24 | 2%Z => 36 | 3%Z => 20
       | 4%Z => 43 | 5%Z => 27 | 6%Z => 39 | 7%Z => 23 | _ => 0 end
| 4%Z => match y with
       | 0%Z => 2 | 1%Z => 50 | 2%Z => 14 | 3%Z => 62
       | 4%Z => 1 | 5%Z => 49 | 6%Z => 13 | 7%Z => 61 | _ => 0 end
| 5%Z => match y with
       | 0%Z => 34 | 1%Z => 18 | 2%Z => 46 | 3%Z => 30
       | 4%Z => 33 | 5%Z => 17 | 6%Z => 45 | 7%Z => 29 | _ => 0 end
| 6%Z => match y with
       | 0%Z => 10 | 1%Z => 58 | 2%Z => 6 | 3%Z => 54
       | 4%Z => 9 | 5%Z => 57 | 6%Z => 5 | 7%Z => 53 | _ => 0 end
| 7%Z => match y with
       | 0%Z => 42 | 1%Z => 26 | 2%Z => 38 | 3%Z => 22
       | 4%Z => 41 | 5%Z => 25 | 6%Z => 37 | 7%Z => 21 | _ => 0 end
| _ => 0
end.

Definition reduceColor (color : vec3) (levels : Q) : vec3 :=
map3 (fun c => floor (c * levels) / levels) color.

Definition getBayerThreshold2x2 (x y : Z) : Q :=
let x := int (mod_ (float x) 2) in
let y := int (mod_ (float y) 2) in
if (x =? 0)%Z then
  if (y =? 0)%Z then at_ bayerMatrix2x2 0 0 else at_ bayerMatrix2x2 0 1
else
  if (y =? 0)%Z then at_ bayerMatrix2x2 1 0 else at_ bayerMatrix2x2 1 1.

Definition getBayerThreshold4x4 (x y : Z) : Q :=
let x := int (mod_ (float x) 4) in
let y := int (mod_ (float y) 4) in
let row (c : nat) :=
  if (y =? 0)%Z then at_ bayerMatrix4x4 c 0
  else if (y =? 1)%Z then at_ bayerMatrix4x4 c 1
  else if (y =? 2)%Z then at_ bayerMatrix4x4 c 2
  else at_ bayerMatrix4x4 c 3 in
if (x =? 0)%Z then row 0%nat
else if (x =? 1)%Z then row 1%nat
else if (x =? 2)%Z then row 2%nat
else row 3%nat.

Definition getBayerThreshold8x8 (x y : Z) : Q :=
let x := int (mod_ (float x) 8) in
let y := int (mod_ (float y) 8) in
getBayer8x8Value x y / 64.

Definition adjustContrast (color : vec3) (contrast : Q) : vec3 :=
let factor := if gt contrast 0 then 1 + contrast else 1 / (1 - contrast) in
let adjusted := map3 (fun c => (c - (1 # 2)) * factor + (1 # 2)) color in
clamp3 adjusted 0 1.

Definition adjustHighlights (color : vec3) (highlights : Q) : vec3 :=
let luminance := toGrayscale color in
let highlightMask := smoothstep (1 # 2) 1 luminance in
let factor :=
  if gt highlights 0 then mix 1 (1 # 2) highlights else mix 1 2 (- highlights) in
let adjusted := mix3 color (scale3 color factor) highlightMask in
clamp3 adjusted 0 1.

Section Program.

(** The transcendental built-ins, and the texture units as the draw
call presents them: [texture2D unit coord] is the [rgb] of the
sample. *)
Variable sin : Q -> Q.
Variable pow : Q -> Q -> Q.
Variable texture2D : Z -> vec2 -> vec3.
Variable U : Uniforms.
Variable gl_FragCoord : vec2.

Definition getBayerThreshold (x y : Z) : Q :=
if (u_bayerSize U =? 0)%Z then getBayerThreshold2x2 x y
else if (u_bayerSize U =? 1)%Z then getBayerThreshold4x4 x y
else getBayerThreshold8x8 x y.

Definition adjustMidtones (color : vec3) (midtones : Q) : vec3 :=
let luminance := toGrayscale color in
let midtoneMask := 1 - abs (luminance - (1 # 2)) * 2 in
let midtoneMask := smoothstep 0 (1 # 2) midtoneMask in
let factor :=
if gt midtones 0 then mix 1 (3 # 2) midtones else mix 1 (1 # 2) (- midtones) in
let adjusted := mix3 color (map3 (fun c => pow c factor) color) midtoneMask in
clamp3 adjusted 0 1.

Definition preprocessImage (color : vec3) : vec3 :=
let color := adjustContrast color (u_contrast U) in
let color := adjustHighlights color (u_highlights U) in
let color := adjustMidtones color (u_midtones U) in
let luminance := toGrayscale color in
if neq (u_brightness U) (1 # 2) then
mix3 (splat (step (u_brightness U) luminance)) color (1 # 2)
else color.

Definition findClosestPaletteColor (color : vec3) : vec3 :=
if u_usePalette U then
let lum := toGrayscale color in
texture2D (u_palette U) (lum, 1 # 2)
else color.

Definition applyFloydSteinberg (uv : vec2) (color : vec3) (levels : Q) : vec3 :=
let oldColor := color in
let newColor := reduceColor oldColor levels in
let newColor :=
if u_usePalette U then findClosestPaletteColor oldColor else newColor in
let error := sub3 oldColor newColor in
if (u_passIndex U =? 0)%Z then newColor
else
let errCoord := (fst gl_FragCoord / fst (u_resolution U),
                 snd gl_FragCoord / snd (u_resolution U)) in
let accumulatedError := texture2D (u_errorTexture U) errCoord in
let adjustedColor := add3 oldColor accumulatedError in
let newColor := reduceColor adjustedColor levels in
if u_usePalette U then findClosestPaletteColor adjustedColor else newColor.

(** The opening statements of the Bayer branch of [main]: the side of
the selected matrix, and the threshold of the fragment. *)
Definition matrixSize : Z :=
if (u_bayerSize U =? 0)%Z then 2%Z
else if (u_bayerSize U =? 1)%Z then 4%Z else 8%Z.

Definition bayerThreshold : Q :=
let x := int (mod_ (fst gl_FragCoord) (float matrixSize)) in
let y := int (mod_ (snd gl_FragCoord) (float matrixSize)) in
getBayerThreshold x y.

(** The part of [main] that follows preprocessing: the dispatch on
[u_ditherType], applied to the preprocessed [color]. *)
Definition dither (uv : vec2) (color : vec3) : vec3 :=
if (u_ditherType U =? 0)%Z then
let threshold := bayerThreshold in
let gray := toGrayscale color in
let levels := mix 16 2 (u_ditherAmount U) in
let reduced := reduceColor color levels in
let thresholdColor := if gt gray threshold then splat 1 else splat 0 in
let color := mix3 reduced thresholdColor (u_ditherAmount U) in
if u_usePalette U then findClosestPaletteColor color else color
else if (u_ditherType U =? 2)%Z then
let rand :=
  fract (sin (dot2 uv (129898 # 10000, 78233 # 1000)) * (437585453 # 10000)) in
let thresholdColor :=
  if gt (toGrayscale color) rand then splat 1 else splat 0 in
let color := mix3 color thresholdColor (u_ditherAmount U) in
if u_usePalette U then findClosestPaletteColor color else color
else
let levels := mix 16 2 (u_ditherAmount U) in
applyFloydSteinberg uv color levels.

(** [main]: the [rgb] of [gl_FragColor]; its alpha is 1. *)
Definition main : vec3 :=
let uv := (fst gl_FragCoord / fst (u_resolution U),
         snd gl_FragCoord / snd (u_resolution U)) in
let color := texture2D (u_image U) uv in
let color := preprocessImage color in
dither uv color.

End Program.

End Shader.

(* ================================================================== *)
(** ** The WebGL state the services drive *)
(* ================================================================== *)

Module GL.
Import GLSL.

(** An [HTMLImageElement], decoded: RGBA bytes, top row first. *)
Record HTMLImageElement := {
img_width : Z;
img_height : Z;
img_data : list Z
}.

(** The image of a texture object. *)
Inductive TexImage :=
| NoImage                                         (* never specified *)
| ByteImage (w h : Z) (flipY : bool) (data : list Z)
                                                (* RGBA, UNSIGNED_BYTE *)
| NullImage (w h : Z).                            (* FLOAT, [null] data  *)

Inductive Param := CLAMP_TO_EDGE | REPEAT | LINEAR | NEAREST | NEAREST_MIPMAP_LINEAR.
Inductive PName :=
TEXTURE_WRAP_S | TEXTURE_WRAP_T | TEXTURE_MIN_FILTER | TEXTURE_MAG_FILTER.

Record Texture := {
image : TexImage;
wrap_s : Param;
wrap_t : Param;
min_filter : Param;
mag_filter : Param
}.

Definition newTexture : Texture :=
{| image := NoImage; wrap_s := REPEAT; wrap_t := REPEAT;
   min_filter := NEAREST_MIPMAP_LINEAR; mag_filter := LINEAR |}.

Definition setParam (n : PName) (v : Param) (t : Texture) : Texture :=
match n with
| TEXTURE_WRAP_S =>
    {| image := image t; wrap_s := v; wrap_t := wrap_t t;
       min_filter := min_filter t; mag_filter := mag_filter t |}
| TEXTURE_WRAP_T =>
    {| image := image t; wrap_s := wrap_s t; wrap_t := v;
       min_filter := min_filter t; mag_filter := mag_filter t |}
| TEXTURE_MIN_FILTER =>
    {| image := image t; wrap_s := wrap_s t; wrap_t := wrap_t t;
       min_filter := v; mag_filter := mag_filter t |}
| TEXTURE_MAG_FILTER =>
    {| image := image t; wrap_s := wrap_s t; wrap_t := wrap_t t;
       min_filter := min_filter t; mag_filter := v |}
end.

Definition setImage (i : TexImage) (t : Texture) : Texture :=
{| image := i; wrap_s := wrap_s t; wrap_t := wrap_t t;
   min_filter := min_filter t; mag_filter := mag_filter t |}.

(** *** Sampling *)

Definition byte (data : list Z) (k : Z) : Q := inject_Z (nth (Z.to_nat k) data 0) / 255.

Definition clampIndex (i n : Z) : Z := Z.max 0 (Z.min i (n - 1)).

(** The [rgb] of texel [(i, j)], row 0 at the bottom, the indices
  clamped to the edge. *)
Definition texel (im : TexImage) (i j : Z) : vec3 :=
match im with
| NoImage => (0, 0, 0)%Q
| NullImage _ _ => (0, 0, 0)%Q
| ByteImage w h flipY data =>
    let i := clampIndex i w in
    let j := clampIndex j h in
    let row := if flipY then h - 1 - j else j in
    let k := (row * w + i) * 4 in
    (byte data k, byte data (k + 1), byte data (k + 2))
end.

Definition imageSize (im : TexImage) : Z * Z :=
match im with
| NoImage => (0, 0)
| ByteImage w h _ _ => (w, h)
| NullImage w h => (w, h)
end.

(** [texture2D] on a texture object: nearest or bilinear filtering of the
  base level.  A texture without an image samples as black. *)
Definition sample (t : Texture) (coord : vec2) : vec3 :=
let '(w, h) := imageSize (image t) in
match mag_filter t with
| LINEAR =>
    let u := (fst coord * inject_Z w - (1 # 2))%Q in
    let v := (snd coord * inject_Z h - (1 # 2))%Q in
    let i0 := Qfloor u in
    let j0 := Qfloor v in
    let a := (u - inject_Z i0)%Q in
    let b := (v - inject_Z j0)%Q in
    mix3 (mix3 (texel (image t) i0 j0) (texel (image t) (i0 + 1) j0) a)
         (mix3 (texel (image t) i0 (j0 + 1)) (texel (image t) (i0 + 1) (j0 + 1)) a)
         b
| _ =>
    texel (image t) (Qfloor (fst coord * inject_Z w)) (Qfloor (snd coord * inject_Z h))
end.

(** *** The context *)

Record Context := {
drawingBuffer : list (list vec4);       (* rows, bottom row first *)
viewport_ : Z * Z * Z * Z;
clearColor_ : vec4;
textures : list Texture;                (* texture objects, by name *)
activeTexture_ : Z;
bound : list (Z * option nat);          (* TEXTURE_2D binding of each unit *)
unpackFlipY : bool;
uniforms : Shader.Uniforms
}.

Definition zeroUniforms : Shader.Uniforms :=
{| Shader.u_image := 0; Shader.u_errorTexture := 0; Shader.u_palette := 0;
   Shader.u_resolution := (0, 0)%Q; Shader.u_ditherAmount := 0%Q;
   Shader.u_ditherType := 0; Shader.u_passIndex := 0;
   Shader.u_pixelStep := (0, 0)%Q; Shader.u_bayerSize := 0;
   Shader.u_usePalette := false; Shader.u_contrast := 0%Q;
   Shader.u_highlights := 0%Q; Shader.u_midtones := 0%Q;
   Shader.u_brightness := 0%Q |}.

(** A drawing buffer of [w] by [h] pixels, all of one color. *)
Definition filled (w h : Z) (c : vec4) : list (list vec4) :=
repeat (repeat c (Z.to_nat w)) (Z.to_nat h).

Definition transparentBlack : vec4 := (0, 0, 0, 0)%Q.

Definition newContext (w h : Z) : Context :=
{| drawingBuffer := filled w h transparentBlack;
   viewport_ := (0, 0, w, h);
   clearColor_ := transparentBlack;
   textures := [];
   activeTexture_ := 0;
   bound := [];
   unpackFlipY := false;
   uniforms := zeroUniforms |}.

Definition withBuffer (b : list (list vec4)) (g : Context) : Context :=
{| drawingBuffer := b; viewport_ := viewport_ g; clearColor_ := clearColor_ g;
   textures := textures g; activeTexture_ := activeTexture_ g; bound := bound g;
   unpackFlipY := unpackFlipY g; uniforms := uniforms g |}.

Definition withTextures (ts : list Texture) (g : Context) : Context :=
{| drawingBuffer := drawingBuffer g; viewport_ := viewport_ g;
   clearColor_ := clearColor_ g; textures := ts;
   activeTexture_ := activeTexture_ g; bound := bound g;
   unpackFlipY := unpackFlipY g; uniforms := uniforms g |}.

Definition withUniforms (u : Shader.Uniforms) (g : Context) : Context :=
{| drawingBuffer := drawingBuffer g; viewport_ := viewport_ g;
   clearColor_ := clearColor_ g; textures := textures g;
   activeTexture_ := activeTexture_ g; bound := bound g;
   unpackFlipY := unpackFlipY g; uniforms := u |}.

(** The texture bound to [unit], when there is one. *)
Fixpoint lookup (unit : Z) (b : list (Z * option nat)) : option nat :=
match b with
| [] => None
| (u, t) :: r => if u =? unit then t else lookup unit r
end.

Definition boundTexture (g : Context) (unit : Z) : option Texture :=
match lookup unit (bound g) with
| Some n => nth_error (textures g) n
| None => None
end.

(** What a sampler uniform set to [unit] reads. *)
Definition sampleUnit (g : Context) (unit : Z) (coord : vec2) : vec3 :=
match boundTexture g unit with
| Some t => sample t coord
| None => (0, 0, 0)%Q
end.

Fixpoint updateNth {A} (n : nat) (f : A -> A) (l : list A) : list A :=
match l, n with
| [], _ => []
| x :: r, O => f x :: r
| x :: r, S n' => x :: updateNth n' f r
end.

(** Apply [f] to the texture bound to the active unit. *)
Definition onBound (f : Texture -> Texture) (g : Context) : Context :=
match lookup (activeTexture_ g) (bound g) with
| Some n => withTextures (updateNth n f (textures g)) g
| None => g
end.

(** *** State changes of the API calls *)

Definition viewport (x y w h : Z) (g : Context) : Context :=
{| drawingBuffer := drawingBuffer g; viewport_ := (x, y, w, h);
   clearColor_ := clearColor_ g; textures := textures g;
   activeTexture_ := activeTexture_ g; bound := bound g;
   unpackFlipY := unpackFlipY g; uniforms := uniforms g |}.

Definition clearColor (c : vec4) (g : Context) : Context :=
{| drawingBuffer := drawingBuffer g; viewport_ := viewport_ g;
   clearColor_ := c; textures := textures g;
   activeTexture_ := activeTexture_ g; bound := bound g;
   unpackFlipY := unpackFlipY g; uniforms := uniforms g |}.

(** [clear(COLOR_BUFFER_BIT)]: no scissor test is ever enabled. *)
Definition clear (g : Context) : Context :=
withBuffer (List.map (List.map (fun _ => clearColor_ g)) (drawingBuffer g)) g.

Definition activeTexture (unit : Z) (g : Context) : Context :=
{| drawingBuffer := drawingBuffer g; viewport_ := viewport_ g;
   clearColor_ := clearColor_ g; textures := textures g;
   activeTexture_ := unit; bound := bound g;
   unpackFlipY := unpackFlipY g; uniforms := uniforms g |}.

Definition bindTexture (t : option nat) (g : Context) : Context :=
{| drawingBuffer := drawingBuffer g; viewport_ := viewport_ g;
   clearColor_ := clearColor_ g; textures := textures g;
   activeTexture_ := activeTexture_ g;
   bound := (activeTexture_ g, t) :: bound g;
   unpackFlipY := unpackFlipY g; uniforms := uniforms g |}.

Definition pixelStorei_flipY (b : bool) (g : Context) : Context :=
{| drawingBuffer := drawingBuffer g; viewport_ := viewport_ g;
   clearColor_ := clearColor_ g; textures := textures g;
   activeTexture_ := activeTexture_ g; bound := bound g;
   unpackFlipY := b; uniforms := uniforms g |}.

(** [createTexture]: the new object's name is its place in the table. *)
Definition createTexture (g : Context) : nat * Context :=
(List.length (textures g), withTextures (textures g ++ [newTexture]) g).

Definition texParameteri (n : PName) (v : Param) : Context -> Context :=
onBound (setParam n v).

Definition texImage2D_image (img : HTMLImageElement) (g : Context) : Context :=
onBound (setImage (ByteImage (img_width img) (img_height img) (unpackFlipY g)
                             (img_data img))) g.

Definition texImage2D_bytes (w h : Z) (data : list Z) (g : Context) : Context :=
onBound (setImage (ByteImage w h (unpackFlipY g) data)) g.

Definition texImage2D_null (w h : Z) : Context -> Context :=
onBound (setImage (NullImage w h)).

(** *** Uniforms

  [getUniformLocation] answers with the uniform's name; the setters
  dispatch on it.  A name the program does not have is ignored. *)

Definition setU (loc : string) (i : Z) (f : Q) (v : vec2) (u : Shader.Uniforms)
: Shader.Uniforms :=
let pick {A} (n : string) (new old : A) : A := if String.eqb loc n then new else old in
{| Shader.u_image := pick "u_image" i (Shader.u_image u);
   Shader.u_errorTexture := pick "u_errorTexture" i (Shader.u_errorTexture u);
   Shader.u_palette := pick "u_palette" i (Shader.u_palette u);
   Shader.u_resolution := pick "u_resolution" v (Shader.u_resolution u);
   Shader.u_ditherAmount := pick "u_ditherAmount" f (Shader.u_ditherAmount u);
   Shader.u_ditherType := pick "u_ditherType" i (Shader.u_ditherType u);
   Shader.u_passIndex := pick "u_passIndex" i (Shader.u_passIndex u);
   Shader.u_pixelStep := pick "u_pixelStep" v (Shader.u_pixelStep u);
   Shader.u_bayerSize := pick "u_bayerSize" i (Shader.u_bayerSize u);
   Shader.u_usePalette := pick "u_usePalette" (negb (i =? 0)) (Shader.u_usePalette u);
   Shader.u_contrast := pick "u_contrast" f (Shader.u_contrast u);
   Shader.u_highlights := pick "u_highlights" f (Shader.u_highlights u);
   Shader.u_midtones := pick "u_midtones" f (Shader.u_midtones u);
   Shader.u_brightness := pick "u_brightness" f (Shader.u_brightness u) |}.

Definition isInt (loc : string) : bool :=
existsb (String.eqb loc)
  ["u_image"; "u_errorTexture"; "u_palette"; "u_ditherType"; "u_passIndex";
   "u_bayerSize"; "u_usePalette"].

Definition isFloat (loc : string) : bool :=
existsb (String.eqb loc)
  ["u_ditherAmount"; "u_contrast"; "u_highlights"; "u_midtones"; "u_brightness"].

Definition isVec2 (loc : string) : bool :=
existsb (String.eqb loc) ["u_resolution"; "u_pixelStep"].

Definition uniform1i (loc : string) (x : Z) (g : Context) : Context :=
if isInt loc
then withUniforms (setU loc x 0%Q (0, 0)%Q (uniforms g)) g else g.

Definition uniform1f (loc : string) (x : Q) (g : Context) : Context :=
if isFloat loc
then withUniforms (setU loc 0 x (0, 0)%Q (uniforms g)) g else g.

Definition uniform2f (loc : string) (x y : Q) (g : Context) : Context :=
if isVec2 loc
then withUniforms (setU loc 0 0%Q (x, y) (uniforms g)) g else g.

(** *** The draw call

  The vertex buffer holds the full-screen quad of [setupPositionBuffer],
  so [drawArrays(TRIANGLE_STRIP, 0, 4)] runs the fragment program once
  for every pixel of the viewport, on the default framebuffer. *)

Fixpoint imap {A B} (f : Z -> A -> B) (i : Z) (l : list A) : list B :=
match l with
| [] => []
| x :: r => f i x :: imap f (i + 1) r
end.

(** [gl_FragCoord.xy] of pixel [(x, y)]: its centre. *)
Definition fragCoord (x y : Z) : vec2 :=
(inject_Z x + (1 # 2), inject_Z y + (1 # 2))%Q.

Definition covered (g : Context) (x y : Z) : bool :=
let '(vx, vy, vw, vh) := viewport_ g in
(vx <=? x) && (x <? vx + vw) && (vy <=? y) && (y <? vy + vh).

Section Draw.
Variable sin : Q -> Q.
Variable pow : Q -> Q -> Q.

Definition fragment (g : Context) (x y : Z) : vec4 :=
let '(r, gr, b) :=
Shader.main sin pow (sampleUnit g) (uniforms g) (fragCoord x y) in
(r, gr, b, 1%Q).

Definition drawArrays (g : Context) : Context :=
withBuffer
(imap (fun y row =>
         imap (fun x old => if covered g x y then fragment g x y else old) 0 row)
      0 (drawingBuffer g))
g.
End Draw.

End GL.

(* ================================================================== *)
(** ** The browser side: canvas, service state, failures *)
(* ================================================================== *)

Module Browser.
Import GL.

(** The canvas handed to the service.  [context] is the state of its
  WebGL context, which [getContext] hands out when WebGL is supported. *)
Record Canvas := {
offscreen : bool;             (* an [OffscreenCanvas] *)
canvas_width : Z;
canvas_height : Z;
context : Context
}.

(** The API calls that can raise an exception. *)
Inductive Call :=
| c_instanceof | c_getContext
| c_createShader | c_shaderSource | c_compileShader | c_getShaderParameter
| c_getShaderInfoLog | c_deleteShader
| c_createProgram | c_attachShader | c_linkProgram | c_getProgramParameter
| c_getProgramInfoLog | c_useProgram
| c_createBuffer | c_bindBuffer | c_bufferData | c_getAttribLocation
| c_enableVertexAttribArray | c_vertexAttribPointer
| c_createTexture | c_bindTexture | c_texParameteri | c_pixelStorei
| c_texImage2D | c_activeTexture
| c_viewport | c_clearColor | c_clear
| c_getUniformLocation | c_uniform1i | c_uniform1f | c_uniform2f
| c_bindFramebuffer | c_drawArrays
| c_requestAnimationFrame.

(** The fields of [WebGLService].  [gl] and [program] say whether the
  field holds an object; the context [gl] refers to is the canvas's.
  [calls] is not a field of the class: it records the API calls the
  service has made, so that a statement can say which were made. *)
Record Service := {
gl : bool;
program : bool;
texture : option nat;
errorTexture : option nat;
paletteTexture : option nat;
canvas : option Canvas;
lastPaletteOptions : option (option bool * option Z * option Z
                             * option (list string) * option Z);
isOffscreenCanvas : bool;
calls : list Call             (* ghost: the calls that returned, latest first *)
}.

Inductive ShaderType := VERTEX_SHADER | FRAGMENT_SHADER.
Inductive TextureRole := MainTexture | ErrorTexture | PaletteTexture.

(** What the platform decides: which calls throw, which objects can be
  created, whether the shaders build, and what downsampling returns
  ([None]: the promise is rejected). *)
Record Env := {
throws : Call -> bool;
webgl2 : bool;
webgl : bool;
shaderCreated : ShaderType -> bool;
shaderCompiles : ShaderType -> bool;
programCreated : bool;
programLinks : bool;
textureCreated : TextureRole -> bool;
downSampled : HTMLImageElement -> Z -> option HTMLImageElement
}.

(** *** Computations over the service state that may throw

  An exception leaves the state as the throwing statement found it. *)

Inductive Outcome (A : Type) :=
| Ret (a : A)
| Throw.
Arguments Ret {A} a.
Arguments Throw {A}.

Definition M (A : Type) : Type := Service -> Outcome A * Service.

Definition ret {A} (a : A) : M A := fun s => (Ret a, s).

Definition throw {A} : M A := fun s => (Throw, s).

Definition bind {A B} (c : M A) (k : A -> M B) : M B :=
fun s =>
  match c s with
  | (Ret a, s') => k a s'
  | (Throw, s') => (Throw, s')
  end.

(** [try { c } catch (error) { h }] *)
Definition try_catch {A} (c : M A) (h : M A) : M A :=
fun s =>
  match c s with
  | (Ret a, s') => (Ret a, s')
  | (Throw, s') => h s'
  end.

Definition get : M Service := fun s => (Ret s, s).
Definition modify (f : Service -> Service) : M unit := fun s => (Ret tt, f s).

Definition withCanvas (c : option Canvas) (s : Service) : Service :=
{| gl := gl s; program := program s; texture := texture s;
   errorTexture := errorTexture s; paletteTexture := paletteTexture s;
   canvas := c; lastPaletteOptions := lastPaletteOptions s;
   isOffscreenCanvas := isOffscreenCanvas s;
   calls := calls s |}.

Definition record (c : Call) (s : Service) : Service :=
{| gl := gl s; program := program s; texture := texture s;
   errorTexture := errorTexture s; paletteTexture := paletteTexture s;
   canvas := canvas s; lastPaletteOptions := lastPaletteOptions s;
   isOffscreenCanvas := isOffscreenCanvas s; calls := c :: calls s |}.

Definition withContext (g : Context) (c : Canvas) : Canvas :=
{| offscreen := offscreen c; canvas_width := canvas_width c;
   canvas_height := canvas_height c; context := g |}.

Definition setGl (b : bool) (s : Service) : Service :=
{| gl := b; program := program s; texture := texture s;
   errorTexture := errorTexture s; paletteTexture := paletteTexture s;
   canvas := canvas s; lastPaletteOptions := lastPaletteOptions s;
   isOffscreenCanvas := isOffscreenCanvas s;
   calls := calls s |}.

Definition setProgram (b : bool) (s : Service) : Service :=
{| gl := gl s; program := b; texture := texture s;
   errorTexture := errorTexture s; paletteTexture := paletteTexture s;
   canvas := canvas s; lastPaletteOptions := lastPaletteOptions s;
   isOffscreenCanvas := isOffscreenCanvas s;
   calls := calls s |}.

Definition setTexture (t : option nat) (s : Service) : Service :=
{| gl := gl s; program := program s; texture := t;
   errorTexture := errorTexture s; paletteTexture := paletteTexture s;
   canvas := canvas s; lastPaletteOptions := lastPaletteOptions s;
   isOffscreenCanvas := isOffscreenCanvas s;
   calls := calls s |}.

Definition setErrorTexture (t : option nat) (s : Service) : Service :=
{| gl := gl s; program := program s; texture := texture s;
   errorTexture := t; paletteTexture := paletteTexture s;
   canvas := canvas s; lastPaletteOptions := lastPaletteOptions s;
   isOffscreenCanvas := isOffscreenCanvas s;
   calls := calls s |}.

Definition setPaletteTexture (t : option nat) (s : Service) : Service :=
{| gl := gl s; program := program s; texture := texture s;
   errorTexture := errorTexture s; paletteTexture := t;
   canvas := canvas s; lastPaletteOptions := lastPaletteOptions s;
   isOffscreenCanvas := isOffscreenCanvas s;
   calls := calls s |}.

Definition setLastPaletteOptions
         (k : option (option bool * option Z * option Z * option (list string) * option Z))
         (s : Service) : Service :=
{| gl := gl s; program := program s; texture := texture s;
   errorTexture := errorTexture s; paletteTexture := paletteTexture s;
   canvas := canvas s; lastPaletteOptions := k;
   isOffscreenCanvas := isOffscreenCanvas s;
   calls := calls s |}.

Definition setIsOffscreenCanvas (b : bool) (s : Service) : Service :=
{| gl := gl s; program := program s; texture := texture s;
   errorTexture := errorTexture s; paletteTexture := paletteTexture s;
   canvas := canvas s; lastPaletteOptions := lastPaletteOptions s;
   isOffscreenCanvas := b;
   calls := calls s |}.

(** [canvas.width = w]: the attribute changes and the drawing buffer is
  allocated anew, transparent black.  On [null] the store throws. *)
Definition setCanvasWidth (w : Z) : M unit :=
fun s =>
  match canvas s with
  | Some cv =>
      (Ret tt,
       withCanvas
         (Some {| offscreen := offscreen cv; canvas_width := w;
                  canvas_height := canvas_height cv;
                  context := withBuffer (filled w (canvas_height cv) transparentBlack)
                                        (context cv) |}) s)
  | None => (Throw, s)
  end.

Definition setCanvasHeight (h : Z) : M unit :=
fun s =>
  match canvas s with
  | Some cv =>
      (Ret tt,
       withCanvas
         (Some {| offscreen := offscreen cv; canvas_width := canvas_width cv;
                  canvas_height := h;
                  context := withBuffer (filled (canvas_width cv) h transparentBlack)
                                        (context cv) |}) s)
  | None => (Throw, s)
  end.

Section Calls.
Variable env : Env.

(** A call that does not touch the context. *)
Definition call (c : Call) : M unit :=
fun s => if throws env c then (Throw, s) else (Ret tt, record c s).

(** A call on the context, with a result.  Without a canvas there is
no context to call. *)
Definition glcall {A} (c : Call) (f : Context -> A * Context) : M A :=
fun s =>
if throws env c then (Throw, s)
else
  match canvas s with
  | Some cv =>
      let '(a, g) := f (context cv) in
      (Ret a, record c (withCanvas (Some (withContext g cv)) s))
  | None => (Throw, s)
  end.

(** A call on the context, for its effect. *)
Definition gldo (c : Call) (f : Context -> Context) : M unit :=
glcall c (fun g => (tt, f g)).

End Calls.

End Browser.

Declare Scope service_scope.
Delimit Scope service_scope with service.
Notation "x <- c ;; k" := (Browser.bind c (fun x => k))
  (at level 61, c at next level, right associativity) : service_scope.
Notation "c ;; k" := (Browser.bind c (fun _ => k))
  (at level 61, right associativity) : service_scope.

(* ================================================================== *)
(** ** palette-service.ts *)
(* ================================================================== *)

Module PaletteService.
Import Types.

(** The keys of the [PALETTES] record. *)
Inductive PaletteKey :=
| K_BW | K_CGA | K_GAMEBOY | K_GAMEBOY_CLASSIC | K_GAMEBOY_POCKET
| K_GRAYSCALE | K_SEPIA.

Definition PALETTES (key : PaletteKey) : PaletteDefinition :=
match key with
| K_BW => {| name := "Black & White"; colors := ["#000000"; "#FFFFFF"] |}
| K_CGA => {| name := "CGA"; colors := ["#000000"; "#55FFFF"; "#FF55FF"; "#FFFFFF"] |}
| K_GAMEBOY =>
    {| name := "Gameboy"; colors := ["#0F380F"; "#306230"; "#8BAC0F"; "#9BBC0F"] |}
| K_GAMEBOY_CLASSIC =>
    {| name := "Classic Gameboy";
       colors := ["#0f1b0f"; "#306850"; "#86c06c"; "#e0f8d0"] |}
| K_GAMEBOY_POCKET =>
    {| name := "Gameboy Pocket";
       colors := ["#000000"; "#565656"; "#aaaaaa"; "#ffffff"] |}
| K_GRAYSCALE =>
    {| name := "Grayscale";
       colors := ["#000000"; "#444444"; "#888888"; "#CCCCCC"; "#FFFFFF"] |}
| K_SEPIA =>
    {| name := "Sepia Tone";
       colors := ["#402417"; "#865C37"; "#C49D5A"; "#E6D1A7"] |}
end.

Definition DEFAULT_USER_PALETTES : list UserPaletteDefinition :=
[ {| up_id := 1; up_name := "Ocean Blue";
     up_colors := ["#001F3F"; "#0074D9"; "#7FDBFF"; "#FFFFFF"] |};
  {| up_id := 2; up_name := "Forest Green";
     up_colors := ["#1D3520"; "#4A7E3A"; "#A3D65C"; "#CBEDA8"] |};
  {| up_id := 3; up_name := "Vintage Red";
     up_colors := ["#4A0000"; "#900000"; "#CE3B3B"; "#FF9999"] |} ].

(** The [switch] over [options.paletteType]. *)
Definition paletteKey (t : option Z) : PaletteKey :=
match t with
| Some 0 => K_BW
| Some 1 => K_CGA
| Some 2 => K_GAMEBOY
| Some 5 => K_GAMEBOY_CLASSIC
| Some 6 => K_GAMEBOY_POCKET
| Some 7 => K_GRAYSCALE
| Some 8 => K_SEPIA
| _ => K_BW
end.

(** One turn of the subsetting loop: [result.push(paletteColors[index])].
  The product [i * step] is finite for every [i] the loop reaches; an
  index that is not a number would push [undefined], written as the
  empty string. *)
Definition pickColor (paletteColors : list string) (step : float) (i : Z)
         (result : list string) : option (list string) :=
let len := Z.of_nat (List.length paletteColors) in
match JS.Math_floor (PrimFloat.mul (JS.toNumber i) step) with
| Some fl =>
    let index := Z.min fl (len - 1) in
    Some (result ++ [match JS.index paletteColors index with
                     | Some c => c
                     | None => EmptyString
                     end])%list
| None => Some (result ++ [EmptyString])%list
end.

(** [getPaletteColors] *)
Definition getPaletteColors (options : DitherOptions) : list string :=
match usePalette options with
| Some true =>
    let custom :=
      match paletteType options, customPalette options with
      | Some 3, Some c => Some c
      | _, _ => None
      end in
    match custom with
    | Some c => c
    | None =>
        let user :=
          match paletteType options, userPalettes options, selectedUserPalette options with
          | Some 4, Some ups, Some sel =>
              match JS.find (fun p => up_id p =? sel) ups with
              | Some selectedPalette => Some (up_colors selectedPalette)
              | None => None
              end
          | _, _, _ => None
          end in
        match user with
        | Some c => c
        | None =>
            let key := paletteKey (paletteType options) in
            let paletteColors := colors (PALETTES key) in
            let len := Z.of_nat (List.length paletteColors) in
            let numColors :=
              match Types.paletteColors options with
              | Some 0 | None => 2
              | Some n => n
              end in
            if numColors >=? len then paletteColors
            else
              let step := PrimFloat.div (JS.toNumber len) (JS.toNumber numColors) in
              match JS.for_loop (Z.to_nat numColors) 0
                      (pickColor paletteColors step) [] with
              | Some result => result
              | None => []
              end
        end
    end
| _ => []
end.

Definition width : Z := 256.
Definition height : Z := 1.

(** [colorIndex] for lookup position [i] and a palette of [len] colors:
  [Math.min(Math.floor((i / (width - 1)) * len), len - 1)]. *)
Definition colorIndexAt (len : Z) (i : Z) : option Z :=
let normalizedPos := PrimFloat.div (JS.toNumber i) (JS.toNumber (width - 1)) in
match JS.Math_floor (PrimFloat.mul normalizedPos (JS.toNumber len)) with
| Some colorIndex => Some (Z.min colorIndex (len - 1))
| None => None
end.

(** The body of the rasterization loop.  [None] is the [TypeError] of
  [hexToRgb(undefined)], raised when [colors[colorIndex]] does not
  exist. *)
Definition fillTexel (colors : list string) (i : Z) (data : list Z) : option (list Z) :=
match colorIndexAt (Z.of_nat (List.length colors)) i with
| Some colorIndex =>
    match JS.index colors colorIndex with
    | Some hex =>
        let '(r, g, b) := ColorUtils.hexToRgb hex in
        let offset := Z.to_nat (i * 4) in
        let data := JS.store offset (JS.toUint8 r) data in
        let data := JS.store (offset + 1) (JS.toUint8 g) data in
        let data := JS.store (offset + 2) (JS.toUint8 b) data in
        Some (JS.store (offset + 3) (JS.toUint8 255) data)
    | None => None
    end
| None => None
end.

(** The pixel buffer both [createPaletteTexture] and
  [updatePaletteTexture] build before the upload: 256 RGBA texels. *)
Definition paletteData (colors : list string) : option (list Z) :=
JS.for_loop (Z.to_nat width) 0 (fillTexel colors)
            (repeat 0 (Z.to_nat (width * 4))).

(** *** The texture functions *)

Section Textures.
Import Browser.
Import GL.
Local Open Scope service_scope.
Variable env : Env.

(** Run the rasterization loop; its [TypeError] is an exception. *)
Definition rasterize (colors : list string) : M (list Z) :=
match paletteData colors with
| Some data => ret data
| None => throw
end.

(** [createPaletteTexture]; [None] is [null]. *)
Definition createPaletteTexture (colors : list string) : M (option nat) :=
if (List.length colors =? 0)%nat then ret None
else
texture <- glcall env c_createTexture
             (fun g => if textureCreated env PaletteTexture
                       then let '(n, g') := createTexture g in (Some n, g')
                       else (None, g)) ;;
match texture with
| None => ret None
| Some t =>
    gldo env c_bindTexture (bindTexture (Some t)) ;;
    data <- rasterize colors ;;
    gldo env c_texImage2D (texImage2D_bytes width height data) ;;
    gldo env c_texParameteri (texParameteri TEXTURE_WRAP_S CLAMP_TO_EDGE) ;;
    gldo env c_texParameteri (texParameteri TEXTURE_WRAP_T CLAMP_TO_EDGE) ;;
    gldo env c_texParameteri (texParameteri TEXTURE_MIN_FILTER LINEAR) ;;
    gldo env c_texParameteri (texParameteri TEXTURE_MAG_FILTER LINEAR) ;;
    ret (Some t)
end.

(** [updatePaletteTexture] *)
Definition updatePaletteTexture (texture : nat) (colors : list string) : M unit :=
gldo env c_bindTexture (bindTexture (Some texture)) ;;
data <- rasterize colors ;;
gldo env c_texImage2D (texImage2D_bytes width height data).

End Textures.

(** Texel [i] of such a buffer. *)
Definition texelAt (data : list Z) (i : Z) : Z * Z * Z * Z :=
let offset := Z.to_nat (i * 4) in
(nth offset data 0, nth (offset + 1) data 0,
 nth (offset + 2) data 0, nth (offset + 3) data 0).

End PaletteService.

(* ================================================================== *)
(** ** shader-service.ts *)
(* ================================================================== *)

Module ShaderService.
Import Browser.
Local Open Scope service_scope.

Section WithEnv.
Variable env : Env.

(** [createShader]: whether a compiled shader is returned. *)
Definition createShader (type : ShaderType) : M bool :=
call env c_createShader ;;
if negb (shaderCreated env type) then ret false
else
call env c_shaderSource ;;
call env c_compileShader ;;
call env c_getShaderParameter ;;
if negb (shaderCompiles env type) then
  call env c_getShaderInfoLog ;;
  call env c_deleteShader ;;
  ret false
else ret true.

(** [createProgram]: whether a linked program is returned. *)
Definition createProgram : M bool :=
call env c_createProgram ;;
if negb (programCreated env) then ret false
else
call env c_attachShader ;;
call env c_attachShader ;;
call env c_linkProgram ;;
call env c_getProgramParameter ;;
if negb (programLinks env) then
  call env c_getProgramInfoLog ;;
  ret false
else ret true.

End WithEnv.
End ShaderService.

(* ================================================================== *)
(** ** texture-service.ts *)
(* ================================================================== *)

Module TextureService.
Import Browser.
Import GL.
Local Open Scope service_scope.

Section WithEnv.
Variable env : Env.

Definition newTextureObject (role : TextureRole) : M (option nat) :=
glcall env c_createTexture
(fun g => if textureCreated env role
          then let '(n, g') := createTexture g in (Some n, g')
          else (None, g)).

Definition createMainTexture : M (option nat) :=
texture <- newTextureObject MainTexture ;;
match texture with
| None => ret None
| Some t =>
  gldo env c_bindTexture (bindTexture (Some t)) ;;
  gldo env c_texParameteri (texParameteri TEXTURE_WRAP_S CLAMP_TO_EDGE) ;;
  gldo env c_texParameteri (texParameteri TEXTURE_WRAP_T CLAMP_TO_EDGE) ;;
  gldo env c_texParameteri (texParameteri TEXTURE_MIN_FILTER LINEAR) ;;
  gldo env c_texParameteri (texParameteri TEXTURE_MAG_FILTER LINEAR) ;;
  ret (Some t)
end.

Definition createErrorTexture : M (option nat) :=
texture <- newTextureObject ErrorTexture ;;
match texture with
| None => ret None
| Some t =>
  gldo env c_bindTexture (bindTexture (Some t)) ;;
  gldo env c_texParameteri (texParameteri TEXTURE_WRAP_S CLAMP_TO_EDGE) ;;
  gldo env c_texParameteri (texParameteri TEXTURE_WRAP_T CLAMP_TO_EDGE) ;;
  gldo env c_texParameteri (texParameteri TEXTURE_MIN_FILTER NEAREST) ;;
  gldo env c_texParameteri (texParameteri TEXTURE_MAG_FILTER NEAREST) ;;
  ret (Some t)
end.

Definition loadImageTexture (texture : nat) (image : HTMLImageElement) : M unit :=
gldo env c_bindTexture (bindTexture (Some texture)) ;;
gldo env c_pixelStorei (pixelStorei_flipY true) ;;
gldo env c_texImage2D (texImage2D_image image).

Definition setupErrorTexture (texture : nat) (width height : Z) : M unit :=
gldo env c_bindTexture (bindTexture (Some texture)) ;;
gldo env c_texImage2D (texImage2D_null width height).

End WithEnv.
End TextureService.

(* ================================================================== *)
(** ** renderer-service.ts *)
(* ================================================================== *)

Module RendererService.
Import Types.
Import Browser.
Import GL.
Local Open Scope service_scope.

Section WithEnv.
Variable sin : Q -> Q.
Variable pow : Q -> Q -> Q.
Variable env : Env.

Definition getUniformLocation (name : string) : M string :=
glcall env c_getUniformLocation (fun g => (name, g)).

(** [renderFloydSteinberg]; [texture] may be [null]. *)
Definition renderFloydSteinberg (texture : option nat) (errorTexture : nat)
       (width height : Z) : M bool :=
try_catch
(gldo env c_bindTexture (bindTexture (Some errorTexture)) ;;
 gldo env c_texImage2D (texImage2D_null width height) ;;
 passIndexLocation <- getUniformLocation "u_passIndex" ;;
 imageLocation <- getUniformLocation "u_image" ;;
 errorTextureLocation <- getUniformLocation "u_errorTexture" ;;
 gldo env c_uniform1i (uniform1i passIndexLocation 0) ;;
 gldo env c_activeTexture (activeTexture 0) ;;
 gldo env c_bindTexture (bindTexture texture) ;;
 gldo env c_uniform1i (uniform1i imageLocation 0) ;;
 gldo env c_activeTexture (activeTexture 1) ;;
 gldo env c_bindTexture (bindTexture (Some errorTexture)) ;;
 gldo env c_uniform1i (uniform1i errorTextureLocation 1) ;;
 call env c_bindFramebuffer ;;
 gldo env c_drawArrays (drawArrays sin pow) ;;
 gldo env c_uniform1i (uniform1i passIndexLocation 1) ;;
 gldo env c_activeTexture (activeTexture 0) ;;
 gldo env c_bindTexture (bindTexture texture) ;;
 gldo env c_activeTexture (activeTexture 1) ;;
 gldo env c_bindTexture (bindTexture (Some errorTexture)) ;;
 gldo env c_drawArrays (drawArrays sin pow) ;;
 ret true)
(ret false).

Definition renderStandardDither : M bool :=
try_catch
(gldo env c_drawArrays (drawArrays sin pow) ;;
 ret true)
(ret false).

Definition orElse {A} (o : option A) (d : A) : A :=
match o with Some a => a | None => d end.

Definition setupShaderUniforms (image : HTMLImageElement) (options : DitherOptions)
       (paletteTexture : option nat) : M unit :=
gldo env c_activeTexture (activeTexture 0) ;;
imageLocation <- getUniformLocation "u_image" ;;
gldo env c_uniform1i (uniform1i imageLocation 0) ;;
resolutionLocation <- getUniformLocation "u_resolution" ;;
gldo env c_uniform2f
(uniform2f resolutionLocation (inject_Z (img_width image))
           (inject_Z (img_height image))) ;;
ditherAmountLocation <- getUniformLocation "u_ditherAmount" ;;
gldo env c_uniform1f (uniform1f ditherAmountLocation (ditherAmount options)) ;;
ditherTypeLocation <- getUniformLocation "u_ditherType" ;;
gldo env c_uniform1i (uniform1i ditherTypeLocation (ditherType options)) ;;
bayerSizeLocation <- getUniformLocation "u_bayerSize" ;;
gldo env c_uniform1i (uniform1i bayerSizeLocation (orElse (bayerSize options) 1)) ;;
contrastLocation <- getUniformLocation "u_contrast" ;;
gldo env c_uniform1f (uniform1f contrastLocation (orElse (contrast options) 0%Q)) ;;
highlightsLocation <- getUniformLocation "u_highlights" ;;
gldo env c_uniform1f
(uniform1f highlightsLocation (orElse (highlights options) 0%Q)) ;;
midtonesLocation <- getUniformLocation "u_midtones" ;;
gldo env c_uniform1f (uniform1f midtonesLocation (orElse (midtones options) 0%Q)) ;;
brightnessLocation <- getUniformLocation "u_brightness" ;;
gldo env c_uniform1f
(uniform1f brightnessLocation (orElse (brightness options) (1 # 2)%Q)) ;;
pixelStepLocation <- getUniformLocation "u_pixelStep" ;;
gldo env c_uniform2f
(uniform2f pixelStepLocation (1 / inject_Z (img_width image))%Q
           (1 / inject_Z (img_height image))%Q) ;;
usePaletteLocation <- getUniformLocation "u_usePalette" ;;
gldo env c_uniform1i
(uniform1i usePaletteLocation
           (match usePalette options with Some true => 1 | _ => 0 end)) ;;
match paletteTexture with
| Some t =>
  paletteLocation <- getUniformLocation "u_palette" ;;
  gldo env c_activeTexture (activeTexture 2) ;;
  gldo env c_bindTexture (bindTexture (Some t)) ;;
  gldo env c_uniform1i (uniform1i paletteLocation 2) ;;
  gldo env c_activeTexture (activeTexture 0)
| None => ret tt
end.

End WithEnv.
End RendererService.

(* ================================================================== *)
(** ** webgl-service.ts *)
(* ================================================================== *)

Module WebGLService.
Import Types.
Import Browser.
Import GL.
Local Open Scope service_scope.

(** A service as [new WebGLService()] leaves it. *)
Definition new : Service :=
{| gl := false; program := false; texture := None; errorTexture := None;
   paletteTexture := None; canvas := None; lastPaletteOptions := None;
   isOffscreenCanvas := false; calls := [] |}.

(** The object [updatePaletteIfNeeded] serializes with [JSON.stringify]
  to tell palette settings apart: two such strings are equal exactly
  when the five fields are.  The initial [lastPaletteOptions], the empty
  string, is no such string: it is [None]. *)
Definition PaletteOptionsKey : Type :=
option bool * option Z * option Z * option (list string) * option Z.

Definition paletteOptionsKey (options : DitherOptions) : PaletteOptionsKey :=
(usePalette options, paletteType options, paletteColors options,
 customPalette options, selectedUserPalette options).

Definition key_eq_dec : forall a b : option PaletteOptionsKey, {a = b} + {a <> b}.
Proof.
repeat decide equality;
  auto using Z.eq_dec, Bool.bool_dec, string_dec, list_eq_dec.
Defined.

Section WithEnv.
Variable sin : Q -> Q.
Variable pow : Q -> Q -> Q.
Variable env : Env.

(** [setupPositionBuffer] *)
Definition setupPositionBuffer : M unit :=
s <- get ;;
if negb (gl s) || negb (program s) then ret tt
else
call env c_createBuffer ;;
call env c_bindBuffer ;;
call env c_bufferData ;;
call env c_getAttribLocation ;;
call env c_enableVertexAttribArray ;;
call env c_vertexAttribPointer.

(** [setupWebGL] *)
Definition setupWebGL (canvas : Canvas) : M bool :=
try_catch
(modify (withCanvas (Some canvas)) ;;
 call env c_instanceof ;;
 modify (setIsOffscreenCanvas (offscreen canvas)) ;;
 call env c_getContext ;;
 context <- (if webgl2 env then ret true
             else call env c_getContext ;; ret (webgl env)) ;;
 modify (setGl context) ;;
 if negb context then ret false
 else
   vertexShader <- ShaderService.createShader env VERTEX_SHADER ;;
   fragmentShader <- ShaderService.createShader env FRAGMENT_SHADER ;;
   if negb vertexShader || negb fragmentShader then ret false
   else
     program <- ShaderService.createProgram env ;;
     modify (setProgram program) ;;
     if negb program then ret false
     else
       call env c_useProgram ;;
       setupPositionBuffer ;;
       texture <- TextureService.createMainTexture env ;;
       modify (setTexture texture) ;;
       errorTexture <- TextureService.createErrorTexture env ;;
       modify (setErrorTexture errorTexture) ;;
       paletteTexture <-
         PaletteService.createPaletteTexture env ["#000000"; "#FFFFFF"] ;;
       modify (setPaletteTexture paletteTexture) ;;
       ret true)
(ret false).

(** [updatePaletteIfNeeded] *)
Definition updatePaletteIfNeeded (options : DitherOptions) : M unit :=
s <- get ;;
match gl s, paletteTexture s with
| true, Some paletteTexture =>
  let paletteOptionsKey := paletteOptionsKey options in
  if key_eq_dec (lastPaletteOptions s) (Some paletteOptionsKey) then ret tt
  else
    let colors := PaletteService.getPaletteColors options in
    (if negb (List.length colors =? 0)%nat
     then PaletteService.updatePaletteTexture env paletteTexture colors
     else PaletteService.updatePaletteTexture env paletteTexture
            ["#000000"; "#FFFFFF"]) ;;
    modify (setLastPaletteOptions (Some paletteOptionsKey))
| _, _ => ret tt
end.

(** The image [ditherImage] goes on with, after the optional
downsampling; a rejected downsampling falls back to the original. *)
Definition processedImage (image : HTMLImageElement) (options : DitherOptions)
: HTMLImageElement :=
let downSamplingFactor :=
match downSampling options with
| Some 0 | None => 1
| Some f => f
end in
if 1 <? downSamplingFactor then
match downSampled env image downSamplingFactor with
| Some small => small
| None => image
end
else image.

(** [ditherImage]: the value the returned promise settles with. *)
Definition ditherImage (image : HTMLImageElement) (options : DitherOptions) : M bool :=
s <- get ;;
match gl s, program s, canvas s with
| true, true, Some _ =>
  let processedImage := processedImage image options in
  try_catch
    (call env c_requestAnimationFrame ;;
     setCanvasWidth (img_width processedImage) ;;
     setCanvasHeight (img_height processedImage) ;;
     gldo env c_viewport
       (viewport 0 0 (img_width processedImage) (img_height processedImage)) ;;
     gldo env c_clearColor (clearColor (0, 0, 0, 0)%Q) ;;
     gldo env c_clear clear ;;
     (match texture s with
      | Some t =>
          gldo env c_activeTexture (activeTexture 0) ;;
          TextureService.loadImageTexture env t processedImage
      | None => ret tt
      end) ;;
     gldo env c_activeTexture (activeTexture 0) ;;
     updatePaletteIfNeeded options ;;
     s' <- get ;;
     RendererService.setupShaderUniforms env processedImage options
       (paletteTexture s') ;;
     if ditherType options =? 1 then
       match errorTexture s with
       | Some e =>
           RendererService.renderFloydSteinberg sin pow env (texture s) e
             (img_width processedImage) (img_height processedImage)
       | None => ret false
       end
     else
       gldo env c_activeTexture (activeTexture 0) ;;
       gldo env c_bindTexture (bindTexture (texture s)) ;;
       RendererService.renderStandardDither sin pow env)
    (ret false)
| _, _, _ => ret false
end.

End WithEnv.

(** [isUsingOffscreenCanvas] *)
Definition isUsingOffscreenCanvas : M bool :=
s <- get ;; ret (isOffscreenCanvas s).

(** [getCanvas]; [None] is [null]. *)
Definition getCanvas : M (option Canvas) :=
s <- get ;; ret (canvas s).

End WebGLService.

(* ================================================================== *)
(** ** components/controls/ColorPaletteControl.tsx *)
(* ================================================================== *)

Module ColorPaletteControl.
Import Types.

(** [l.filter((x, i) => p(x, i))], the positions counted from [i]. *)
Fixpoint filter_indexed {A} (p : A -> Z -> bool) (i : Z) (l : list A) : list A :=
match l with
| [] => []
| x :: r => if p x i then x :: filter_indexed p (i + 1) r
            else filter_indexed p (i + 1) r
end.

(** [{ ...options, customPalette: newColors }] *)
Definition withCustomPalette (newColors : list string) (o : DitherOptions)
: DitherOptions :=
{| ditherAmount := ditherAmount o; ditherType := ditherType o;
   bayerSize := bayerSize o; downSampling := downSampling o;
   contrast := contrast o; highlights := highlights o; midtones := midtones o;
   brightness := brightness o; usePalette := usePalette o;
   paletteType := paletteType o; paletteColors := paletteColors o;
   customPalette := Some newColors; userPalettes := userPalettes o;
   selectedUserPalette := selectedUserPalette o |}.

(** The initial [customColors]:
  [options.customPalette || ["#000000", "#FFFFFF"]]; an array, even an
  empty one, is truthy. *)
Definition initialCustomColors (options : DitherOptions) : list string :=
match customPalette options with
| Some c => c
| None => ["#000000"; "#FFFFFF"]
end.

(** What a handler leaves: the [customColors] of the component, and the
  options it has handed to [onOptionsChange], if it has called it. *)
Definition Handled : Type := list string * option DitherOptions.

(** The two statements that follow the computation of [newColors]. *)
Definition publish (newColors : list string) (options : DitherOptions) : Handled :=
(newColors,
 match paletteType options with
 | Some 3 => Some (withCustomPalette newColors options)
 | _ => None
 end).

(** [handleAddCustomColor] *)
Definition handleAddCustomColor (customColors : list string) (options : DitherOptions)
: Handled :=
if Z.of_nat (List.length customColors) <? 16 then
  publish (customColors ++ ["#777777"])%list options
else (customColors, None).

(** [handleRemoveCustomColor] *)
Definition handleRemoveCustomColor (customColors : list string) (options : DitherOptions)
         (index : Z) : Handled :=
if 2 <? Z.of_nat (List.length customColors) then
  publish (filter_indexed (fun _ i => negb (i =? index)) 0 customColors) options
else (customColors, None).

End ColorPaletteControl.

(* ================================================================== *)
(** * Properties *)
(* ================================================================== *)

(** ** Arrays and loops *)

Lemma store_length : forall k v a, List.length (JS.store k v a) = List.length a.
Proof.
  intros k v a; revert k; induction a as [|x a IH]; intros [|k]; simpl; auto.
Qed.

Lemma nth_store_same : forall k v a d,
  (k < List.length a)%nat -> nth k (JS.store k v a) d = v.
Proof.
  intros k v a; revert k; induction a as [|x a IH]; intros [|k] d H; simpl in *;
    try lia; auto.
  apply IH; lia.
Qed.

Lemma nth_store_other : forall k j v a d,
  k <> j -> nth j (JS.store k v a) d = nth j a d.
Proof.
  intros k j v a; revert k j; induction a as [|x a IH]; intros [|k] [|j] d H; simpl;
    auto; try congruence.
Qed.

Lemma range_In : forall (n : nat) (z : Z),
  0 <= z < Z.of_nat n -> In z (map Z.of_nat (seq 0 n)).
Proof.
  intros n z H. apply in_map_iff. exists (Z.to_nat z). split; [lia|].
  apply in_seq. lia.
Qed.

(** ** Palette rasterization *)

(** The band of lookup position [i] for [n] colors, in exact arithmetic:
    [min(floor(i/255 * n), n - 1)]. *)
Definition bandOf (n i : Z) : Z := Z.min (i * n / 255) (n - 1).

(** The binary64 computation of the source and the exact one agree on
    every lookup position for up to fifty colors (they part at 51 colors,
    position 155). *)
Definition colorIndex_agrees (nmax : nat) : bool :=
  forallb (fun n =>
    forallb (fun i =>
      match PaletteService.colorIndexAt n i with
      | Some k => k =? bandOf n i
      | None => false
      end) (map Z.of_nat (seq 0 256)))
    (map Z.of_nat (seq 0 nmax)).

Lemma colorIndex_agrees_50 : colorIndex_agrees 51 = true.
Proof. vm_compute. reflexivity. Qed.

Lemma colorIndexAt_exact : forall n i,
  0 <= n <= 50 -> 0 <= i <= 255 ->
  PaletteService.colorIndexAt n i = Some (bandOf n i).
Proof.
  intros n i Hn Hi.
  pose proof colorIndex_agrees_50 as H. unfold colorIndex_agrees in H.
  rewrite forallb_forall in H. specialize (H n (range_In 51 n ltac:(lia))).
  rewrite forallb_forall in H. specialize (H i (range_In 256 i ltac:(lia))).
  destruct (PaletteService.colorIndexAt n i) as [k|]; [|discriminate].
  apply Z.eqb_eq in H. congruence.
Qed.

Example colorIndex_parts_at_51 :
  PaletteService.colorIndexAt 51 155 = Some 30 /\ bandOf 51 155 = 31.
Proof. split; vm_compute; reflexivity. Qed.

Lemma bandOf_range : forall n i, 1 <= n -> 0 <= i -> 0 <= bandOf n i <= n - 1.
Proof.
  intros n i Hn Hi. unfold bandOf.
  assert (0 <= i * n / 255) by (apply Z.div_pos; nia). lia.
Qed.



Lemma band_255 : forall a, 0 <= JS.band a 255 <= 255.
Proof.
  intros a. unfold JS.band. change (JS.toInt32 255) with (Z.ones 8).
  rewrite Z.land_ones by lia.
  pose proof (Z.mod_pos_bound (JS.toInt32 match a with Some z => z | None => 0 end) (2 ^ 8)
                ltac:(lia)). lia.
Qed.

Lemma band_15 : forall a, 0 <= JS.band a 15 <= 15.
Proof.
  intros a. unfold JS.band. change (JS.toInt32 15) with (Z.ones 4).
  rewrite Z.land_ones by lia.
  pose proof (Z.mod_pos_bound (JS.toInt32 match a with Some z => z | None => 0 end) (2 ^ 4)
                ltac:(lia)). lia.
Qed.

(** [hexToRgb] returns bytes, whatever the string. *)
Lemma hexToRgb_bytes : forall hex r g b,
  ColorUtils.hexToRgb hex = (r, g, b) ->
  0 <= r <= 255 /\ 0 <= g <= 255 /\ 0 <= b <= 255.
Proof.
  intros hex r g b. unfold ColorUtils.hexToRgb.
  destruct (Z.of_nat (String.length (JS.dropHash hex)) <=? 3); intros H;
    injection H as <- <- <-.
  - pose proof (band_15 (Some (JS.shr (JS.parseInt16 (JS.dropHash hex)) 8))).
    pose proof (band_15 (Some (JS.shr (JS.parseInt16 (JS.dropHash hex)) 4))).
    pose proof (band_15 (JS.parseInt16 (JS.dropHash hex))). lia.
  - pose proof (band_255 (Some (JS.shr (JS.parseInt16 (JS.dropHash hex)) 16))).
    pose proof (band_255 (Some (JS.shr (JS.parseInt16 (JS.dropHash hex)) 8))).
    pose proof (band_255 (JS.parseInt16 (JS.dropHash hex))). lia.
Qed.

(** The texel a palette of [colors] is meant to hold at position [i]. *)
Definition bandTexel (colors : list string) (i : Z) : option (Z * Z * Z * Z) :=
  match JS.index colors (bandOf (Z.of_nat (List.length colors)) i) with
  | Some hex => let '(r, g, b) := ColorUtils.hexToRgb hex in Some (r, g, b, 255)
  | None => None
  end.

Lemma index_in_range : forall (A : Type) (a : list A) k,
  0 <= k < Z.of_nat (List.length a) -> exists x, JS.index a k = Some x.
Proof.
  intros A a k H. unfold JS.index.
  destruct (k <? 0) eqn:E; [lia|].
  destruct (nth_error a (Z.to_nat k)) eqn:N; [eauto|].
  apply nth_error_None in N. lia.
Qed.

(** One turn of the loop writes texel [i] and nothing else. *)
Lemma fillTexel_spec : forall colors i data,
  1 <= Z.of_nat (List.length colors) <= 50 -> 0 <= i <= 255 ->
  List.length data = 1024%nat ->
  exists data' t,
    PaletteService.fillTexel colors i data = Some data' /\
    List.length data' = 1024%nat /\
    bandTexel colors i = Some t /\
    PaletteService.texelAt data' i = t /\
    (forall j, 0 <= j -> j <> i ->
       PaletteService.texelAt data' j = PaletteService.texelAt data j).
Proof.
  intros colors i data Hn Hi Hlen.
  unfold PaletteService.fillTexel, bandTexel.
  rewrite colorIndexAt_exact by lia.
  destruct (index_in_range _ colors (bandOf (Z.of_nat (List.length colors)) i)) as [hex Hhex].
  { pose proof (bandOf_range (Z.of_nat (List.length colors)) i). lia. }
  rewrite Hhex.
  destruct (ColorUtils.hexToRgb hex) as [[r g] b] eqn:Hrgb.
  destruct (hexToRgb_bytes _ _ _ _ Hrgb) as (Hr & Hg & Hb).
  unfold JS.toUint8. rewrite !Z.mod_small by lia.
  eexists; eexists. split; [reflexivity|].
  split; [rewrite !store_length; exact Hlen|].
  split; [reflexivity|].
  assert (Ho : (Z.to_nat (i * 4) + 3 < 1024)%nat) by lia.
  split.
  - unfold PaletteService.texelAt.
    repeat first
      [ rewrite nth_store_same by (rewrite ?store_length; lia)
      | rewrite nth_store_other by lia ].
    reflexivity.
  - intros j Hj Hne. unfold PaletteService.texelAt.
    rewrite !nth_store_other by lia. reflexivity.
Qed.

(** The loop from position [i] on: it fills the texels [i .. i+k-1] and
    leaves the earlier ones alone. *)
Lemma fill_loop_spec : forall colors,
  1 <= Z.of_nat (List.length colors) <= 50 ->
  forall (k : nat) i data,
    0 <= i -> i + Z.of_nat k <= 256 -> List.length data = 1024%nat ->
    exists data',
      JS.for_loop k i (PaletteService.fillTexel colors) data = Some data' /\
      List.length data' = 1024%nat /\
      (forall j, i <= j < i + Z.of_nat k ->
         Some (PaletteService.texelAt data' j) = bandTexel colors j) /\
      (forall j, 0 <= j < i ->
         PaletteService.texelAt data' j = PaletteService.texelAt data j).
Proof.
  intros colors Hn. induction k as [|k IH]; intros i data Hi Hk Hlen.
  - exists data. simpl. repeat split; auto. intros j Hj; lia.
  - destruct (fillTexel_spec colors i data Hn ltac:(lia) Hlen)
      as (data1 & t & Hfill & Hlen1 & Hband & Hat & Hframe).
    destruct (IH (i + 1) data1 ltac:(lia) ltac:(lia) Hlen1)
      as (data' & Hloop & Hlen' & Hnew & Hold).
    exists data'. simpl. rewrite Hfill. split; [exact Hloop|]. split; [exact Hlen'|].
    split.
    + intros j Hj. destruct (Z.eq_dec j i) as [->|Hne].
      * rewrite Hold by lia. rewrite Hat. symmetry; exact Hband.
      * apply Hnew. lia.
    + intros j Hj. rewrite Hold by lia. apply Hframe; lia.
Qed.



(** ** The fragment program *)

Import GLSL.

Lemma half_div_floor : forall x p, (2 * x + 1) / (2 * Z.pos p) = x / Z.pos p.
Proof.
  intros x p. symmetry. apply (Z.div_unique _ _ _ (2 * (x mod Z.pos p) + 1)).
  - left. pose proof (Z.mod_pos_bound x (Z.pos p) ltac:(lia)). lia.
  - pose proof (Z.div_mod x (Z.pos p) ltac:(lia)). nia.
Qed.

(** At the centre of pixel [x], [int(mod(gl_FragCoord.x, size))] is
    [x mod size]. *)
Lemma int_mod_pixel : forall x p,
  int (mod_ (inject_Z x + (1 # 2)) (float (Z.pos p))) = x mod Z.pos p.
Proof.
  intros x p. unfold int, mod_, floor, float.
  assert (Hfl : Qfloor ((inject_Z x + (1 # 2)) / inject_Z (Z.pos p)) = x / Z.pos p).
  { unfold Qfloor, Qdiv, Qmult, Qplus, Qinv, inject_Z. simpl.
    rewrite <- (half_div_floor x p). rewrite (Pos2Z.inj_xO p). f_equal; lia. }
  rewrite Hfl.
  pose proof (Z.mod_pos_bound x (Z.pos p) ltac:(lia)) as Hb.
  pose proof (Z.div_mod x (Z.pos p) ltac:(lia)) as Hdm.
  assert (Heq : (inject_Z x + (1 # 2) - inject_Z (Z.pos p) * inject_Z (x / Z.pos p)
                 == inject_Z (x mod Z.pos p) + (1 # 2))%Q).
  { rewrite <- inject_Z_mult.
    set (q := x / Z.pos p) in *. set (r := x mod Z.pos p) in *.
    unfold Qeq, Qminus, Qplus, Qopp, inject_Z. cbn -[Z.mul Z.add Z.opp]. lia. }
  assert (Hpos : Qle_bool 0 (inject_Z x + (1 # 2)
                             - inject_Z (Z.pos p) * inject_Z (x / Z.pos p)) = true).
  { apply Qle_bool_iff. rewrite Heq. unfold Qle, Qplus, inject_Z. simpl. lia. }
  rewrite Hpos. rewrite Heq.
  unfold Qfloor, Qplus, inject_Z. simpl.
  symmetry. apply (Z.div_unique _ _ _ 1); lia.
Qed.

Lemma matrixSize_cases : forall U,
  Shader.matrixSize U = 2 \/ Shader.matrixSize U = 4 \/ Shader.matrixSize U = 8.
Proof.
  intros U. unfold Shader.matrixSize.
  destruct (Shader.u_bayerSize U =? 0); [auto|].
  destruct (Shader.u_bayerSize U =? 1); auto.
Qed.

(** The threshold of pixel [(x, y)], read the way [main] reads it. *)
Lemma bayerThreshold_pixel : forall U x y,
  Shader.bayerThreshold U (GL.fragCoord x y)
  = Shader.getBayerThreshold U (x mod Shader.matrixSize U) (y mod Shader.matrixSize U).
Proof.
  intros U x y. unfold Shader.bayerThreshold, GL.fragCoord. cbn [fst snd].
  destruct (matrixSize_cases U) as [-> | [-> | ->]]; rewrite !int_mod_pixel; reflexivity.
Qed.

(** C7.  The Bayer threshold is periodic in both directions, with the side
    of the selected matrix (2, 4 or 8) as its period, at every integer
    pixel coordinate. *)
Theorem bayer_threshold_periodic : forall (U : Shader.Uniforms) (x y : Z),
  (Shader.matrixSize U = 2 \/ Shader.matrixSize U = 4 \/ Shader.matrixSize U = 8) /\
  Shader.bayerThreshold U (GL.fragCoord (x + Shader.matrixSize U) y)
  = Shader.bayerThreshold U (GL.fragCoord x y) /\
  Shader.bayerThreshold U (GL.fragCoord x (y + Shader.matrixSize U))
  = Shader.bayerThreshold U (GL.fragCoord x y).
Proof.
  intros U x y. split; [apply matrixSize_cases|].
  rewrite !bayerThreshold_pixel.
  assert (Hs : Shader.matrixSize U <> 0)
    by (destruct (matrixSize_cases U) as [H | [H | H]]; rewrite H; lia).
  replace (x + Shader.matrixSize U) with (x + 1 * Shader.matrixSize U) by lia.
  replace (y + Shader.matrixSize U) with (y + 1 * Shader.matrixSize U) by lia.
  rewrite !Z_mod_plus_full. split; reflexivity.
Qed.

Example bayer2x2_thresholds :
  let U := GL.zeroUniforms in
  List.map (fun '(x, y) => Qred (Shader.bayerThreshold U (GL.fragCoord x y)))
           [(0, 0); (1, 0); (0, 1); (1, 1); (2, 0); (3, 1); (0, 2)]
  = [0; 3 # 4; 1 # 2; 1 # 4; 0; 1 # 4; 0]%Q.
Proof. vm_compute. reflexivity. Qed.

(** *** Colors up to [==] *)

Lemma eq3_refl : forall v, eq3 v v.
Proof. intros [[r g] b]; simpl; repeat split; reflexivity. Qed.

Lemma eq3_sym : forall v w, eq3 v w -> eq3 w v.
Proof.
  intros [[r g] b] [[r' g'] b'] (H1 & H2 & H3); simpl; repeat split; symmetry; assumption.
Qed.

Lemma eq3_trans : forall u v w, eq3 u v -> eq3 v w -> eq3 u w.
Proof.
  intros [[r g] b] [[r' g'] b'] [[r'' g''] b''] (H1 & H2 & H3) (H4 & H5 & H6); simpl.
  repeat split; etransitivity; eassumption.
Qed.

Lemma mix_at_0 : forall x y a, (a == 0 -> mix x y a == x)%Q.
Proof. intros x y a H. unfold mix. rewrite H. ring. Qed.

Lemma mix_at_1 : forall x y a, (a == 1 -> mix x y a == y)%Q.
Proof. intros x y a H. unfold mix. rewrite H. ring. Qed.

Lemma mix3_at_0 : forall v w a, (a == 0)%Q -> eq3 (mix3 v w a) v.
Proof.
  intros [[r g] b] [[r' g'] b'] a H; simpl; repeat split; apply mix_at_0; exact H.
Qed.

Lemma mix3_at_1 : forall v w a, (a == 1)%Q -> eq3 (mix3 v w a) w.
Proof.
  intros [[r g] b] [[r' g'] b'] a H; simpl; repeat split; apply mix_at_1; exact H.
Qed.

Lemma floor_comp : forall x y, (x == y)%Q -> floor x = floor y.
Proof. intros x y H. unfold floor. rewrite H. reflexivity. Qed.

Lemma reduceColor_levels : forall c l l',
  (l == l')%Q -> eq3 (Shader.reduceColor c l) (Shader.reduceColor c l').
Proof.
  intros [[r g] b] l l' H. unfold Shader.reduceColor. simpl.
  repeat split;
    match goal with
    | |- (floor (?c * l) / l == _)%Q =>
        rewrite (floor_comp (c * l) (c * l')) by (rewrite H; reflexivity);
        rewrite H; reflexivity
    end.
Qed.

Lemma toGrayscale_comp : forall v w, eq3 v w -> (Shader.toGrayscale v == Shader.toGrayscale w)%Q.
Proof.
  intros [[r g] b] [[r' g'] b'] (H1 & H2 & H3). unfold Shader.toGrayscale, dot3.
  rewrite H1, H2, H3. reflexivity.
Qed.

(** [texture coordinates of a fragment]: [gl_FragCoord.xy / u_resolution]. *)
Definition uvOf (U : Shader.Uniforms) (fc : vec2) : vec2 :=
  (fst fc / fst (Shader.u_resolution U), snd fc / snd (Shader.u_resolution U))%Q.

(** The preprocessed color of a fragment: what [main] hands to the
    dithering branches. *)
Definition preprocessed (pow : Q -> Q -> Q) (texture2D : Z -> vec2 -> vec3)
           (U : Shader.Uniforms) (fc : vec2) : vec3 :=
  Shader.preprocessImage pow U (texture2D (Shader.u_image U) (uvOf U fc)).

Lemma main_dither : forall sin pow tex U fc,
  Shader.main sin pow tex U fc
  = Shader.dither sin tex U fc (uvOf U fc) (preprocessed pow tex U fc).
Proof. reflexivity. Qed.

(** *** No dithering: [ditherAmount = 0] *)

Lemma dither_bayer_0 : forall sin tex U fc uv c,
  Shader.u_ditherType U = 0 -> (Shader.u_ditherAmount U == 0)%Q ->
  Shader.u_usePalette U = false ->
  eq3 (Shader.dither sin tex U fc uv c) (Shader.reduceColor c 16).
Proof.
  intros sin tex U fc uv c Ht Ha Hp. unfold Shader.dither. rewrite Ht, Hp. simpl.
  eapply eq3_trans; [apply mix3_at_0; exact Ha|].
  apply reduceColor_levels. apply mix_at_0; exact Ha.
Qed.

Lemma dither_ordered_0 : forall sin tex U fc uv c,
  Shader.u_ditherType U = 2 -> (Shader.u_ditherAmount U == 0)%Q ->
  Shader.u_usePalette U = false ->
  eq3 (Shader.dither sin tex U fc uv c) c.
Proof.
  intros sin tex U fc uv c Ht Ha Hp. unfold Shader.dither. rewrite Ht, Hp. simpl.
  apply mix3_at_0; exact Ha.
Qed.

(** C3, as the code has it.  With [ditherAmount = 0] and no palette, the
    threshold color has no part in the output: a Bayer pixel is the
    preprocessed color quantized at 16 levels, an Ordered pixel is the
    preprocessed color itself, not quantized. *)
Theorem zero_amount_output : forall sin pow tex (U : Shader.Uniforms) fc,
  (Shader.u_ditherAmount U == 0)%Q ->
  Shader.u_usePalette U = false ->
  (Shader.u_ditherType U = 0 ->
   eq3 (Shader.main sin pow tex U fc)
       (Shader.reduceColor (preprocessed pow tex U fc) 16)) /\
  (Shader.u_ditherType U = 2 ->
   eq3 (Shader.main sin pow tex U fc) (preprocessed pow tex U fc)).
Proof.
  intros sin pow tex U fc Ha Hp. rewrite main_dither. split; intros Ht.
  - apply dither_bayer_0; assumption.
  - apply dither_ordered_0; assumption.
Qed.

(** Concrete inputs for the instances below: a texture of one color on
    every unit, and uniforms that differ from zero only where stated. *)
Definition flatTexture (c : vec3) : Z -> vec2 -> vec3 := fun _ _ => c.

Definition uniformsOf (type : Z) (amount : Q) (palette : bool) (pass : Z)
  : Shader.Uniforms :=
  {| Shader.u_image := 0; Shader.u_errorTexture := 1; Shader.u_palette := 2;
     Shader.u_resolution := (1, 1)%Q; Shader.u_ditherAmount := amount;
     Shader.u_ditherType := type; Shader.u_passIndex := pass;
     Shader.u_pixelStep := (1, 1)%Q; Shader.u_bayerSize := 0;
     Shader.u_usePalette := palette; Shader.u_contrast := 0%Q;
     Shader.u_highlights := 0%Q; Shader.u_midtones := 0%Q;
     Shader.u_brightness := (1 # 2)%Q |}.

Definition rust : vec3 := (3 # 5, 1 # 5, 1 # 5)%Q.

Lemma zero_amount_output_witness :
  eq3 (Shader.main (fun _ => 0%Q) (fun x _ => x) (flatTexture rust)
                   (uniformsOf 0 0 false 0) (GL.fragCoord 0 0))
      (Shader.reduceColor
         (preprocessed (fun x _ => x) (flatTexture rust) (uniformsOf 0 0 false 0)
                       (GL.fragCoord 0 0)) 16).
Proof.
  exact (proj1 (zero_amount_output (fun _ => 0%Q) (fun x _ => x) (flatTexture rust)
                  (uniformsOf 0 0 false 0) (GL.fragCoord 0 0)
                  (Qeq_refl 0) eq_refl)
               eq_refl).
Defined.

(** C3 fails for Ordered dithering.  With [ditherAmount = 0] and no
    palette, a pixel whose preprocessed color is (0.6, 0.2, 0.2) comes out
    as (0.6, 0.2, 0.2), whatever [sin] and the textures are; quantized at 16
    levels it would be (9/16, 3/16, 3/16). *)
Lemma ordered_zero_amount_not_quantized :
  (forall sin tex fc uv,
     eq3 (Shader.dither sin tex (uniformsOf 2 0 false 0) fc uv rust) rust) /\
  Shader.reduceColor rust 16 = (9 # 16, 3 # 16, 3 # 16)%Q /\
  ~ eq3 rust (9 # 16, 3 # 16, 3 # 16)%Q.
Proof.
  split; [|split].
  - intros sin tex fc uv. apply dither_ordered_0; reflexivity.
  - vm_compute. reflexivity.
  - simpl. intros (H & _). discriminate H.
Qed.

(** *** Full dithering: [ditherAmount = 1] *)

Definition black : vec3 := (0, 0, 0)%Q.
Definition white : vec3 := (1, 1, 1)%Q.






(** Entry [i] of a lookup buffer, as the sampler returns it. *)
Definition lookupEntry (data : list Z) (i : Z) : vec3 :=
  (GL.byte data (4 * i), GL.byte data (4 * i + 1), GL.byte data (4 * i + 2)).





(** ** Computations over the service state *)

Import Browser.
Local Open Scope service_scope.

Lemma bind_ret_inv : forall {A B} (c : M A) (k : A -> M B) s b s',
  bind c k s = (Ret b, s') ->
  exists a s1, c s = (Ret a, s1) /\ k a s1 = (Ret b, s').
Proof.
  intros A B c k s b s' H. unfold bind in H.
  destruct (c s) as [[a|] s1]; [eauto | discriminate].
Qed.

Lemma try_catch_false_total : forall (c : M bool) s,
  exists b, fst (try_catch c (ret false) s) = Ret b.
Proof.
  intros c s. unfold try_catch, ret. destruct (c s) as [[b|] s1]; simpl; eauto.
Qed.

Lemma try_catch_false_true : forall (c : M bool) s s',
  try_catch c (ret false) s = (Ret true, s') -> c s = (Ret true, s').
Proof.
  intros c s s'. unfold try_catch, ret. destruct (c s) as [[b|] s1]; intros H.
  - exact H.
  - discriminate H.
Qed.

(** [stable f c]: running [c] leaves the observation [f] of the state as
    it was, whether [c] returns or throws. *)
Definition stable {X A} (f : Service -> X) (c : M A) : Prop :=
  forall s, f (snd (c s)) = f s.

(** [triple f x c Q]: from a state observed as [x], [c] ends with an
    outcome and an observation that satisfy [Q]. *)
Definition triple {X A} (f : Service -> X) (x : X) (c : M A)
           (Q : Outcome A -> X -> Prop) : Prop :=
  forall s, f s = x -> Q (fst (c s)) (f (snd (c s))).

Section Rules.
Context {X : Type} (f : Service -> X).

Lemma stable_ret : forall {A} (a : A), stable f (ret a).
Proof. intros A a s. reflexivity. Qed.

Lemma stable_throw : forall {A}, stable f (@throw A).
Proof. intros A s. reflexivity. Qed.

Lemma stable_get : stable f get.
Proof. intros s. reflexivity. Qed.

Lemma stable_bind : forall {A B} (c : M A) (k : A -> M B),
  stable f c -> (forall a, stable f (k a)) -> stable f (bind c k).
Proof.
  intros A B c k Hc Hk s. unfold bind. specialize (Hc s).
  destruct (c s) as [[a|] s1]; simpl in *.
  - rewrite Hk. exact Hc.
  - exact Hc.
Qed.

Lemma stable_try_catch : forall {A} (c h : M A),
  stable f c -> stable f h -> stable f (try_catch c h).
Proof.
  intros A c h Hc Hh s. unfold try_catch. specialize (Hc s).
  destruct (c s) as [[a|] s1]; simpl in *.
  - exact Hc.
  - rewrite Hh. exact Hc.
Qed.

Lemma stable_modify : forall (g : Service -> Service),
  (forall s, f (g s) = f s) -> stable f (modify g).
Proof. intros g Hg s. apply Hg. Qed.

Lemma stable_call : forall env c,
  (forall s, f (record c s) = f s) -> stable f (call env c).
Proof.
  intros env c H s. unfold call. destruct (throws env c); simpl; auto.
Qed.

Lemma stable_glcall : forall env c {A} (h : GL.Context -> A * GL.Context),
  (forall s cv, canvas s = Some cv ->
     f (record c (withCanvas (Some (withContext (snd (h (context cv))) cv)) s)) = f s) ->
  stable f (glcall env c h).
Proof.
  intros env c A h H s. unfold glcall. destruct (throws env c); [reflexivity|].
  destruct (canvas s) as [cv|] eqn:E; [|reflexivity].
  specialize (H s cv E). destruct (h (context cv)) as [a g]. exact H.
Qed.

Lemma triple_stable : forall {A} x (c : M A) (Q : Outcome A -> X -> Prop),
  stable f c -> (forall o, Q o x) -> triple f x c Q.
Proof. intros A x c Q Hc HQ s Hs. rewrite Hc, Hs. apply HQ. Qed.

Lemma triple_ret : forall {A} x (a : A) (Q : Outcome A -> X -> Prop),
  Q (Ret a) x -> triple f x (ret a) Q.
Proof. intros A x a Q HQ s Hs. simpl. rewrite Hs. exact HQ. Qed.

Lemma triple_bind : forall {A B} x (c : M A) (k : A -> M B) R (Q : Outcome B -> X -> Prop),
  triple f x c R ->
  (forall a x1, R (Ret a) x1 -> triple f x1 (k a) Q) ->
  (forall x1, R Throw x1 -> Q Throw x1) ->
  triple f x (bind c k) Q.
Proof.
  intros A B x c k R Q Hc Hk Ht s Hs. specialize (Hc s Hs). unfold bind.
  destruct (c s) as [[a|] s1]; simpl in *.
  - apply (Hk a _ Hc). reflexivity.
  - apply Ht. exact Hc.
Qed.

(** A statement that leaves the observation alone, then the rest. *)
Lemma triple_step : forall {A B} x (c : M A) (k : A -> M B) (Q : Outcome B -> X -> Prop),
  stable f c -> (forall a, triple f x (k a) Q) -> Q Throw x ->
  triple f x (bind c k) Q.
Proof.
  intros A B x c k Q Hc Hk Ht.
  apply (triple_bind x c k (fun _ x1 => x1 = x)).
  - apply triple_stable; auto.
  - intros a x1 ->. apply Hk.
  - intros x1 ->. exact Ht.
Qed.

Lemma triple_try_catch : forall {A} x (c h : M A) R (Q : Outcome A -> X -> Prop),
  triple f x c R ->
  (forall a x1, R (Ret a) x1 -> Q (Ret a) x1) ->
  (forall x1, R Throw x1 -> triple f x1 h Q) ->
  triple f x (try_catch c h) Q.
Proof.
  intros A x c h R Q Hc Hr Hh s Hs. specialize (Hc s Hs). unfold try_catch.
  destruct (c s) as [[a|] s1]; simpl in *.
  - apply Hr. exact Hc.
  - apply (Hh _ Hc). reflexivity.
Qed.

End Rules.

(** ** Draw calls and return values *)

Definition Call_eq_dec : forall a b : Call, {a = b} + {a <> b}.
Proof. decide equality. Defined.

(** The number of [drawArrays] calls the service has made. *)
Definition draws (s : Service) : nat := count_occ Call_eq_dec (calls s) c_drawArrays.

Lemma draws_record : forall c s, c <> c_drawArrays -> draws (record c s) = draws s.
Proof.
  intros c s H. unfold draws, record. simpl calls.
  apply count_occ_cons_neq. exact H.
Qed.

Lemma draws_record_draw : forall s, draws (record c_drawArrays s) = S (draws s).
Proof.
  intros s. unfold draws, record. simpl calls.
  apply count_occ_cons_eq. reflexivity.
Qed.

Lemma stable_draws_call : forall env c, c <> c_drawArrays -> stable draws (call env c).
Proof. intros env c H. apply stable_call. intros s. apply draws_record; exact H. Qed.

Lemma stable_draws_glcall : forall env c {A} (h : GL.Context -> A * GL.Context),
  c <> c_drawArrays -> stable draws (glcall env c h).
Proof.
  intros env c A h H. apply stable_glcall. intros s cv _.
  rewrite draws_record by exact H. reflexivity.
Qed.

Lemma stable_draws_modify : forall g,
  (forall s, calls (g s) = calls s) -> stable draws (modify g).
Proof. intros g H. apply stable_modify. intros s. unfold draws. rewrite H. reflexivity. Qed.

Lemma stable_draws_setCanvasWidth : forall w, stable draws (setCanvasWidth w).
Proof. intros w s. unfold setCanvasWidth. destruct (canvas s); reflexivity. Qed.

Lemma stable_draws_setCanvasHeight : forall h, stable draws (setCanvasHeight h).
Proof. intros h s. unfold setCanvasHeight. destruct (canvas s); reflexivity. Qed.

(** Decompose a computation that makes no draw call, by its syntax. *)
Ltac no_draw_step :=
  lazymatch goal with
  | |- stable _ (ret _) => apply stable_ret
  | |- stable _ throw => apply stable_throw
  | |- stable _ get => apply stable_get
  | |- stable _ (setCanvasWidth _) => apply stable_draws_setCanvasWidth
  | |- stable _ (setCanvasHeight _) => apply stable_draws_setCanvasHeight
  | |- stable _ (call _ _) => apply stable_draws_call; discriminate
  | |- stable _ (glcall _ _ _) => apply stable_draws_glcall; discriminate
  | |- stable _ (gldo _ _ _) => apply stable_draws_glcall; discriminate
  | |- stable _ (modify _) => apply stable_draws_modify; reflexivity
  | |- stable _ (bind _ _) => apply stable_bind; [|intros]
  | |- stable _ (try_catch _ _) => apply stable_try_catch
  | |- stable _ (RendererService.getUniformLocation _ _) =>
      unfold RendererService.getUniformLocation
  | |- stable _ (match ?x with _ => _ end) => destruct x
  end.

Ltac no_draw := repeat no_draw_step.

Lemma no_draw_loadImageTexture : forall env t img,
  stable draws (TextureService.loadImageTexture env t img).
Proof. intros. unfold TextureService.loadImageTexture. no_draw. Qed.

Lemma no_draw_updatePaletteTexture : forall env t colors,
  stable draws (PaletteService.updatePaletteTexture env t colors).
Proof.
  intros. unfold PaletteService.updatePaletteTexture, PaletteService.rasterize.
  no_draw.
Qed.

Lemma no_draw_updatePaletteIfNeeded : forall env options,
  stable draws (WebGLService.updatePaletteIfNeeded env options).
Proof.
  intros. unfold WebGLService.updatePaletteIfNeeded.
  no_draw; apply no_draw_updatePaletteTexture.
Qed.

Lemma no_draw_setupShaderUniforms : forall env img options pt,
  stable draws (RendererService.setupShaderUniforms env img options pt).
Proof.
  intros. unfold RendererService.setupShaderUniforms, RendererService.getUniformLocation.
  no_draw.
Qed.

(** *** What [setupWebGL] returning [true] tells *)

Ltac inv_bind H :=
  apply bind_ret_inv in H; destruct H as (? & ? & _ & H).

Lemma ret_inv : forall {A} (a b : A) s s', ret a s = (Ret b, s') -> a = b.
Proof. intros A a b s s' H. unfold ret in H. congruence. Qed.

Lemma createShader_true : forall env ty s s',
  ShaderService.createShader env ty s = (Ret true, s') ->
  shaderCreated env ty = true /\ shaderCompiles env ty = true.
Proof.
  intros env ty s s' H. unfold ShaderService.createShader in H.
  inv_bind H.
  destruct (shaderCreated env ty); simpl in H; [|apply ret_inv in H; discriminate].
  do 3 inv_bind H.
  destruct (shaderCompiles env ty); simpl in H; [auto|].
  do 2 inv_bind H. apply ret_inv in H; discriminate.
Qed.

Lemma createProgram_true : forall env s s',
  ShaderService.createProgram env s = (Ret true, s') ->
  programCreated env = true /\ programLinks env = true.
Proof.
  intros env s s' H. unfold ShaderService.createProgram in H.
  inv_bind H.
  destruct (programCreated env); simpl in H; [|apply ret_inv in H; discriminate].
  do 4 inv_bind H.
  destruct (programLinks env); simpl in H; [auto|].
  inv_bind H. apply ret_inv in H; discriminate.
Qed.

Lemma setupWebGL_true : forall env cv s s',
  WebGLService.setupWebGL env cv s = (Ret true, s') ->
  (webgl2 env = true \/ webgl env = true) /\
  (forall ty, shaderCreated env ty = true /\ shaderCompiles env ty = true) /\
  programCreated env = true /\ programLinks env = true.
Proof.
  intros env cv s s' H. unfold WebGLService.setupWebGL in H.
  apply try_catch_false_true in H.
  do 4 inv_bind H.
  apply bind_ret_inv in H. destruct H as (context & s5 & Hctx & H).
  inv_bind H.
  destruct context; simpl in H; [|apply ret_inv in H; discriminate].
  assert (Hgl : webgl2 env = true \/ webgl env = true).
  { destruct (webgl2 env); [auto|]. inv_bind Hctx. apply ret_inv in Hctx. auto. }
  apply bind_ret_inv in H. destruct H as (vs & s7 & Hvs & H).
  apply bind_ret_inv in H. destruct H as (fs & s8 & Hfs & H).
  destruct vs; simpl in H; [|apply ret_inv in H; discriminate].
  destruct fs; simpl in H; [|apply ret_inv in H; discriminate].
  apply createShader_true in Hvs. apply createShader_true in Hfs.
  apply bind_ret_inv in H. destruct H as (p & s9 & Hp & H).
  inv_bind H.
  destruct p; simpl in H; [|apply ret_inv in H; discriminate].
  apply createProgram_true in Hp.
  split; [exact Hgl|]. split; [|exact Hp].
  intros [|]; assumption.
Qed.

Lemma triple_weaken : forall {X A} (f : Service -> X) x (c : M A)
                             (Q Q' : Outcome A -> X -> Prop),
  triple f x c Q -> (forall o x', Q o x' -> Q' o x') -> triple f x c Q'.
Proof. intros X A f x c Q Q' H HQ s Hs. apply HQ. apply H. exact Hs. Qed.

Lemma triple_bind_get : forall {X B} (f : Service -> X) x (k : Service -> M B)
                               (Q : Outcome B -> X -> Prop),
  (forall s0, triple f x (k s0) Q) -> triple f x (bind get k) Q.
Proof. intros X B f x k Q H s Hs. unfold bind, get. apply H. exact Hs. Qed.

(** *** Draw calls and the value of a render *)

Lemma drawArrays_draws : forall env d (h : GL.Context -> GL.Context),
  triple draws d (gldo env c_drawArrays h)
         (fun o d' => (o = Ret tt /\ d' = S d) \/ (o = Throw /\ d' = d)).
Proof.
  intros env d h s Hs. unfold gldo, glcall.
  destruct (throws env c_drawArrays); simpl; [auto|].
  destruct (canvas s); simpl; [|auto].
  left. split; [reflexivity|]. rewrite draws_record_draw. unfold draws in *. simpl.
  congruence.
Qed.

(** Steps that make no draw call, up to the next one that does. *)
Ltac draw_free_steps :=
  repeat (apply triple_step; [solve [no_draw] | intros | ]).

Lemma renderStandardDither_draws : forall sin pow env d,
  triple draws d (RendererService.renderStandardDither sin pow env)
         (fun o d' => (o = Ret true /\ d' = S d) \/ (o = Ret false /\ d' = d)).
Proof.
  intros sin pow env d. unfold RendererService.renderStandardDither.
  apply (triple_try_catch draws d _ _
           (fun o d' => (o = Ret true /\ d' = S d) \/ (o = Throw /\ d' = d))).
  - eapply triple_bind; [apply drawArrays_draws | |].
    + intros ? x1 [[_ ->] | [E _]]; [|discriminate E].
      apply triple_ret. auto.
    + intros x1 [[E _] | [_ ->]]; [discriminate E | auto].
  - intros ? x1 [[E ->] | [E _]]; [auto | discriminate E].
  - intros x1 [[E _] | [_ ->]]; [discriminate E|]. apply triple_ret. auto.
Qed.

Lemma renderFloydSteinberg_draws : forall sin pow env texture e w h d,
  triple draws d (RendererService.renderFloydSteinberg sin pow env texture e w h)
         (fun o d' => (o = Ret true /\ d' = S (S d)) \/ (o = Ret false /\ (d' <= S d)%nat)).
Proof.
  intros sin pow env texture e w h d. unfold RendererService.renderFloydSteinberg.
  apply (triple_try_catch draws d _ _
           (fun o d' => (o = Ret true /\ d' = S (S d)) \/ (o = Throw /\ (d' <= S d)%nat))).
  - draw_free_steps; try (right; split; [reflexivity | lia]).
    eapply triple_bind; [apply drawArrays_draws | |].
    + intros ? x1 [[_ ->] | [E _]]; [|discriminate E].
      draw_free_steps; try (right; split; [reflexivity | lia]).
      eapply triple_bind; [apply drawArrays_draws | |].
      * intros ? x2 [[_ ->] | [E _]]; [|discriminate E].
        apply triple_ret. auto.
      * intros x2 [[E _] | [_ ->]]; [discriminate E|]. right. split; [reflexivity | lia].
    + intros x1 [[E _] | [_ ->]]; [discriminate E|]. right. split; [reflexivity | lia].
  - intros ? x1 [[-> ->] | [E _]]; [auto | discriminate E].
  - intros x1 [[E _] | [_ Hle]]; [discriminate E|]. apply triple_ret. auto.
Qed.

(** The draw calls a render of the given type submits. *)
Definition passes (options : Types.DitherOptions) : nat :=
  if Types.ditherType options =? 1 then 2%nat else 1%nat.

Lemma ditherImage_draws : forall sin pow env img options d,
  triple draws d (WebGLService.ditherImage sin pow env img options)
         (fun o d' => (o = Ret true /\ d' = (d + passes options)%nat)
                      \/ (o = Ret false /\ (d' < d + passes options)%nat)).
Proof.
  intros sin pow env img options d. unfold WebGLService.ditherImage.
  assert (Hfail : (d < d + passes options)%nat)
    by (unfold passes; destruct (Types.ditherType options =? 1); lia).
  apply triple_bind_get. intros s0.
  destruct (gl s0); [|apply triple_ret; auto].
  destruct (program s0); [|apply triple_ret; auto].
  destruct (canvas s0) as [cv|]; [|apply triple_ret; auto].
  apply (triple_try_catch draws d _ _
           (fun o d' =>
              (o = Ret true /\ d' = (d + passes options)%nat)
              \/ ((o = Ret false \/ o = Throw) /\ (d' < d + passes options)%nat))).
  - draw_free_steps; try (right; split; [auto | exact Hfail]).
    apply triple_step; [no_draw; apply no_draw_loadImageTexture | intros | auto].
    draw_free_steps; try (right; split; [auto | exact Hfail]).
    apply triple_step; [apply no_draw_updatePaletteIfNeeded | intros | auto].
    draw_free_steps; try (right; split; [auto | exact Hfail]).
    apply triple_step; [apply no_draw_setupShaderUniforms | intros | auto].
    unfold passes. destruct (Types.ditherType options =? 1).
    + destruct (errorTexture s0) as [e|]; [|apply triple_ret; right; split; [auto | lia]].
      eapply triple_weaken; [apply renderFloydSteinberg_draws|].
      intros o x' [[-> ->] | [-> Hle]]; [left; split; [reflexivity | lia]|].
      right. split; [auto | lia].
    + draw_free_steps; try (right; split; [auto | lia]).
      eapply triple_weaken; [apply renderStandardDither_draws|].
      intros o x' [[-> ->] | [-> ->]]; [left; split; [reflexivity | lia]|].
      right. split; [auto | lia].
  - intros b x1 [[-> ->] | [[-> | E] Hlt]]; [auto | auto | discriminate E].
  - intros x1 [[E _] | [_ Hlt]]; [discriminate E|]. apply triple_ret. auto.
Qed.

(** [c] does not return [true]: it returns [false] or throws. *)
Definition no_success (c : M bool) : Prop :=
  forall s, fst (c s) = Ret false \/ fst (c s) = Throw.

Lemma no_success_bind : forall {A} (c : M A) (k : A -> M bool),
  (forall a, no_success (k a)) -> no_success (bind c k).
Proof.
  intros A c k Hk s. unfold bind. destruct (c s) as [[a|] s1]; [apply Hk | auto].
Qed.

Lemma no_success_ret_false : no_success (ret false).
Proof. intros s. auto. Qed.

Lemma no_success_caught : forall (c : M bool) s,
  no_success c -> fst (try_catch c (ret false) s) = Ret false.
Proof.
  intros c s Hc. unfold try_catch. specialize (Hc s).
  destruct (c s) as [[b|] s1]; simpl in *.
  - destruct Hc as [H | H]; [exact H | discriminate H].
  - reflexivity.
Qed.

(** Without an error texture an error-diffusion render does not draw. *)
Lemma ditherImage_no_error_texture : forall sin pow env img options s,
  Types.ditherType options = 1 -> errorTexture s = None ->
  fst (WebGLService.ditherImage sin pow env img options s) = Ret false.
Proof.
  intros sin pow env img options s Ht He. unfold WebGLService.ditherImage.
  unfold bind at 1. unfold get at 1. cbn beta iota.
  destruct (gl s); [|reflexivity].
  destruct (program s); [|reflexivity].
  destruct (canvas s) as [cv|]; [|reflexivity].
  rewrite Ht, He. apply no_success_caught.
  repeat (apply no_success_bind; intros).
  apply no_success_ret_false.
Qed.

Lemma setupWebGL_false : forall env cv s,
  (webgl2 env = false /\ webgl env = false)
  \/ (exists ty, shaderCreated env ty = false \/ shaderCompiles env ty = false)
  \/ programCreated env = false \/ programLinks env = false ->
  fst (WebGLService.setupWebGL env cv s) = Ret false.
Proof.
  intros env cv s H.
  destruct (WebGLService.setupWebGL env cv s) as [[[|]|] s'] eqn:E.
  - apply setupWebGL_true in E. destruct E as (Hgl & Hsh & Hpc & Hpl).
    destruct H as [[H1 H2] | [[ty [H1 | H1]] | [H1 | H1]]];
      try (destruct (Hsh ty) as [Hc Hk]); destruct Hgl; congruence.
  - reflexivity.
  - exfalso. unfold WebGLService.setupWebGL, try_catch, ret in E.
    match type of E with
    | (match ?c with _ => _ end) = _ => destruct c as [[?|] ?]; discriminate E
    end.
Qed.

(** C9, as the code has it.  Initialization and render never throw: each
    returns a boolean.  Initialization returns [false] when no context is
    available or a shader or the program cannot be created, compiled or
    linked; an error-diffusion render returns [false] when the error
    texture is missing; and a render that has submitted its draw calls (one,
    or two for error diffusion) returns [true]. *)
Theorem public_operations_report :
  (forall env cv s, exists b, fst (WebGLService.setupWebGL env cv s) = Ret b) /\
  (forall sin pow env img options s,
     exists b, fst (WebGLService.ditherImage sin pow env img options s) = Ret b) /\
  (forall env cv s,
     (webgl2 env = false /\ webgl env = false)
     \/ (exists ty, shaderCreated env ty = false \/ shaderCompiles env ty = false)
     \/ programCreated env = false \/ programLinks env = false ->
     fst (WebGLService.setupWebGL env cv s) = Ret false) /\
  (forall sin pow env img options s,
     Types.ditherType options = 1 -> errorTexture s = None ->
     fst (WebGLService.ditherImage sin pow env img options s) = Ret false) /\
  (forall sin pow env img options s,
     draws (snd (WebGLService.ditherImage sin pow env img options s))
     = (draws s + passes options)%nat ->
     fst (WebGLService.ditherImage sin pow env img options s) = Ret true).
Proof.
  split; [|split; [|split; [|split]]].
  - intros env cv s. apply try_catch_false_total.
  - intros sin pow env img options s.
    destruct (ditherImage_draws sin pow env img options (draws s) s eq_refl)
      as [[H _] | [H _]]; eauto.
  - apply setupWebGL_false.
  - apply ditherImage_no_error_texture.
  - intros sin pow env img options s Hd.
    destruct (ditherImage_draws sin pow env img options (draws s) s eq_refl)
      as [[H _] | [_ H]]; [exact H | lia].
Qed.

(** A platform on which everything succeeds, one on which no texture
    object can be created, and one whose fragment shader does not compile. *)
Definition platform : Env :=
  {| throws := fun _ => false; webgl2 := true; webgl := true;
     shaderCreated := fun _ => true; shaderCompiles := fun _ => true;
     programCreated := true; programLinks := true;
     textureCreated := fun _ => true;
     downSampled := fun img _ => Some img |}.

Definition noTextures : Env :=
  {| throws := fun _ => false; webgl2 := true; webgl := true;
     shaderCreated := fun _ => true; shaderCompiles := fun _ => true;
     programCreated := true; programLinks := true;
     textureCreated := fun _ => false;
     downSampled := fun img _ => Some img |}.

Definition noFragmentShader : Env :=
  {| throws := fun _ => false; webgl2 := true; webgl := true;
     shaderCreated := fun _ => true;
     shaderCompiles := fun ty => match ty with VERTEX_SHADER => true | _ => false end;
     programCreated := true; programLinks := true;
     textureCreated := fun _ => true;
     downSampled := fun img _ => Some img |}.

(** A canvas of one pixel, its context never used. *)
Definition canvas1 : Canvas :=
  {| offscreen := false; canvas_width := 1; canvas_height := 1;
     context := GL.newContext 1 1 |}.

Lemma public_operations_report_witness :
  fst (WebGLService.setupWebGL noFragmentShader canvas1 WebGLService.new) = Ret false.
Proof.
  exact (proj1 (proj2 (proj2 public_operations_report))
               noFragmentShader canvas1 WebGLService.new
               (or_intror (or_introl (ex_intro _ FRAGMENT_SHADER (or_intror eq_refl))))).
Defined.

(** C9 fails for texture creation.  Where [createTexture] returns [null]
    every time, initialization still returns [true], with no image, error
    or palette texture. *)
Lemma setupWebGL_true_without_textures :
  textureCreated noTextures MainTexture = false /\
  fst (WebGLService.setupWebGL noTextures canvas1 WebGLService.new) = Ret true /\
  texture (snd (WebGLService.setupWebGL noTextures canvas1 WebGLService.new)) = None /\
  errorTexture (snd (WebGLService.setupWebGL noTextures canvas1 WebGLService.new)) = None /\
  paletteTexture (snd (WebGLService.setupWebGL noTextures canvas1 WebGLService.new)) = None.
Proof. vm_compute. repeat split; reflexivity. Qed.

(** ** The palette texture across renders *)

(** The number of [texImage2D] calls the service has made, and the image
    of the texture object [t]. *)
Definition uploads (s : Service) : nat := count_occ Call_eq_dec (calls s) c_texImage2D.

Definition imageOf (t : nat) (s : Service) : option GL.TexImage :=
  match canvas s with
  | Some cv => option_map GL.image (nth_error (GL.textures (context cv)) t)
  | None => None
  end.

Lemma nth_error_updateNth : forall {A} (f : A -> A) l n x,
  nth_error l n = Some x -> nth_error (GL.updateNth n f l) n = Some (f x).
Proof.
  intros A f l; induction l as [|y l IH]; intros [|n] x H; simpl in *;
    try discriminate.
  - congruence.
  - apply IH. exact H.
Qed.

(** The palettes the service rasterizes, of up to fifty colors, do not
    make the rasterization loop throw. *)
Lemma paletteData_defined : forall colors,
  1 <= Z.of_nat (List.length colors) <= 50 ->
  exists data, PaletteService.paletteData colors = Some data.
Proof.
  intros colors Hn.
  destruct (fill_loop_spec colors Hn 256 0 (repeat 0 1024%nat)
              ltac:(lia) ltac:(lia) (repeat_length _ _)) as (data & H & _).
  exists data. exact H.
Qed.

Lemma updatePaletteTexture_uploads : forall env t colors s cv tex data,
  canvas s = Some cv -> nth_error (GL.textures (context cv)) t = Some tex ->
  throws env c_bindTexture = false -> throws env c_texImage2D = false ->
  PaletteService.paletteData colors = Some data ->
  exists s',
    PaletteService.updatePaletteTexture env t colors s = (Ret tt, s') /\
    uploads s' = S (uploads s) /\
    imageOf t s' = Some (GL.ByteImage 256 1 (GL.unpackFlipY (context cv)) data) /\
    lastPaletteOptions s' = lastPaletteOptions s.
Proof.
  intros env t colors s cv tex data Hcv Htex Hb Hu Hdata.
  unfold PaletteService.updatePaletteTexture, PaletteService.rasterize, gldo, glcall, bind.
  rewrite Hb, Hcv, Hdata. cbn [ret canvas record withCanvas]. rewrite Hu.
  eexists. split; [reflexivity|].
  split; [|split].
  - unfold uploads. cbn [calls record withCanvas].
    rewrite count_occ_cons_eq by reflexivity.
    rewrite count_occ_cons_neq by discriminate. reflexivity.
  - unfold imageOf. cbn [canvas record withCanvas context withContext].
    unfold GL.texImage2D_bytes, GL.onBound, GL.bindTexture.
    cbn [GL.activeTexture_ GL.bound GL.lookup GL.unpackFlipY GL.textures GL.withTextures].
    rewrite Z.eqb_refl.
    cbn [GL.textures GL.withTextures].
    erewrite nth_error_updateNth by exact Htex. reflexivity.
  - reflexivity.
Qed.

(** The colors [updatePaletteIfNeeded] rasterizes for [options]: the
    resolved palette, or black and white when that is empty. *)
Definition uploadedPalette (options : Types.DitherOptions) : list string :=
  if negb (List.length (PaletteService.getPaletteColors options) =? 0)%nat
  then PaletteService.getPaletteColors options
  else ["#000000"; "#FFFFFF"].

Lemma updatePaletteIfNeeded_same : forall env options s,
  lastPaletteOptions s = Some (WebGLService.paletteOptionsKey options) ->
  WebGLService.updatePaletteIfNeeded env options s = (Ret tt, s).
Proof.
  intros env options s H. unfold WebGLService.updatePaletteIfNeeded, bind, get.
  destruct (gl s); [|reflexivity].
  destruct (paletteTexture s); [|reflexivity].
  destruct (WebGLService.key_eq_dec _ _) as [_ | Hne]; [reflexivity|].
  contradiction.
Qed.

Lemma updatePaletteIfNeeded_changed : forall env options s t cv tex data,
  lastPaletteOptions s <> Some (WebGLService.paletteOptionsKey options) ->
  gl s = true -> paletteTexture s = Some t ->
  canvas s = Some cv -> nth_error (GL.textures (context cv)) t = Some tex ->
  throws env c_bindTexture = false -> throws env c_texImage2D = false ->
  PaletteService.paletteData (uploadedPalette options) = Some data ->
  exists s',
    WebGLService.updatePaletteIfNeeded env options s = (Ret tt, s') /\
    uploads s' = S (uploads s) /\
    imageOf t s' = Some (GL.ByteImage 256 1 (GL.unpackFlipY (context cv)) data) /\
    lastPaletteOptions s' = Some (WebGLService.paletteOptionsKey options).
Proof.
  intros env options s t cv tex data Hne Hgl Ht Hcv Htex Hb Hu Hdata.
  destruct (updatePaletteTexture_uploads env t (uploadedPalette options) s cv tex data
              Hcv Htex Hb Hu Hdata) as (s1 & Hrun & Hup & Him & Hlast).
  unfold WebGLService.updatePaletteIfNeeded.
  unfold bind at 1. unfold get at 1. cbn beta iota. rewrite Hgl, Ht.
  destruct (WebGLService.key_eq_dec _ _) as [He | _]; [contradiction|].
  unfold bind, modify.
  replace (if negb (List.length (PaletteService.getPaletteColors options) =? 0)%nat
           then PaletteService.updatePaletteTexture env t
                  (PaletteService.getPaletteColors options)
           else PaletteService.updatePaletteTexture env t ["#000000"; "#FFFFFF"])
    with (PaletteService.updatePaletteTexture env t (uploadedPalette options))
    by (unfold uploadedPalette;
        destruct (negb (List.length (PaletteService.getPaletteColors options) =? 0)%nat);
        reflexivity).
  rewrite Hrun. eexists. split; [reflexivity|].
  split; [exact Hup|]. split; [exact Him|]. reflexivity.
Qed.

(** C5, as the code has it.  The palette step of a render compares the
    palette settings (usePalette, paletteType, paletteColors, customPalette,
    selectedUserPalette) with those of the last upload, not the resolved
    color lists.  When the settings are the same nothing happens; when
    they differ the resolved palette (or black and white, when it is empty)
    is rasterized and uploaded, and the settings are remembered. *)
Theorem palette_rewritten_when_settings_change : forall env options s,
  (lastPaletteOptions s = Some (WebGLService.paletteOptionsKey options) ->
   WebGLService.updatePaletteIfNeeded env options s = (Ret tt, s)) /\
  (forall t cv tex,
     lastPaletteOptions s <> Some (WebGLService.paletteOptionsKey options) ->
     gl s = true -> paletteTexture s = Some t ->
     canvas s = Some cv -> nth_error (GL.textures (context cv)) t = Some tex ->
     throws env c_bindTexture = false -> throws env c_texImage2D = false ->
     Z.of_nat (List.length (PaletteService.getPaletteColors options)) <= 50 ->
     exists s' data,
       PaletteService.paletteData (uploadedPalette options) = Some data /\
       WebGLService.updatePaletteIfNeeded env options s = (Ret tt, s') /\
       uploads s' = S (uploads s) /\
       imageOf t s' = Some (GL.ByteImage 256 1 (GL.unpackFlipY (context cv)) data) /\
       lastPaletteOptions s' = Some (WebGLService.paletteOptionsKey options)).
Proof.
  intros env options s. split; [apply updatePaletteIfNeeded_same|].
  intros t cv tex Hne Hgl Ht Hcv Htex Hb Hu Hlen.
  destruct (paletteData_defined (uploadedPalette options)) as [data Hdata].
  { unfold uploadedPalette.
    destruct (List.length (PaletteService.getPaletteColors options)) eqn:E; simpl; lia. }
  destruct (updatePaletteIfNeeded_changed env options s t cv tex data
              Hne Hgl Ht Hcv Htex Hb Hu Hdata) as (s' & H).
  exists s', data. split; [exact Hdata | exact H].
Qed.

(** Options that select a palette, for the instances below. *)
Definition paletteOptions (type : Z) (count : option Z) (custom : option (list string))
           (users : option (list Types.UserPaletteDefinition)) (selected : option Z)
  : Types.DitherOptions :=
  {| Types.ditherAmount := 1%Q; Types.ditherType := 0; Types.bayerSize := None;
     Types.downSampling := None; Types.contrast := None; Types.highlights := None;
     Types.midtones := None; Types.brightness := None;
     Types.usePalette := Some true; Types.paletteType := Some type;
     Types.paletteColors := count; Types.customPalette := custom;
     Types.userPalettes := users; Types.selectedUserPalette := selected |}.

(** A service that holds a palette texture and has uploaded nothing yet. *)
Definition paletteReady : Service :=
  {| gl := true; program := true; texture := None; errorTexture := None;
     paletteTexture := Some 0%nat;
     canvas := Some {| offscreen := false; canvas_width := 1; canvas_height := 1;
                       context := GL.withTextures [GL.newTexture] (GL.newContext 1 1) |};
     lastPaletteOptions := None; isOffscreenCanvas := false; calls := [] |}.

Lemma palette_rewritten_when_settings_change_witness :
  WebGLService.updatePaletteIfNeeded platform (paletteOptions 0 (Some 2) None None None)
    (setLastPaletteOptions
       (Some (WebGLService.paletteOptionsKey (paletteOptions 0 (Some 2) None None None)))
       paletteReady)
  = (Ret tt,
     setLastPaletteOptions
       (Some (WebGLService.paletteOptionsKey (paletteOptions 0 (Some 2) None None None)))
       paletteReady).
Proof.
  exact (proj1 (palette_rewritten_when_settings_change platform
                  (paletteOptions 0 (Some 2) None None None)
                  (setLastPaletteOptions
                     (Some (WebGLService.paletteOptionsKey
                              (paletteOptions 0 (Some 2) None None None)))
                     paletteReady))
               eq_refl).
Defined.

(** C5 fails when two settings resolve to the same colors.  Black and
    white with two colors requested, then with three: both resolve to
    ["#000000", "#FFFFFF"], and the second render uploads the texture
    again. *)
Lemma same_palette_uploaded_again :
  PaletteService.getPaletteColors (paletteOptions 0 (Some 2) None None None)
  = ["#000000"; "#FFFFFF"] /\
  PaletteService.getPaletteColors (paletteOptions 0 (Some 3) None None None)
  = ["#000000"; "#FFFFFF"] /\
  uploads (snd (WebGLService.updatePaletteIfNeeded platform
                  (paletteOptions 0 (Some 2) None None None) paletteReady)) = 1%nat /\
  uploads (snd (WebGLService.updatePaletteIfNeeded platform
                  (paletteOptions 0 (Some 3) None None None)
                  (snd (WebGLService.updatePaletteIfNeeded platform
                          (paletteOptions 0 (Some 2) None None None) paletteReady))))
  = 2%nat.
Proof. vm_compute. repeat split; reflexivity. Qed.

(** C8, as the code has it.  When the resolved palette is empty the palette
    step raises no error, and when the palette settings differ from those of
    the last upload it puts the black-and-white palette into the lookup
    texture. *)
Theorem empty_palette_falls_back : forall env options s t cv tex,
  PaletteService.getPaletteColors options = [] ->
  gl s = true -> paletteTexture s = Some t ->
  canvas s = Some cv -> nth_error (GL.textures (context cv)) t = Some tex ->
  throws env c_bindTexture = false -> throws env c_texImage2D = false ->
  fst (WebGLService.updatePaletteIfNeeded env options s) = Ret tt /\
  (lastPaletteOptions s <> Some (WebGLService.paletteOptionsKey options) ->
   exists data,
     PaletteService.paletteData ["#000000"; "#FFFFFF"] = Some data /\
     imageOf t (snd (WebGLService.updatePaletteIfNeeded env options s))
     = Some (GL.ByteImage 256 1 (GL.unpackFlipY (context cv)) data)).
Proof.
  intros env options s t cv tex Hempty Hgl Ht Hcv Htex Hb Hu.
  destruct (paletteData_defined ["#000000"; "#FFFFFF"] ltac:(simpl; lia)) as [data Hdata].
  assert (Hup : uploadedPalette options = ["#000000"; "#FFFFFF"])
    by (unfold uploadedPalette; rewrite Hempty; reflexivity).
  destruct (WebGLService.key_eq_dec (lastPaletteOptions s)
              (Some (WebGLService.paletteOptionsKey options))) as [He | Hne].
  - rewrite (updatePaletteIfNeeded_same env options s He). split; [reflexivity|].
    intros Hne. contradiction.
  - destruct (updatePaletteIfNeeded_changed env options s t cv tex data
                Hne Hgl Ht Hcv Htex Hb Hu ltac:(rewrite Hup; exact Hdata))
      as (s' & Hrun & _ & Him & _).
    rewrite Hrun. split; [reflexivity|].
    intros _. exists data. split; [exact Hdata | exact Him].
Qed.

Lemma empty_palette_falls_back_witness :
  fst (WebGLService.updatePaletteIfNeeded platform
         (paletteOptions 3 None (Some []) None None) paletteReady) = Ret tt.
Proof.
  exact (proj1 (empty_palette_falls_back platform
                  (paletteOptions 3 None (Some []) None None) paletteReady
                  0%nat
                  {| offscreen := false; canvas_width := 1; canvas_height := 1;
                     context := GL.withTextures [GL.newTexture] (GL.newContext 1 1) |}
                  GL.newTexture
                  eq_refl eq_refl eq_refl eq_refl eq_refl eq_refl eq_refl)).
Defined.

(** A user palette, by the name the options select it with. *)
Definition userPaletteOptions (colors : list string) : Types.DitherOptions :=
  paletteOptions 4 None None
    (Some [ {| Types.up_id := 1; Types.up_name := "Edited"; Types.up_colors := colors |} ])
    (Some 1).

(** C8 fails after an edit of the selected user palette.  A first render
    uploads the palette red, blue.  The palette is then emptied, id and
    selection unchanged: it resolves to the empty list, the palette step
    finds the settings it remembers and does nothing, and the lookup texture
    keeps red and blue, not black and white. *)
Lemma emptied_user_palette_keeps_old_texture :
  Types.usePalette (userPaletteOptions []) = Some true /\
  PaletteService.getPaletteColors (userPaletteOptions []) = [] /\
  WebGLService.updatePaletteIfNeeded platform (userPaletteOptions [])
    (snd (WebGLService.updatePaletteIfNeeded platform
            (userPaletteOptions ["#FF0000"; "#0000FF"]) paletteReady))
  = (Ret tt,
     snd (WebGLService.updatePaletteIfNeeded platform
            (userPaletteOptions ["#FF0000"; "#0000FF"]) paletteReady)) /\
  imageOf 0 (snd (WebGLService.updatePaletteIfNeeded platform
                    (userPaletteOptions ["#FF0000"; "#0000FF"]) paletteReady))
  = option_map (GL.ByteImage 256 1 false)
               (PaletteService.paletteData ["#FF0000"; "#0000FF"]) /\
  PaletteService.paletteData ["#FF0000"; "#0000FF"]
  <> PaletteService.paletteData ["#000000"; "#FFFFFF"].
Proof.
  split; [reflexivity|]. split; [reflexivity|].
  split; [vm_compute; reflexivity|]. split; [vm_compute; reflexivity|].
  vm_compute. intros H. discriminate H.
Qed.

(** ** The destination surface *)

(** What a viewer of the canvas sees: its size and its pixels. *)
Definition surface (s : Service) : option (Z * Z * list (list vec4)) :=
  match canvas s with
  | Some cv => Some (canvas_width cv, canvas_height cv, GL.drawingBuffer (context cv))
  | None => None
  end.

(** The surface together with the clear color of the context. *)
Definition paint (s : Service) : option (Z * Z * list (list vec4)) * option vec4 :=
  (surface s, option_map (fun cv => GL.clearColor_ (context cv)) (canvas s)).

(** A state change of the context that touches neither the drawing buffer
    nor the clear color. *)
Definition paintless {A} (h : GL.Context -> A * GL.Context) : Prop :=
  forall g, GL.drawingBuffer (snd (h g)) = GL.drawingBuffer g
            /\ GL.clearColor_ (snd (h g)) = GL.clearColor_ g.

Ltac paintless_tac :=
  intros g;
  unfold GL.viewport, GL.activeTexture, GL.bindTexture, GL.pixelStorei_flipY,
    GL.texImage2D_image, GL.texImage2D_bytes, GL.texImage2D_null, GL.texParameteri,
    GL.uniform1i, GL.uniform1f, GL.uniform2f, GL.onBound;
  cbn [snd];
  repeat match goal with
         | |- context [match ?x with _ => _ end] => destruct x
         end;
  split; reflexivity.

Lemma stable_paint_call : forall env c, stable paint (call env c).
Proof. intros env c. apply stable_call. intros s. reflexivity. Qed.

Lemma stable_paint_glcall : forall env c {A} (h : GL.Context -> A * GL.Context),
  paintless h -> stable paint (glcall env c h).
Proof.
  intros env c A h Hh. apply stable_glcall. intros s cv Hcv.
  destruct (Hh (context cv)) as [Hb Hc].
  unfold paint, surface. cbn [canvas record withCanvas context withContext
                               canvas_width canvas_height option_map].
  rewrite Hcv, Hb, Hc. reflexivity.
Qed.

Lemma stable_paint_modify : forall g,
  (forall s, canvas (g s) = canvas s) -> stable paint (modify g).
Proof.
  intros g H. apply stable_modify. intros s. unfold paint, surface. rewrite H. reflexivity.
Qed.

(** Decompose a computation that does not paint, by its syntax. *)
Ltac no_paint_step :=
  lazymatch goal with
  | |- stable _ (ret _) => apply stable_ret
  | |- stable _ throw => apply stable_throw
  | |- stable _ get => apply stable_get
  | |- stable _ (call _ _) => apply stable_paint_call
  | |- stable _ (glcall _ _ _) => apply stable_paint_glcall; paintless_tac
  | |- stable _ (gldo _ _ _) => apply stable_paint_glcall; paintless_tac
  | |- stable _ (modify _) => apply stable_paint_modify; reflexivity
  | |- stable _ (bind _ _) => apply stable_bind; [|intros]
  | |- stable _ (try_catch _ _) => apply stable_try_catch
  | |- stable _ (RendererService.getUniformLocation _ _) =>
      unfold RendererService.getUniformLocation
  | |- stable _ (match ?x with _ => _ end) => destruct x
  end.

Ltac no_paint := repeat no_paint_step.

Lemma no_paint_loadImageTexture : forall env t img,
  stable paint (TextureService.loadImageTexture env t img).
Proof. intros. unfold TextureService.loadImageTexture. no_paint. Qed.

Lemma no_paint_updatePaletteTexture : forall env t colors,
  stable paint (PaletteService.updatePaletteTexture env t colors).
Proof.
  intros. unfold PaletteService.updatePaletteTexture, PaletteService.rasterize.
  no_paint.
Qed.

Lemma no_paint_updatePaletteIfNeeded : forall env options,
  stable paint (WebGLService.updatePaletteIfNeeded env options).
Proof.
  intros. unfold WebGLService.updatePaletteIfNeeded.
  no_paint; apply no_paint_updatePaletteTexture.
Qed.

Lemma no_paint_setupShaderUniforms : forall env img options pt,
  stable paint (RendererService.setupShaderUniforms env img options pt).
Proof.
  intros. unfold RendererService.setupShaderUniforms. no_paint.
Qed.

Lemma map_const_repeat : forall {A B} (b : B) (a : A) n,
  List.map (fun _ => b) (repeat a n) = repeat b n.
Proof. intros A B b a n. induction n as [|n IH]; simpl; [reflexivity | rewrite IH; reflexivity]. Qed.

(** Clearing a buffer that is already of the clear color changes nothing. *)
Lemma clear_filled : forall w h c,
  List.map (List.map (fun _ : vec4 => c)) (GL.filled w h c) = GL.filled w h c.
Proof.
  intros w h c. unfold GL.filled.
  induction (Z.to_nat h) as [|n IH]; simpl; [reflexivity|].
  rewrite IH, map_const_repeat. reflexivity.
Qed.

Section FailedRender.
Variable sin : Q -> Q.
Variable pow : Q -> Q -> Q.
Variable env : Env.
Variable w h : Z.

(** The surface right after the resize, and after the clear. *)
Definition blank : option (Z * Z * list (list vec4)) :=
Some (w, h, GL.filled w h GL.transparentBlack).

Lemma setCanvasWidth_paint : forall w0 h0 b0 cc,
triple paint (Some (w0, h0, b0), Some cc) (setCanvasWidth w)
       (fun o x => o = Ret tt
                   /\ x = (Some (w, h0, GL.filled w h0 GL.transparentBlack), Some cc)).
Proof.
intros w0 h0 b0 cc s Hs. unfold setCanvasWidth. unfold paint, surface in Hs.
destruct (canvas s) as [cv|]; [|discriminate Hs].
simpl in Hs. injection Hs as _ Hh _ Hc. subst.
split; reflexivity.
Qed.

Lemma setCanvasHeight_paint : forall w0 h0 b0 cc,
triple paint (Some (w0, h0, b0), Some cc) (setCanvasHeight h)
       (fun o x => o = Ret tt
                   /\ x = (Some (w0, h, GL.filled w0 h GL.transparentBlack), Some cc)).
Proof.
intros w0 h0 b0 cc s Hs. unfold setCanvasHeight. unfold paint, surface in Hs.
destruct (canvas s) as [cv|]; [|discriminate Hs].
simpl in Hs. injection Hs as Hw _ _ Hc. subst.
split; reflexivity.
Qed.

Lemma clearColor_paint : forall surf cc c,
triple paint (surf, Some cc) (gldo env c_clearColor (GL.clearColor c))
       (fun o x => (o = Ret tt /\ x = (surf, Some c)) \/ (o = Throw /\ x = (surf, Some cc))).
Proof.
intros surf cc c s Hs. unfold gldo, glcall.
destruct (throws env c_clearColor); [right; split; [reflexivity | exact Hs]|].
unfold paint, surface in *.
destruct (canvas s) as [cv|]; [|discriminate Hs].
simpl in *. left. split; [reflexivity|]. congruence.
Qed.

Lemma clear_paint :
triple paint (blank, Some GL.transparentBlack) (gldo env c_clear GL.clear)
       (fun _ x => x = (blank, Some GL.transparentBlack)).
Proof.
intros s Hs. unfold gldo, glcall.
destruct (throws env c_clear); [exact Hs|].
unfold paint, surface, blank in *.
destruct (canvas s) as [cv|]; [|discriminate Hs].
simpl in *. injection Hs as Hw Hh Hb Hc.
unfold GL.clear. simpl. rewrite Hc, Hb, clear_filled. congruence.
Qed.

Lemma drawArrays_paint : forall x (f : GL.Context -> GL.Context),
triple paint x (gldo env c_drawArrays f)
       (fun o x' => o = Ret tt \/ (o = Throw /\ x' = x)).
Proof.
intros x f s Hs. unfold gldo, glcall.
destruct (throws env c_drawArrays); [right; split; [reflexivity | exact Hs]|].
destruct (canvas s) eqn:E; [left; reflexivity | right; split; [reflexivity | exact Hs]].
Qed.

Lemma renderStandardDither_paint : forall x,
triple paint x (RendererService.renderStandardDither sin pow env)
       (fun o x' => o = Ret true \/ (o = Ret false /\ x' = x)).
Proof.
intros x. unfold RendererService.renderStandardDither.
apply (triple_try_catch paint x _ _ (fun o x' => o = Ret true \/ (o = Throw /\ x' = x))).
- eapply triple_bind; [apply drawArrays_paint | |].
  + intros ? x1 _. apply triple_ret. auto.
  + intros x1 [E | [_ ->]]; [discriminate E | auto].
- intros b x1 [-> | [E _]]; [auto | discriminate E].
- intros x1 [E | [_ ->]]; [discriminate E|]. apply triple_ret. auto.
Qed.

End FailedRender.

Ltac paint_free_steps :=
  repeat (apply triple_step; [solve [no_paint] | intros | ]).

Lemma call_paint : forall env c x,
  throws env c = false ->
  triple paint x (call env c) (fun o x' => o = Ret tt /\ x' = x).
Proof.
  intros env c x H s Hs. unfold call. rewrite H. split; [reflexivity | exact Hs].
Qed.

(** Past its guard and the yield to the browser, a render that does not
    reach its second error-diffusion pass either returns [true] or leaves
    the surface resized and cleared. *)
Lemma ditherImage_failed_paint : forall sin pow env img options s cv,
  gl s = true -> program s = true -> canvas s = Some cv ->
  throws env c_requestAnimationFrame = false ->
  Types.ditherType options <> 1 \/ errorTexture s = None ->
  fst (WebGLService.ditherImage sin pow env img options s) = Ret true
  \/ (fst (WebGLService.ditherImage sin pow env img options s) = Ret false
      /\ surface (snd (WebGLService.ditherImage sin pow env img options s))
         = blank (GL.img_width (WebGLService.processedImage env img options))
                 (GL.img_height (WebGLService.processedImage env img options))).
Proof.
  intros sin pow env img options s cv Hgl Hprog Hcv Hraf Hpass.
  set (p := WebGLService.processedImage env img options).
  remember (WebGLService.ditherImage sin pow env img options s) as r eqn:Er.
  unfold WebGLService.ditherImage in Er. unfold bind at 1 in Er. unfold get at 1 in Er.
  cbn beta iota in Er. rewrite Hgl, Hprog, Hcv in Er. fold p in Er.
  match type of Er with
  | r = try_catch ?c ?h s =>
      assert (T : triple paint (paint s) (try_catch c h)
                    (fun o x => o = Ret true
                                \/ (o = Ret false
                                    /\ fst x = blank (GL.img_width p) (GL.img_height p))))
  end.
  2:{ specialize (T s eq_refl). cbv beta in T. rewrite <- Er in T. exact T. }
  replace (paint s)
    with (Some (canvas_width cv, canvas_height cv, GL.drawingBuffer (context cv)),
          Some (GL.clearColor_ (context cv)))
    by (unfold paint, surface; rewrite Hcv; reflexivity).
  apply (triple_try_catch paint _ _ _
           (fun o x => o = Ret true
                       \/ ((o = Ret false \/ o = Throw)
                           /\ fst x = blank (GL.img_width p) (GL.img_height p)))).
  - eapply triple_bind; [apply call_paint; exact Hraf | | intros x1 [E _]; discriminate E].
    intros ? x1 [_ ->].
    eapply triple_bind; [apply setCanvasWidth_paint | | intros x1 [E _]; discriminate E].
    intros ? x1 [_ ->].
    eapply triple_bind; [apply setCanvasHeight_paint | | intros x1 [E _]; discriminate E].
    intros ? x1 [_ ->].
    fold (blank (GL.img_width p) (GL.img_height p)).
    paint_free_steps; try (right; split; [auto | reflexivity]).
    eapply triple_bind; [apply clearColor_paint | |].
    2:{ intros x1 [[E _] | [_ ->]]; [discriminate E|]. right. split; [auto | reflexivity]. }
    intros ? x1 [[_ ->] | [E _]]; [|discriminate E].
    eapply triple_bind; [apply clear_paint | |].
    2:{ intros x1 ->. right. split; [auto | reflexivity]. }
    intros ? x1 ->.
    apply triple_step; [no_paint; apply no_paint_loadImageTexture | intros |
                        right; split; [auto | reflexivity]].
    paint_free_steps; try (right; split; [auto | reflexivity]).
    apply triple_step; [apply no_paint_updatePaletteIfNeeded | intros |
                        right; split; [auto | reflexivity]].
    paint_free_steps; try (right; split; [auto | reflexivity]).
    apply triple_step; [apply no_paint_setupShaderUniforms | intros |
                        right; split; [auto | reflexivity]].
    destruct (Types.ditherType options =? 1) eqn:E.
    + destruct Hpass as [Hne | Herr]; [apply Z.eqb_eq in E; contradiction|].
      rewrite Herr. apply triple_ret. right. split; [auto | reflexivity].
    + paint_free_steps; try (right; split; [auto | reflexivity]).
      eapply triple_weaken; [apply renderStandardDither_paint|].
      intros o x' [-> | [-> ->]]; [auto|]. right. split; [auto | reflexivity].
  - intros b x1 [-> | [[-> | E] Hx]]; [auto | auto | discriminate E].
  - intros x1 [E | [_ Hx]]; [discriminate E|]. apply triple_ret. auto.
Qed.

(* ================================================================== *)
(** * Further properties of the code *)
(* ================================================================== *)

(** ** color-utils.ts: [hexToRgb] *)


(** The hexadecimal digit of value [d], in upper or lower case. *)
Definition hexChar (upper : bool) (d : Z) : ascii :=
  ascii_of_nat (Z.to_nat (if d <? 10 then 48 + d else if upper then 55 + d else 87 + d)).

(** Two digits for a byte, and the [#RRGGBB] and [#RGB] forms. *)
Definition hexByte (upper : bool) (v : Z) : string :=
  String (hexChar upper (v / 16)) (String (hexChar upper (v mod 16)) EmptyString).

Definition toHex (upper : bool) (r g b : Z) : string :=
  String "#" (hexByte upper r ++ hexByte upper g ++ hexByte upper b).

Definition toShortHex (upper : bool) (r g b : Z) : string :=
  String "#" (String (hexChar upper r) (String (hexChar upper g)
                (String (hexChar upper b) EmptyString))).

Definition digits : list Z := map Z.of_nat (seq 0 16).

Lemma digit_In : forall d, 0 <= d < 16 -> In d digits.
Proof. intros d H. apply (range_In 16 d). lia. Qed.

Lemma hexDigit_hexChar : forall upper d, 0 <= d < 16 ->
  JS.hexDigit (hexChar upper d) = Some d.
Proof.
  intros upper d H.
  assert (C : forallb (fun d => forallb (fun u =>
                match JS.hexDigit (hexChar u d) with Some k => k =? d | None => false end)
                [true; false]) digits = true) by (vm_compute; reflexivity).
  rewrite forallb_forall in C. specialize (C d (digit_In d H)).
  rewrite forallb_forall in C.
  specialize (C upper ltac:(destruct upper; simpl; auto)).
  destruct (JS.hexDigit (hexChar upper d)) as [k|]; [|discriminate].
  apply Z.eqb_eq in C. congruence.
Qed.

(** Nothing for [parseInt] to skip in front of [c1 c2]: no white space,
    no sign, no [0x]. *)
Definition noSkip (c1 c2 : ascii) : bool :=
  negb (JS.isWhiteSpace c1) && negb (Ascii.eqb c1 "-") && negb (Ascii.eqb c1 "+")
  && negb (Ascii.eqb c1 "0" && (Ascii.eqb c2 "x" || Ascii.eqb c2 "X")).

Lemma parseInt16_noSkip : forall c1 c2 rest,
  noSkip c1 c2 = true ->
  JS.parseInt16 (String c1 (String c2 rest)) = JS.hexPrefix None (String c1 (String c2 rest)).
Proof.
  intros c1 c2 rest H.
  assert (E : JS.parseInt16 (String c1 (String c2 rest))
              = match JS.hexPrefix None (String c1 (String c2 rest)) with
                | Some v => Some v
                | None => None
                end).
  { destruct c1 as [[] [] [] [] [] [] [] []]; try discriminate H; try reflexivity;
      destruct c2 as [[] [] [] [] [] [] [] []]; try discriminate H; reflexivity. }
  rewrite E. destruct (JS.hexPrefix None (String c1 (String c2 rest))); reflexivity.
Qed.

Lemma noSkip_hexChar : forall upper d1 d2, 0 <= d1 < 16 -> 0 <= d2 < 16 ->
  noSkip (hexChar upper d1) (hexChar upper d2) = true.
Proof.
  intros upper d1 d2 H1 H2.
  assert (C : forallb (fun a => forallb (fun b => forallb (fun u =>
                noSkip (hexChar u a) (hexChar u b)) [true; false]) digits) digits = true)
    by (vm_compute; reflexivity).
  rewrite forallb_forall in C. specialize (C d1 (digit_In d1 H1)).
  rewrite forallb_forall in C. specialize (C d2 (digit_In d2 H2)).
  rewrite forallb_forall in C. apply C. destruct upper; simpl; auto.
Qed.

(** A string that starts with two hexadecimal digits is parsed from its
    first character on. *)
Lemma parseInt16_digits : forall upper d1 d2 rest,
  0 <= d1 < 16 -> 0 <= d2 < 16 ->
  JS.parseInt16 (String (hexChar upper d1) (String (hexChar upper d2) rest))
  = JS.hexPrefix (Some (16 * (16 * 0 + d1) + d2)) rest.
Proof.
  intros upper d1 d2 rest H1 H2.
  rewrite parseInt16_noSkip by (apply noSkip_hexChar; assumption).
  cbn [JS.hexPrefix]. rewrite !hexDigit_hexChar by assumption. reflexivity.
Qed.

Lemma hexPrefix_hexChar : forall upper a d rest, 0 <= d < 16 ->
  JS.hexPrefix (Some a) (String (hexChar upper d) rest)
  = JS.hexPrefix (Some (16 * a + d)) rest.
Proof.
  intros upper a d rest H. cbn [JS.hexPrefix]. rewrite hexDigit_hexChar by exact H.
  reflexivity.
Qed.

Lemma toInt32_small : forall v, 0 <= v < 2 ^ 31 -> JS.toInt32 v = v.
Proof.
  intros v H. unfold JS.toInt32. rewrite Z.mod_small by lia. lia.
Qed.

Lemma shr_small : forall v k, 0 <= v < 2 ^ 31 -> 0 <= k ->
  JS.shr (Some v) k = v / 2 ^ k.
Proof.
  intros v k H Hk. unfold JS.shr. rewrite toInt32_small by exact H.
  apply Z.shiftr_div_pow2. exact Hk.
Qed.

Lemma band_255_small : forall v, 0 <= v < 2 ^ 31 -> JS.band (Some v) 255 = v mod 256.
Proof.
  intros v H. unfold JS.band. rewrite toInt32_small by exact H.
  change (JS.toInt32 255) with (Z.ones 8). rewrite Z.land_ones by lia. reflexivity.
Qed.

Lemma band_15_small : forall v, 0 <= v < 2 ^ 31 -> JS.band (Some v) 15 = v mod 16.
Proof.
  intros v H. unfold JS.band. rewrite toInt32_small by exact H.
  change (JS.toInt32 15) with (Z.ones 4). rewrite Z.land_ones by lia. reflexivity.
Qed.

(** X2.  Round trip: the [#RRGGBB] text of three bytes, in upper or lower
    case, is read back as those bytes. *)
Theorem hexToRgb_toHex : forall upper r g b,
  0 <= r <= 255 -> 0 <= g <= 255 -> 0 <= b <= 255 ->
  ColorUtils.hexToRgb (toHex upper r g b) = (r, g, b).
Proof.
  intros upper r g b Hr Hg Hb.
  assert (Dr := Z.div_mod r 16 ltac:(lia)). assert (Mr := Z.mod_pos_bound r 16 ltac:(lia)).
  assert (Dg := Z.div_mod g 16 ltac:(lia)). assert (Mg := Z.mod_pos_bound g 16 ltac:(lia)).
  assert (Db := Z.div_mod b 16 ltac:(lia)). assert (Mb := Z.mod_pos_bound b 16 ltac:(lia)).
  assert (Qr : 0 <= r / 16 < 16) by lia.
  assert (Qg : 0 <= g / 16 < 16) by lia.
  assert (Qb : 0 <= b / 16 < 16) by lia.
  unfold ColorUtils.hexToRgb, toHex, hexByte.
  cbn [JS.dropHash String.append String.length].
  rewrite parseInt16_digits by assumption.
  rewrite !hexPrefix_hexChar by assumption. cbn [JS.hexPrefix].
  replace (16 * (16 * (16 * (16 * (16 * (16 * 0 + r / 16) + r mod 16) + g / 16) + g mod 16)
                 + b / 16) + b mod 16)
    with (r * 65536 + g * 256 + b) by lia.
  change (Z.of_nat 6 <=? 3) with false. cbv iota.
  rewrite !shr_small by lia.
  assert (E16 : (r * 65536 + g * 256 + b) / 2 ^ 16 = r)
    by (symmetry; apply (Z.div_unique _ _ _ (g * 256 + b)); lia).
  assert (E8 : (r * 65536 + g * 256 + b) / 2 ^ 8 = r * 256 + g)
    by (symmetry; apply (Z.div_unique _ _ _ b); lia).
  rewrite E16, E8. rewrite !band_255_small by lia.
  f_equal; [f_equal|].
  - apply Z.mod_small. lia.
  - symmetry. apply (Z.mod_unique _ _ r); lia.
  - symmetry. apply (Z.mod_unique _ _ (r * 256 + g)); lia.
Qed.

Lemma hexToRgb_toHex_witness :
  ColorUtils.hexToRgb (toHex true 139 172 15) = (139, 172, 15).
Proof.
  exact (hexToRgb_toHex true 139 172 15
           ltac:(lia) ltac:(lia) ltac:(lia)).
Defined.

(** X3.  The shorthand [#RGB] is read as [#RRGGBB] with each digit doubled:
    every channel is 17 times its digit. *)
Theorem hexToRgb_shorthand : forall upper r g b,
  0 <= r < 16 -> 0 <= g < 16 -> 0 <= b < 16 ->
  ColorUtils.hexToRgb (toShortHex upper r g b) = (17 * r, 17 * g, 17 * b).
Proof.
  intros upper r g b Hr Hg Hb.
  unfold ColorUtils.hexToRgb, toShortHex.
  cbn [JS.dropHash String.length].
  rewrite parseInt16_digits by assumption.
  rewrite !hexPrefix_hexChar by assumption. cbn [JS.hexPrefix].
  replace (16 * (16 * (16 * 0 + r) + g) + b) with (r * 256 + g * 16 + b) by lia.
  change (Z.of_nat 3 <=? 3) with true. cbv iota.
  rewrite !shr_small by lia.
  assert (E8 : (r * 256 + g * 16 + b) / 2 ^ 8 = r)
    by (symmetry; apply (Z.div_unique _ _ _ (g * 16 + b)); lia).
  assert (E4 : (r * 256 + g * 16 + b) / 2 ^ 4 = r * 16 + g)
    by (symmetry; apply (Z.div_unique _ _ _ b); lia).
  rewrite E8, E4. rewrite !band_15_small by lia.
  f_equal; [f_equal|].
  - rewrite Z.mod_small by lia. lia.
  - replace ((r * 16 + g) mod 16) with g
      by (apply (Z.mod_unique _ _ r); lia). lia.
  - replace ((r * 256 + g * 16 + b) mod 16) with b
      by (apply (Z.mod_unique _ _ (r * 16 + g)); lia). lia.
Qed.

Lemma hexToRgb_shorthand_witness :
  ColorUtils.hexToRgb (toShortHex false 15 8 0) = (17 * 15, 17 * 8, 17 * 0).
Proof.
  exact (hexToRgb_shorthand false 15 8 0 ltac:(lia) ltac:(lia) ltac:(lia)).
Defined.

Example toHex_gameboy : toHex true 139 172 15 = "#8BAC0F".
Proof. reflexivity. Qed.

Example toShortHex_orange : toShortHex false 15 8 0 = "#f80".
Proof. reflexivity. Qed.



(** ** palette-service.ts: [getPaletteColors] *)

(** The number of colors [getPaletteColors] works with:
    [options.paletteColors || 2]. *)
Definition requestedColors (options : Types.DitherOptions) : Z :=
  match Types.paletteColors options with
  | Some 0 | None => 2
  | Some n => n
  end.

(** The built-in palette [options] names. *)
Definition builtinPalette (options : Types.DitherOptions) : list string :=
  Types.colors (PaletteService.PALETTES (PaletteService.paletteKey (Types.paletteType options))).

(** The last part of [getPaletteColors]: the subset of a built-in palette. *)
Definition subsetColors (key : PaletteService.PaletteKey) (numColors : Z) : list string :=
  let paletteColors := Types.colors (PaletteService.PALETTES key) in
  let len := Z.of_nat (List.length paletteColors) in
  if numColors >=? len then paletteColors
  else
    match JS.for_loop (Z.to_nat numColors) 0
            (PaletteService.pickColor paletteColors
               (PrimFloat.div (JS.toNumber len) (JS.toNumber numColors))) [] with
    | Some result => result
    | None => []
    end.

Lemma custom_not_selected : forall (t : option Z) (custom : option (list string)),
  t <> Some 3 ->
  match t, custom with
  | Some 3, Some c => Some c
  | _, _ => None
  end = None.
Proof.
  intros [[|p|p]|] custom H; try reflexivity.
  destruct p as [[q|q|]|[q|q|]|]; try reflexivity.
  exfalso. apply H. reflexivity.
Qed.

Lemma user_not_selected : forall (t : option Z) (ups : option (list Types.UserPaletteDefinition))
                                 (sel : option Z),
  t <> Some 4 ->
  match t, ups, sel with
  | Some 4, Some ups, Some sel =>
      match JS.find (fun p => Types.up_id p =? sel) ups with
      | Some selectedPalette => Some (Types.up_colors selectedPalette)
      | None => None
      end
  | _, _, _ => None
  end = None.
Proof.
  intros [[|p|p]|] ups sel H; try reflexivity.
  destruct p as [[q|q|]|[[q|q|]|[q|q|]|]|]; try reflexivity.
  exfalso. apply H. reflexivity.
Qed.

(** With a palette in use and a built-in type, [getPaletteColors] is the
    subset of the built-in palette. *)
Lemma getPaletteColors_builtin : forall options,
  Types.usePalette options = Some true ->
  Types.paletteType options <> Some 3 -> Types.paletteType options <> Some 4 ->
  PaletteService.getPaletteColors options
  = subsetColors (PaletteService.paletteKey (Types.paletteType options))
                 (requestedColors options).
Proof.
  intros options Hu H3 H4. unfold PaletteService.getPaletteColors. rewrite Hu.
  rewrite (custom_not_selected _ _ H3). rewrite (user_not_selected _ _ _ H4).
  reflexivity.
Qed.

(** [r] is [l] with some elements left out, the order kept. *)
Fixpoint subseqb (r l : list string) : bool :=
  match r, l with
  | [], _ => true
  | _ :: _, [] => false
  | x :: r', y :: l' => if String.eqb x y then subseqb r' l' else subseqb r l'
  end.

Inductive Subseq : list string -> list string -> Prop :=
| Subseq_nil : forall l, Subseq [] l
| Subseq_take : forall x r l, Subseq r l -> Subseq (x :: r) (x :: l)
| Subseq_skip : forall y r l, Subseq r l -> Subseq r (y :: l).

Lemma subseqb_Subseq : forall r l, subseqb r l = true -> Subseq r l.
Proof.
  intros r l; revert r; induction l as [|y l IH]; intros [|x r] H; simpl in H.
  - apply Subseq_nil.
  - discriminate H.
  - apply Subseq_nil.
  - destruct (String.eqb x y) eqn:E.
    + apply String.eqb_eq in E. subst. apply Subseq_take. apply IH. exact H.
    + apply Subseq_skip. apply IH. exact H.
Qed.

Lemma Subseq_refl : forall l, Subseq l l.
Proof. induction l; constructor; assumption. Qed.

Definition allKeys : list PaletteService.PaletteKey :=
  [PaletteService.K_BW; PaletteService.K_CGA; PaletteService.K_GAMEBOY;
   PaletteService.K_GAMEBOY_CLASSIC; PaletteService.K_GAMEBOY_POCKET;
   PaletteService.K_GRAYSCALE; PaletteService.K_SEPIA].

(** The subset, checked for every palette and every count below its length. *)
Definition subsetChecked : bool :=
  forallb (fun key =>
    let pal := Types.colors (PaletteService.PALETTES key) in
    forallb (fun n =>
      if n <? Z.of_nat (List.length pal) then
        let r := subsetColors key n in
        (Z.of_nat (List.length r) =? n) && subseqb r pal
        && match r, pal with
           | x :: _, y :: _ => String.eqb x y
           | _, _ => false
           end
      else true) [1; 2; 3; 4]) allKeys.

Lemma subsetChecked_true : subsetChecked = true.
Proof. vm_compute. reflexivity. Qed.

Lemma subsetColors_spec : forall key n, 1 <= n ->
  Z.of_nat (List.length (subsetColors key n))
  = Z.min n (Z.of_nat (List.length (Types.colors (PaletteService.PALETTES key)))) /\
  Subseq (subsetColors key n) (Types.colors (PaletteService.PALETTES key)) /\
  hd_error (subsetColors key n) = hd_error (Types.colors (PaletteService.PALETTES key)).
Proof.
  intros key n Hn.
  destruct (n >=? Z.of_nat (List.length (Types.colors (PaletteService.PALETTES key)))) eqn:E.
  - unfold subsetColors. cbv zeta. rewrite E.
    split; [lia|]. split; [apply Subseq_refl | reflexivity].
  - pose proof subsetChecked_true as C. unfold subsetChecked in C.
    rewrite forallb_forall in C.
    specialize (C key ltac:(destruct key; simpl; auto 10)). cbv zeta in C.
    rewrite forallb_forall in C.
    assert (Hlen : Z.of_nat (List.length (Types.colors (PaletteService.PALETTES key))) <= 5)
      by (destruct key; simpl; lia).
    specialize (C n ltac:(simpl; lia)).
    assert (Hlt : (n <? Z.of_nat (List.length (Types.colors (PaletteService.PALETTES key))))
                  = true) by lia.
    rewrite Hlt in C.
    apply andb_prop in C. destruct C as [C Chd].
    apply andb_prop in C. destruct C as [Clen Csub].
    split; [lia|]. split; [apply subseqb_Subseq; exact Csub|].
    destruct (subsetColors key n) as [|x r]; [discriminate Chd|].
    destruct (Types.colors (PaletteService.PALETTES key)) as [|y l]; [discriminate Chd|].
    apply String.eqb_eq in Chd. simpl. congruence.
Qed.

(** X5.  For a built-in palette type and a requested count of at least
    one, the resolved palette has as many colors as requested, or the whole
    built-in palette when that is shorter; its colors are colors of the
    built-in palette, in the same order, and it starts with the first. *)
Theorem builtin_palette_subset : forall options,
  Types.usePalette options = Some true ->
  Types.paletteType options <> Some 3 -> Types.paletteType options <> Some 4 ->
  1 <= requestedColors options ->
  Z.of_nat (List.length (PaletteService.getPaletteColors options))
  = Z.min (requestedColors options) (Z.of_nat (List.length (builtinPalette options))) /\
  Subseq (PaletteService.getPaletteColors options) (builtinPalette options) /\
  hd_error (PaletteService.getPaletteColors options) = hd_error (builtinPalette options).
Proof.
  intros options Hu H3 H4 Hn. rewrite (getPaletteColors_builtin options Hu H3 H4).
  apply subsetColors_spec. exact Hn.
Qed.

Lemma builtin_palette_subset_witness :
  Z.of_nat (List.length (PaletteService.getPaletteColors
                           (paletteOptions 7 (Some 3) None None None)))
  = Z.min (requestedColors (paletteOptions 7 (Some 3) None None None))
          (Z.of_nat (List.length (builtinPalette (paletteOptions 7 (Some 3) None None None))))
  /\
  Subseq (PaletteService.getPaletteColors (paletteOptions 7 (Some 3) None None None))
         (builtinPalette (paletteOptions 7 (Some 3) None None None)) /\
  hd_error (PaletteService.getPaletteColors (paletteOptions 7 (Some 3) None None None))
  = hd_error (builtinPalette (paletteOptions 7 (Some 3) None None None)).
Proof.
  exact (builtin_palette_subset (paletteOptions 7 (Some 3) None None None)
           eq_refl ltac:(discriminate) ltac:(discriminate) ltac:(cbv; discriminate)).
Defined.

Example grayscale_three_of_five :
  PaletteService.getPaletteColors (paletteOptions 7 (Some 3) None None None)
  = ["#000000"; "#444444"; "#CCCCCC"].
Proof. vm_compute. reflexivity. Qed.

Lemma find_fails : forall {A} (f : A -> bool) (l : list A),
  (forall x, In x l -> f x = false) -> JS.find f l = None.
Proof.
  intros A f l H. unfold JS.find. induction l as [|x l IH]; simpl; [reflexivity|].
  rewrite (H x (or_introl eq_refl)). apply IH. intros y Hy. apply H. right. exact Hy.
Qed.

(** X6.  A user palette that cannot be found (no list of user palettes,
    no selection, or no palette with the selected id) resolves as black and
    white does: to ["#000000", "#FFFFFF"] when at least two colors are
    requested. *)
Theorem missing_user_palette_is_black_and_white : forall options,
  Types.usePalette options = Some true ->
  Types.paletteType options = Some 4 ->
  (forall ups sel p,
     Types.userPalettes options = Some ups ->
     Types.selectedUserPalette options = Some sel ->
     In p ups -> Types.up_id p <> sel) ->
  2 <= requestedColors options ->
  PaletteService.getPaletteColors options = ["#000000"; "#FFFFFF"].
Proof.
  intros options Hu Ht Hmiss Hn. unfold PaletteService.getPaletteColors.
  rewrite Hu, Ht. cbv iota.
  assert (Huser : match Types.userPalettes options, Types.selectedUserPalette options with
                  | Some ups, Some sel =>
                      match JS.find (fun p => Types.up_id p =? sel) ups with
                      | Some selectedPalette => Some (Types.up_colors selectedPalette)
                      | None => None
                      end
                  | _, _ => None
                  end = None).
  { destruct (Types.userPalettes options) as [ups|] eqn:Eu; [|reflexivity].
    destruct (Types.selectedUserPalette options) as [sel|] eqn:Es; [|reflexivity].
    rewrite find_fails; [reflexivity|].
    intros p Hp. apply Z.eqb_neq. exact (Hmiss ups sel p eq_refl eq_refl Hp). }
  rewrite Huser.
  change (subsetColors PaletteService.K_BW (requestedColors options) = ["#000000"; "#FFFFFF"]).
  unfold subsetColors. cbn [PaletteService.PALETTES Types.colors List.length].
  replace (requestedColors options >=? Z.of_nat 2) with true by (simpl; lia).
  reflexivity.
Qed.

Lemma missing_user_palette_is_black_and_white_witness :
  PaletteService.getPaletteColors
    (paletteOptions 4 None None
       (Some [ {| Types.up_id := 1; Types.up_name := "Ocean";
                  Types.up_colors := ["#001F3F"; "#FFFFFF"] |} ])
       (Some 7))
  = ["#000000"; "#FFFFFF"].
Proof.
  apply missing_user_palette_is_black_and_white.
  - reflexivity.
  - reflexivity.
  - intros ups sel p Hu Hs Hp. simpl in Hu, Hs.
    injection Hu as <-. injection Hs as <-.
    destruct Hp as [<- | []]. cbv. discriminate.
  - cbv. discriminate.
Defined.



(** ** Palette rasterization beyond the sizes the controls offer *)

(** A color as the lookup texture holds it: its channels, opaque. *)
Definition opaque (hex : string) : Z * Z * Z * Z :=
  let '(r, g, b) := ColorUtils.hexToRgb hex in (r, g, b, 255).





Example opaque_steel_blue : opaque "#336699" = (51, 102, 153, 255).
Proof. reflexivity. Qed.

(** X9.  With the empty list [createPaletteTexture] returns [null] and
    calls nothing, whereas [updatePaletteTexture] throws (there is no
    [colors[-1]] to convert) before it uploads anything. *)
Theorem empty_palette_texture : forall env t s,
  PaletteService.createPaletteTexture env [] s = (Ret None, s) /\
  fst (PaletteService.updatePaletteTexture env t [] s) = Throw /\
  uploads (snd (PaletteService.updatePaletteTexture env t [] s)) = uploads s.
Proof.
  intros env t s. split; [reflexivity|].
  assert (E : PaletteService.paletteData [] = None) by (vm_compute; reflexivity).
  unfold PaletteService.updatePaletteTexture, PaletteService.rasterize, gldo, glcall, bind.
  rewrite E.
  destruct (throws env c_bindTexture); [split; reflexivity|].
  destruct (canvas s) as [cv|]; [|split; reflexivity].
  split; [reflexivity|].
  unfold uploads. cbn [snd calls record withCanvas throw].
  apply count_occ_cons_neq. discriminate.
Qed.

(** ** Running a computation on a platform where no call throws *)

Section Running.
Variable env : Env.
Hypothesis quiet : forall c, throws env c = false.

Lemma run_call : forall {B} c (k : unit -> M B) s,
bind (call env c) k s = k tt (record c s).
Proof. intros B c k s. unfold bind, call. rewrite quiet. reflexivity. Qed.

Lemma run_glcall : forall {A B} c (f : GL.Context -> A * GL.Context) (k : A -> M B) s cv,
canvas s = Some cv ->
bind (glcall env c f) k s
= k (fst (f (context cv)))
    (record c (withCanvas (Some (withContext (snd (f (context cv))) cv)) s)).
Proof.
intros A B c f k s cv H. unfold bind, glcall. rewrite quiet, H.
destruct (f (context cv)) as [a g]. reflexivity.
Qed.

Lemma run_gldo : forall {B} c (f : GL.Context -> GL.Context) (k : unit -> M B) s cv,
canvas s = Some cv ->
bind (gldo env c f) k s
= k tt (record c (withCanvas (Some (withContext (f (context cv)) cv)) s)).
Proof. intros B c f k s cv H. unfold gldo. rewrite (run_glcall _ _ _ _ cv H). reflexivity. Qed.

Lemma run_gldo_last : forall c (f : GL.Context -> GL.Context) s cv,
canvas s = Some cv ->
gldo env c f s
= (Ret tt, record c (withCanvas (Some (withContext (f (context cv)) cv)) s)).
Proof.
intros c f s cv H. unfold gldo, glcall. rewrite quiet, H. reflexivity.
Qed.

End Running.

Lemma bind_assoc : forall {A B C} (c : M A) (k : A -> M B) (k' : B -> M C) s,
  bind (bind c k) k' s = bind c (fun a => bind (k a) k') s.
Proof. intros A B C c k k' s. unfold bind. destruct (c s) as [[a|] s1]; reflexivity. Qed.

(** The texture object [createPaletteTexture] leaves for [data]. *)
Definition paletteTextureObject (flipY : bool) (data : list Z) : GL.Texture :=
  {| GL.image := GL.ByteImage 256 1 flipY data;
     GL.wrap_s := GL.CLAMP_TO_EDGE; GL.wrap_t := GL.CLAMP_TO_EDGE;
     GL.min_filter := GL.LINEAR; GL.mag_filter := GL.LINEAR |}.

(** The texture object named [t]. *)
Definition textureOf (t : nat) (s : Service) : option GL.Texture :=
  match canvas s with
  | Some cv => nth_error (GL.textures (context cv)) t
  | None => None
  end.

(** In [g] the active unit is bound to the texture object [n], which is
    [tx]; the pixel-store flag is [flipY]; the objects of [ts] other than
    [n] are as they were. *)
Definition holds (g : GL.Context) (n : nat) (tx : GL.Texture) (ts : list GL.Texture)
           (flipY : bool) : Prop :=
  GL.lookup (GL.activeTexture_ g) (GL.bound g) = Some n /\
  nth_error (GL.textures g) n = Some tx /\
  GL.unpackFlipY g = flipY /\
  (forall m x, m <> n -> nth_error ts m = Some x -> nth_error (GL.textures g) m = Some x).

Lemma nth_error_updateNth_other : forall {A} (f : A -> A) l n m,
  m <> n -> nth_error (GL.updateNth n f l) m = nth_error l m.
Proof.
  intros A f l; induction l as [|y l IH]; intros [|n] [|m] H; simpl; try reflexivity.
  - contradiction.
  - apply IH. lia.
Qed.

Lemma holds_onBound : forall f g n tx ts flipY,
  holds g n tx ts flipY -> holds (GL.onBound f g) n (f tx) ts flipY.
Proof.
  intros f g n tx ts flipY (Hb & Ht & Hf & Ho). unfold holds, GL.onBound. rewrite Hb.
  cbn [GL.activeTexture_ GL.bound GL.textures GL.unpackFlipY GL.withTextures].
  split; [exact Hb|]. split; [apply nth_error_updateNth; exact Ht|].
  split; [exact Hf|].
  intros m x Hm Hx. rewrite nth_error_updateNth_other by exact Hm. apply Ho; assumption.
Qed.

Lemma holds_texImage2D_bytes : forall w h data g n tx ts flipY,
  holds g n tx ts flipY ->
  holds (GL.texImage2D_bytes w h data g) n
        (GL.setImage (GL.ByteImage w h flipY data) tx) ts flipY.
Proof.
  intros w h data g n tx ts flipY H. unfold GL.texImage2D_bytes.
  destruct H as (Hb & Ht & Hf & Ho). rewrite Hf.
  apply holds_onBound. repeat split; assumption.
Qed.

Lemma holds_bindTexture : forall g n tx ts flipY,
  nth_error (GL.textures g) n = Some tx -> GL.unpackFlipY g = flipY ->
  (forall m x, m <> n -> nth_error ts m = Some x -> nth_error (GL.textures g) m = Some x) ->
  holds (GL.bindTexture (Some n) g) n tx ts flipY.
Proof.
  intros g n tx ts flipY Ht Hf Ho. unfold holds, GL.bindTexture.
  cbn [GL.activeTexture_ GL.bound GL.textures GL.unpackFlipY GL.lookup].
  rewrite Z.eqb_refl. repeat split; assumption.
Qed.

(** X10.  Where no call throws and a texture object can be had,
    [createPaletteTexture] on one to fifty colors returns a new texture
    object that holds the rasterized palette, clamped to the edge and
    filtered linearly, and leaves the other texture objects alone;
    [updatePaletteTexture] on it with the same colors uploads the same
    image again and changes no parameter. *)
Theorem createPaletteTexture_holds_palette : forall env colors s cv,
  (forall c, throws env c = false) ->
  textureCreated env PaletteTexture = true ->
  canvas s = Some cv ->
  1 <= Z.of_nat (List.length colors) <= 50 ->
  exists data s1,
    PaletteService.paletteData colors = Some data /\
    PaletteService.createPaletteTexture env colors s
    = (Ret (Some (List.length (GL.textures (context cv)))), s1) /\
    textureOf (List.length (GL.textures (context cv))) s1
    = Some (paletteTextureObject (GL.unpackFlipY (context cv)) data) /\
    (forall t tex, nth_error (GL.textures (context cv)) t = Some tex ->
                   textureOf t s1 = Some tex) /\
    textureOf (List.length (GL.textures (context cv)))
      (snd (PaletteService.updatePaletteTexture env
              (List.length (GL.textures (context cv))) colors s1))
    = Some (paletteTextureObject (GL.unpackFlipY (context cv)) data).
Proof.
  intros env colors s cv quiet Hcreated Hcv Hn.
  destruct (paletteData_defined colors Hn) as [data Hdata].
  exists data.
  set (ts := GL.textures (context cv)).
  set (flipY := GL.unpackFlipY (context cv)).
  assert (H1 : holds (GL.bindTexture (Some (List.length ts))
                        (GL.withTextures (ts ++ [GL.newTexture]) (context cv)))
                     (List.length ts) GL.newTexture ts flipY).
  { apply holds_bindTexture.
    - cbn [GL.textures GL.withTextures]. rewrite nth_error_app2 by lia.
      rewrite Nat.sub_diag. reflexivity.
    - reflexivity.
    - intros m x _ Hx. cbn [GL.textures GL.withTextures].
      rewrite nth_error_app1 by (apply nth_error_Some; congruence). exact Hx. }
  apply (holds_texImage2D_bytes PaletteService.width PaletteService.height data) in H1.
  apply (holds_onBound (GL.setParam GL.TEXTURE_WRAP_S GL.CLAMP_TO_EDGE)) in H1.
  apply (holds_onBound (GL.setParam GL.TEXTURE_WRAP_T GL.CLAMP_TO_EDGE)) in H1.
  apply (holds_onBound (GL.setParam GL.TEXTURE_MIN_FILTER GL.LINEAR)) in H1.
  apply (holds_onBound (GL.setParam GL.TEXTURE_MAG_FILTER GL.LINEAR)) in H1.
  pose proof H1 as H2. destruct H2 as (_ & Ht & Hf & Ho).
  apply (holds_bindTexture _ _ _ ts flipY Ht Hf) in Ho.
  apply (holds_texImage2D_bytes PaletteService.width PaletteService.height data) in Ho.
  destruct Ho as (_ & Ht2 & _ & _).
  destruct H1 as (_ & _ & _ & Ho).
  unfold PaletteService.createPaletteTexture.
  destruct (List.length colors =? 0)%nat eqn:E; [apply Nat.eqb_eq in E; lia|].
  rewrite Hcreated.
  rewrite (run_glcall env quiet _ _ _ _ cv Hcv).
  unfold GL.createTexture; cbn [fst snd].
  erewrite (run_gldo env quiet) by reflexivity.
  unfold PaletteService.rasterize. rewrite Hdata.
  unfold bind at 1, ret at 1.
  repeat (erewrite (run_gldo env quiet) by reflexivity).
  unfold ret.
  eexists. split; [reflexivity|]. split; [reflexivity|].
  unfold PaletteService.updatePaletteTexture, PaletteService.rasterize.
  erewrite (run_gldo env quiet) by reflexivity. rewrite Hdata.
  unfold bind at 1, ret at 1.
  erewrite (run_gldo_last env quiet) by reflexivity.
  unfold textureOf.
  cbn [snd canvas record withCanvas context withContext].
  split; [exact Ht|]. split; [|exact Ht2].
  intros t tex Htex. apply Ho; [|exact Htex].
  assert (t < List.length ts)%nat by (apply nth_error_Some; fold ts; congruence). lia.
Qed.

Lemma createPaletteTexture_holds_palette_witness :
  exists data s1,
    PaletteService.paletteData ["#000000"; "#FFFFFF"] = Some data /\
    PaletteService.createPaletteTexture platform ["#000000"; "#FFFFFF"] paletteReady
    = (Ret (Some 1%nat), s1) /\
    textureOf 1 s1 = Some (paletteTextureObject false data) /\
    (forall t tex, nth_error [GL.newTexture] t = Some tex -> textureOf t s1 = Some tex) /\
    textureOf 1
      (snd (PaletteService.updatePaletteTexture platform 1 ["#000000"; "#FFFFFF"] s1))
    = Some (paletteTextureObject false data).
Proof.
  refine (createPaletteTexture_holds_palette platform ["#000000"; "#FFFFFF"] paletteReady
            {| offscreen := false; canvas_width := 1; canvas_height := 1;
               context := GL.withTextures [GL.newTexture] (GL.newContext 1 1) |}
            (fun _ => eq_refl) eq_refl eq_refl _).
  simpl. lia.
Defined.

(** ** The fragment program, function by function *)

Local Open Scope Q_scope.

(** Turn the boolean comparisons of the context into inequalities. *)
Ltac qbool :=
  repeat match goal with
         | H : Qle_bool _ _ = true |- _ => apply Qle_bool_iff in H
         | H : Qle_bool ?a ?b = false |- _ =>
             let N := fresh "N" in
             assert (N : b < a)
               by (apply Qnot_le_lt; intros HH;
                   apply (proj2 (Qle_bool_iff a b)) in HH; congruence);
             clear H
         end.

(** All three channels lie between [lo] and [hi]. *)
Definition between3 (lo hi : Q) (v : vec3) : Prop :=
  let '(r, g, b) := v in lo <= r <= hi /\ lo <= g <= hi /\ lo <= b <= hi.

Lemma clamp_range : forall x, 0 <= clamp x 0 1 <= 1.
Proof.
  intros x. unfold clamp, min, max.
  destruct (Qle_bool x 0) eqn:E1.
  - destruct (Qle_bool 0 1) eqn:E2; qbool; lra.
  - destruct (Qle_bool x 1) eqn:E2; qbool; lra.
Qed.

Lemma clamp_inside : forall x, 0 <= x <= 1 -> clamp x 0 1 == x.
Proof.
  intros x Hx. unfold clamp, min, max.
  destruct (Qle_bool x 0) eqn:E1.
  - destruct (Qle_bool 0 1) eqn:E2; qbool; lra.
  - destruct (Qle_bool x 1) eqn:E2; qbool; lra.
Qed.

Lemma clamp3_range : forall v, between3 0 1 (clamp3 v 0 1).
Proof.
  intros [[r g] b]. unfold clamp3, map3, between3.
  repeat split; apply clamp_range.
Qed.

(** Clamping a color that is, up to [==], a color [w] inside the unit
    cube gives [w]. *)
Lemma clamp3_inside : forall v w, eq3 v w -> between3 0 1 w -> eq3 (clamp3 v 0 1) w.
Proof.
  intros [[r g] b] [[r' g'] b'] (H1 & H2 & H3) (B1 & B2 & B3).
  unfold clamp3, map3, eq3.
  repeat split; (rewrite clamp_inside; [assumption | lra]).
Qed.

Lemma floor_below : forall x, floor x <= x.
Proof. intros x. unfold floor. apply Qfloor_le. Qed.

Lemma floor_above : forall x, x < floor x + 1.
Proof.
  intros x. unfold floor. pose proof (Qlt_floor x) as H.
  rewrite inject_Z_plus in H. exact H.
Qed.

(** One channel of [reduceColor]. *)
Definition quantize (levels c : Q) : Q := floor (c * levels) / levels.

Lemma reduceColor_channels : forall r g b levels,
  Shader.reduceColor (r, g, b) levels
  = (quantize levels r, quantize levels g, quantize levels b).
Proof. reflexivity. Qed.

Lemma quantize_below : forall levels c, 0 < levels ->
  quantize levels c <= c /\ c < quantize levels c + 1 / levels.
Proof.
  intros levels c Hl. unfold quantize.
  pose proof (floor_below (c * levels)) as Hlo.
  pose proof (floor_above (c * levels)) as Hhi.
  split.
  - apply Qle_shift_div_r; assumption.
  - assert (E : floor (c * levels) / levels + 1 / levels
                == (floor (c * levels) + 1) / levels) by (field; lra).
    rewrite E. apply Qlt_shift_div_l; assumption.
Qed.

Lemma quantize_idempotent : forall levels c, 0 < levels ->
  quantize levels (quantize levels c) == quantize levels c.
Proof.
  intros levels c Hl. unfold quantize at 1.
  assert (E : quantize levels c * levels == floor (c * levels))
    by (unfold quantize; field; lra).
  rewrite (floor_comp _ _ E). unfold quantize, floor. rewrite Qfloor_Z. reflexivity.
Qed.

(** X11.  For a positive number of levels [reduceColor] rounds every
    channel down to a multiple of [1/levels]: the result is at most the
    channel and less than one step below it, and quantizing again changes
    nothing. *)
Theorem reduceColor_rounds_down : forall (color : vec3) (levels : Q),
  0 < levels ->
  (let '(r, g, b) := color in
   let '(r', g', b') := Shader.reduceColor color levels in
   (r' <= r < r' + 1 / levels) /\ (g' <= g < g' + 1 / levels)
   /\ (b' <= b < b' + 1 / levels)) /\
  eq3 (Shader.reduceColor (Shader.reduceColor color levels) levels)
      (Shader.reduceColor color levels).
Proof.
  intros [[r g] b] levels Hl. rewrite reduceColor_channels. split.
  - repeat split; apply quantize_below; exact Hl.
  - rewrite reduceColor_channels. unfold eq3.
    repeat split; apply quantize_idempotent; exact Hl.
Qed.

Lemma reduceColor_rounds_down_witness :
  (let '(r, g, b) := rust in
   let '(r', g', b') := Shader.reduceColor rust 16 in
   (r' <= r < r' + 1 / 16) /\ (g' <= g < g' + 1 / 16) /\ (b' <= b < b' + 1 / 16)) /\
  eq3 (Shader.reduceColor (Shader.reduceColor rust 16) 16) (Shader.reduceColor rust 16).
Proof.
  apply (reduceColor_rounds_down rust 16). reflexivity.
Defined.

(** X12.  [toGrayscale] is a weighted mean of the channels: it lies
    between any two bounds of the channels, so a gray is its own
    luminance and a color of the unit cube has a luminance in [0, 1]. *)
Theorem toGrayscale_is_a_mean : forall (lo hi : Q) (color : vec3),
  between3 lo hi color -> lo <= Shader.toGrayscale color <= hi.
Proof.
  intros lo hi [[r g] b] (Hr & Hg & Hb). unfold Shader.toGrayscale, dot3. lra.
Qed.

Lemma toGrayscale_is_a_mean_witness :
  (1 # 5) <= Shader.toGrayscale rust <= (3 # 5).
Proof.
  apply (toGrayscale_is_a_mean (1 # 5) (3 # 5) rust).
  unfold between3, rust. lra.
Defined.

(** X13.  Whatever the input color, the settings and the power function,
    [preprocessImage] returns a color of the unit cube. *)
Theorem preprocessImage_in_unit_cube :
  forall (pow : Q -> Q -> Q) (U : Shader.Uniforms) (color : vec3),
    between3 0 1 (Shader.preprocessImage pow U color).
Proof.
  intros pow U color. unfold Shader.preprocessImage.
  set (c3 := Shader.adjustMidtones pow _ _).
  assert (H3 : between3 0 1 c3) by (unfold c3, Shader.adjustMidtones; apply clamp3_range).
  destruct (neq (Shader.u_brightness U) (1 # 2)); [|exact H3].
  destruct c3 as [[r g] b]. destruct H3 as (Hr & Hg & Hb).
  unfold mix3, zip3, splat, mix, step, between3.
  destruct (lt _ _); lra.
Qed.

(** *** Preprocessing at neutral settings *)

Lemma between3_comp : forall lo hi v w, eq3 v w -> between3 lo hi w -> between3 lo hi v.
Proof.
  intros lo hi [[r g] b] [[r' g'] b'] (H1 & H2 & H3) (B1 & B2 & B3).
  unfold between3. rewrite H1, H2, H3. auto.
Qed.

Lemma adjustContrast_neutral : forall color contrast,
  contrast == 0 -> between3 0 1 color ->
  eq3 (Shader.adjustContrast color contrast) color.
Proof.
  intros [[r g] b] contrast Hc Hb. unfold Shader.adjustContrast.
  assert (Hgt : gt contrast 0 = false).
  { unfold gt. apply negb_false_iff. apply Qle_bool_iff. rewrite Hc. apply Qle_refl. }
  rewrite Hgt. apply clamp3_inside; [|exact Hb].
  unfold map3, eq3. repeat split; rewrite Hc; field.
Qed.

Lemma adjustHighlights_neutral : forall color highlights,
  highlights == 0 -> between3 0 1 color ->
  eq3 (Shader.adjustHighlights color highlights) color.
Proof.
  intros [[r g] b] highlights Hh Hb. unfold Shader.adjustHighlights.
  assert (Hgt : gt highlights 0 = false).
  { unfold gt. apply negb_false_iff. apply Qle_bool_iff. rewrite Hh. apply Qle_refl. }
  rewrite Hgt. apply clamp3_inside; [|exact Hb].
  unfold mix3, zip3, scale3, map3, mix, eq3.
  repeat split; rewrite Hh; ring.
Qed.

Lemma adjustMidtones_neutral : forall pow color midtones,
  (forall c e, e == 1 -> pow c e == c) ->
  midtones == 0 -> between3 0 1 color ->
  eq3 (Shader.adjustMidtones pow color midtones) color.
Proof.
  intros pow [[r g] b] midtones Hpow Hm Hb. unfold Shader.adjustMidtones.
  assert (Hgt : gt midtones 0 = false).
  { unfold gt. apply negb_false_iff. apply Qle_bool_iff. rewrite Hm. apply Qle_refl. }
  rewrite Hgt. apply clamp3_inside; [|exact Hb].
  assert (Hf : mix 1 (1 # 2) (- midtones) == 1) by (unfold mix; rewrite Hm; ring).
  unfold mix3, zip3, map3, eq3.
  repeat split; unfold mix at 1; rewrite (Hpow _ _ Hf); ring.
Qed.

(** X14.  At the neutral settings (contrast, highlights and midtones 0,
    brightness threshold 0.5), and with a power function for which
    [pow(c, 1) = c], preprocessing returns a color of the unit cube as it
    is. *)
Theorem preprocessImage_neutral :
  forall (pow : Q -> Q -> Q) (U : Shader.Uniforms) (color : vec3),
    (forall c e, e == 1 -> pow c e == c) ->
    Shader.u_contrast U == 0 -> Shader.u_highlights U == 0 ->
    Shader.u_midtones U == 0 -> Shader.u_brightness U == 1 # 2 ->
    between3 0 1 color ->
    eq3 (Shader.preprocessImage pow U color) color.
Proof.
  intros pow U color Hpow Hc Hh Hm Hbr Hb. unfold Shader.preprocessImage.
  assert (Hneq : neq (Shader.u_brightness U) (1 # 2) = false).
  { unfold neq. apply negb_false_iff. apply Qeq_bool_iff. exact Hbr. }
  rewrite Hneq.
  pose proof (adjustContrast_neutral color _ Hc Hb) as E1.
  pose proof (between3_comp 0 1 _ _ E1 Hb) as B1.
  pose proof (adjustHighlights_neutral _ _ Hh B1) as E2.
  pose proof (between3_comp 0 1 _ _ E2 B1) as B2.
  pose proof (adjustMidtones_neutral pow _ _ Hpow Hm B2) as E3.
  exact (eq3_trans _ _ _ E3 (eq3_trans _ _ _ E2 E1)).
Qed.

(** The uniforms [setupShaderUniforms] sets for options that leave the
    preprocessing settings out. *)
Definition neutralUniforms : Shader.Uniforms :=
  {| Shader.u_image := 0; Shader.u_errorTexture := 1; Shader.u_palette := 2;
     Shader.u_resolution := (1, 1); Shader.u_ditherAmount := 7 # 10;
     Shader.u_ditherType := 0; Shader.u_passIndex := 0;
     Shader.u_pixelStep := (1, 1); Shader.u_bayerSize := 1;
     Shader.u_usePalette := false; Shader.u_contrast := 0;
     Shader.u_highlights := 0; Shader.u_midtones := 0;
     Shader.u_brightness := 1 # 2 |}.

Lemma preprocessImage_neutral_witness :
  eq3 (Shader.preprocessImage (fun c _ => c) neutralUniforms rust) rust.
Proof.
  apply (preprocessImage_neutral (fun c _ => c) neutralUniforms rust).
  - intros c e _. reflexivity.
  - reflexivity.
  - reflexivity.
  - reflexivity.
  - reflexivity.
  - unfold between3, rust. lra.
Defined.

(** *** The Bayer matrices *)

Local Open Scope Z_scope.

Definition upto (n : nat) : list Z := List.map Z.of_nat (seq 0 n).

Lemma upto_In : forall n z, In z (upto n) <-> 0 <= z < Z.of_nat n.
Proof.
  intros n z. unfold upto. split.
  - intros H. apply in_map_iff in H. destruct H as (k & <- & Hk).
    apply in_seq in Hk. lia.
  - apply range_In.
Qed.

(** The threshold function [t] of a matrix of side [n] takes, on a tile,
    only values [k / n^2] with [0 <= k < n^2], and takes each of them. *)
Definition levels_on_tile (t : Z -> Z -> Q) (n : nat) : bool :=
  forallb (fun x =>
    forallb (fun y =>
      existsb (fun k => Qeq_bool (t x y) (inject_Z k / inject_Z (Z.of_nat (n * n))))
              (upto (n * n)))
      (upto n))
    (upto n)
  && forallb (fun k =>
       existsb (fun x =>
         existsb (fun y => Qeq_bool (t x y) (inject_Z k / inject_Z (Z.of_nat (n * n))))
                 (upto n))
         (upto n))
       (upto (n * n)).

Lemma levels_on_tile_spec : forall t n, levels_on_tile t n = true ->
  (forall x y, 0 <= x < Z.of_nat n -> 0 <= y < Z.of_nat n ->
     exists k, 0 <= k < Z.of_nat (n * n)
               /\ (t x y == inject_Z k / inject_Z (Z.of_nat (n * n)))%Q) /\
  (forall k, 0 <= k < Z.of_nat (n * n) ->
     exists x y, 0 <= x < Z.of_nat n /\ 0 <= y < Z.of_nat n
                 /\ (t x y == inject_Z k / inject_Z (Z.of_nat (n * n)))%Q).
Proof.
  intros t n H. unfold levels_on_tile in H. apply andb_prop in H. destruct H as [H1 H2].
  split.
  - intros x y Hx Hy.
    rewrite forallb_forall in H1. specialize (H1 x (proj2 (upto_In _ _) Hx)).
    rewrite forallb_forall in H1. specialize (H1 y (proj2 (upto_In _ _) Hy)).
    apply existsb_exists in H1. destruct H1 as (k & Hk & E).
    exists k. split; [apply upto_In; exact Hk | apply Qeq_bool_iff; exact E].
  - intros k Hk.
    rewrite forallb_forall in H2. specialize (H2 k (proj2 (upto_In _ _) Hk)).
    apply existsb_exists in H2. destruct H2 as (x & Hx & H2).
    apply existsb_exists in H2. destruct H2 as (y & Hy & E).
    exists x, y. split; [apply upto_In; exact Hx|].
    split; [apply upto_In; exact Hy | apply Qeq_bool_iff; exact E].
Qed.

Lemma getBayerThreshold_levels : forall U,
  levels_on_tile (Shader.getBayerThreshold U) (Z.to_nat (Shader.matrixSize U)) = true.
Proof.
  intros U. unfold Shader.getBayerThreshold, Shader.matrixSize.
  destruct (Shader.u_bayerSize U =? 0); [vm_compute; reflexivity|].
  destruct (Shader.u_bayerSize U =? 1); vm_compute; reflexivity.
Qed.

Lemma matrixSize_positive : forall U, 0 < Shader.matrixSize U.
Proof.
  intros U. destruct (matrixSize_cases U) as [H | [H | H]]; rewrite H; lia.
Qed.

Lemma bayerThreshold_level : forall U x y,
  exists k, 0 <= k < Shader.matrixSize U * Shader.matrixSize U
            /\ (Shader.bayerThreshold U (GL.fragCoord x y)
                == inject_Z k / inject_Z (Shader.matrixSize U * Shader.matrixSize U))%Q.
Proof.
  intros U x y. pose proof (matrixSize_positive U) as Hn.
  destruct (levels_on_tile_spec _ _ (getBayerThreshold_levels U)) as [Hin _].
  set (n := Shader.matrixSize U) in *.
  assert (Hnn : Z.of_nat (Z.to_nat n * Z.to_nat n) = n * n) by lia.
  rewrite Hnn in Hin. rewrite Z2Nat.id in Hin by lia.
  rewrite bayerThreshold_pixel. fold n.
  apply Hin; apply Z.mod_pos_bound; exact Hn.
Qed.

Lemma bayerThreshold_range : forall U x y,
  (0 <= Shader.bayerThreshold U (GL.fragCoord x y) < 1)%Q.
Proof.
  intros U x y. pose proof (matrixSize_positive U) as Hn.
  destruct (bayerThreshold_level U x y) as (k & Hk & E). rewrite E.
  set (n := Shader.matrixSize U) in *.
  assert (Hpos : (0 < inject_Z (n * n))%Q) by (rewrite <- (Zlt_Qlt 0); nia).
  split.
  - apply Qle_shift_div_l; [exact Hpos|]. rewrite Qmult_0_l.
    rewrite <- (Zle_Qle 0). lia.
  - apply Qlt_shift_div_r; [exact Hpos|]. rewrite Qmult_1_l.
    rewrite <- Zlt_Qlt. lia.
Qed.

(** X15.  Each Bayer matrix (2x2, 4x4, 8x8) is a permutation of its
    levels: with [n] the side of the selected matrix, the threshold of every
    pixel is [k / n^2] for some [0 <= k < n^2], hence in [0, 1), and every
    such level is the threshold of some pixel of the first tile. *)
Theorem bayer_thresholds_are_the_levels : forall (U : Shader.Uniforms),
  let n := Shader.matrixSize U in
  (forall x y : Z,
     exists k, 0 <= k < n * n
               /\ (Shader.bayerThreshold U (GL.fragCoord x y)
                   == inject_Z k / inject_Z (n * n))%Q) /\
  (forall x y : Z,
     (0 <= Shader.bayerThreshold U (GL.fragCoord x y) < 1)%Q) /\
  (forall k, 0 <= k < n * n ->
     exists x y, 0 <= x < n /\ 0 <= y < n
                 /\ (Shader.bayerThreshold U (GL.fragCoord x y)
                     == inject_Z k / inject_Z (n * n))%Q).
Proof.
  intros U n.
  split; [apply bayerThreshold_level|]. split; [apply bayerThreshold_range|].
  pose proof (matrixSize_positive U) as Hn. fold n in Hn.
  destruct (levels_on_tile_spec _ _ (getBayerThreshold_levels U)) as [_ Honto].
  fold n in Honto.
  assert (Hnn : Z.of_nat (Z.to_nat n * Z.to_nat n) = n * n) by lia.
  rewrite Hnn in Honto. rewrite Z2Nat.id in Honto by lia.
  intros k Hk. destruct (Honto k Hk) as (x & y & Hx & Hy & E).
  exists x, y. split; [exact Hx|]. split; [exact Hy|].
  rewrite bayerThreshold_pixel. fold n.
  rewrite !Z.mod_small by assumption. exact E.
Qed.

(** *** Thresholding *)

Local Open Scope Q_scope.

Lemma fract_range : forall x, 0 <= fract x < 1.
Proof.
  intros x. unfold fract. pose proof (floor_below x). pose proof (floor_above x). lra.
Qed.

Lemma toGrayscale_black : forall v, eq3 v black -> Shader.toGrayscale v == 0.
Proof. intros v H. rewrite (toGrayscale_comp _ _ H). reflexivity. Qed.

Lemma toGrayscale_white : forall v, eq3 v white -> Shader.toGrayscale v == 1.
Proof. intros v H. rewrite (toGrayscale_comp _ _ H). reflexivity. Qed.

Lemma gt_above : forall a b, b < a -> gt a b = true.
Proof.
  intros a b H. unfold gt. apply negb_true_iff.
  destruct (Qle_bool a b) eqn:E; [|reflexivity].
  apply Qle_bool_iff in E. lra.
Qed.

Lemma gt_not_above : forall a b, a <= b -> gt a b = false.
Proof. intros a b H. unfold gt. apply negb_false_iff. apply Qle_bool_iff. exact H. Qed.

Lemma mix3_toward_same : forall v w a, eq3 v w -> eq3 (mix3 v w a) w.
Proof.
  intros [[r g] b] [[r' g'] b'] a (H1 & H2 & H3). unfold mix3, zip3, mix, eq3.
  rewrite H1, H2, H3. repeat split; ring.
Qed.

(** The color a threshold in [0, 1) turns black and white into. *)
Lemma threshold_of_black : forall v t, eq3 v black -> 0 <= t ->
  (if gt (Shader.toGrayscale v) t then splat 1 else splat 0) = black.
Proof.
  intros v t H Ht. rewrite gt_not_above; [reflexivity|].
  rewrite (toGrayscale_black v H). exact Ht.
Qed.

Lemma threshold_of_white : forall v t, eq3 v white -> t < 1 ->
  (if gt (Shader.toGrayscale v) t then splat 1 else splat 0) = white.
Proof.
  intros v t H Ht. rewrite gt_above; [reflexivity|].
  rewrite (toGrayscale_white v H). exact Ht.
Qed.

(** X16.  Without a palette, thresholding keeps the extremes: a black
    pixel stays black and a white pixel stays white, at every pixel
    position, under Bayer dithering at full amount and under ordered
    dithering at any amount, whatever [sin] returns. *)
Theorem threshold_dither_keeps_black_and_white :
  forall (sin : Q -> Q) (tex : Z -> vec2 -> vec3) (U : Shader.Uniforms)
         (x y : Z) (uv : vec2) (color : vec3),
    Shader.u_usePalette U = false ->
    (Shader.u_ditherType U = 0%Z /\ Shader.u_ditherAmount U == 1)
    \/ Shader.u_ditherType U = 2%Z ->
    (eq3 color black -> eq3 (Shader.dither sin tex U (GL.fragCoord x y) uv color) black) /\
    (eq3 color white -> eq3 (Shader.dither sin tex U (GL.fragCoord x y) uv color) white).
Proof.
  intros sin tex U x y uv color Hp [[Ht Ha] | Ht]; unfold Shader.dither; rewrite Ht, Hp;
    cbn [Z.eqb Pos.eqb].
  - destruct (bayerThreshold_range U x y) as [Hlo Hhi].
    split; intros Hc.
    + rewrite (threshold_of_black _ _ Hc Hlo). apply mix3_at_1. exact Ha.
    + rewrite (threshold_of_white _ _ Hc Hhi). apply mix3_at_1. exact Ha.
  - match goal with
    | |- context [gt _ (fract ?r)] => destruct (fract_range r) as [Hlo Hhi]
    end.
    split; intros Hc.
    + rewrite (threshold_of_black _ _ Hc Hlo). apply mix3_toward_same. exact Hc.
    + rewrite (threshold_of_white _ _ Hc Hhi). apply mix3_toward_same. exact Hc.
Qed.

Lemma threshold_dither_keeps_black_and_white_witness :
  eq3 (Shader.dither (fun a => a) (flatTexture white) (uniformsOf 2 (1 # 3) false 0)
         (GL.fragCoord 5 7) (0, 0) white) white.
Proof.
  exact (proj2 (threshold_dither_keeps_black_and_white (fun a => a) (flatTexture white)
                  (uniformsOf 2 (1 # 3) false 0) 5 7 (0, 0) white
                  eq_refl (or_intror eq_refl))
               (eq3_refl white)).
Defined.

(** *** Error diffusion *)

Lemma quantize_comp : forall levels c c', c == c' -> quantize levels c == quantize levels c'.
Proof.
  intros levels c c' H. unfold quantize.
  rewrite (floor_comp (c * levels) (c' * levels)) by (rewrite H; reflexivity).
  reflexivity.
Qed.

Lemma reduceColor_comp : forall v w levels,
  eq3 v w -> eq3 (Shader.reduceColor v levels) (Shader.reduceColor w levels).
Proof.
  intros [[r g] b] [[r' g'] b'] levels (H1 & H2 & H3). rewrite !reduceColor_channels.
  unfold eq3. repeat split; apply quantize_comp; assumption.
Qed.

Lemma add3_black : forall v e, eq3 e black -> eq3 (add3 v e) v.
Proof.
  intros [[r g] b] [[r' g'] b'] (H1 & H2 & H3). unfold add3, zip3, eq3.
  rewrite H1, H2, H3. repeat split; ring.
Qed.

(** The coordinate at which a fragment reads the error texture. *)
Definition errCoord (U : Shader.Uniforms) (fc : vec2) : vec2 :=
  (fst fc / fst (Shader.u_resolution U), snd fc / snd (Shader.u_resolution U)).

(** Where the error texture samples as zero, and without a palette,
    [applyFloydSteinberg] returns the quantized color on either pass. *)
Lemma applyFloydSteinberg_zero_error :
  forall (tex : Z -> vec2 -> vec3) (U : Shader.Uniforms) (fc uv : vec2)
         (color : vec3) (levels : Q),
    Shader.u_usePalette U = false ->
    eq3 (tex (Shader.u_errorTexture U) (errCoord U fc)) black ->
    eq3 (Shader.applyFloydSteinberg tex U fc uv color levels)
        (Shader.reduceColor color levels).
Proof.
  intros tex U fc uv color levels Hp He. unfold Shader.applyFloydSteinberg. rewrite Hp.
  fold (errCoord U fc).
  destruct (Shader.u_passIndex U =? 0)%Z; [apply eq3_refl|].
  apply reduceColor_comp. apply add3_black. exact He.
Qed.

(** X17.  Without a palette, [applyFloydSteinberg] returns on its first
    pass the quantized color, whatever the error texture holds; on its
    second pass it returns the quantized sum of the color and the sample of
    the error texture, so where that sample is zero both passes return the
    same color. *)
Theorem applyFloydSteinberg_passes :
  forall (tex : Z -> vec2 -> vec3) (U : Shader.Uniforms) (fc uv : vec2)
         (color : vec3) (levels : Q),
    Shader.u_usePalette U = false ->
    (Shader.u_passIndex U = 0%Z ->
     Shader.applyFloydSteinberg tex U fc uv color levels
     = Shader.reduceColor color levels) /\
    (Shader.u_passIndex U <> 0%Z ->
     Shader.applyFloydSteinberg tex U fc uv color levels
     = Shader.reduceColor (add3 color (tex (Shader.u_errorTexture U) (errCoord U fc)))
                          levels) /\
    (eq3 (tex (Shader.u_errorTexture U) (errCoord U fc)) black ->
     eq3 (Shader.applyFloydSteinberg tex U fc uv color levels)
         (Shader.reduceColor color levels)).
Proof.
  intros tex U fc uv color levels Hp.
  split; [|split].
  - intros H0. unfold Shader.applyFloydSteinberg. rewrite Hp, H0. reflexivity.
  - intros H1. unfold Shader.applyFloydSteinberg. rewrite Hp.
    apply Z.eqb_neq in H1. rewrite H1. reflexivity.
  - apply applyFloydSteinberg_zero_error. exact Hp.
Qed.

Lemma applyFloydSteinberg_passes_witness :
  eq3 (Shader.applyFloydSteinberg (flatTexture black) (uniformsOf 1 (1 # 2) false 1)
         (GL.fragCoord 0 0) (0, 0) rust 9)
      (Shader.reduceColor rust 9).
Proof.
  exact (proj2 (proj2 (applyFloydSteinberg_passes (flatTexture black)
                         (uniformsOf 1 (1 # 2) false 1) (GL.fragCoord 0 0) (0, 0) rust 9
                         eq_refl))
               (eq3_refl black)).
Defined.

(** *** Textures without pixels *)

Lemma mix3_black : forall a, eq3 (mix3 black black a) black.
Proof. intros a. unfold mix3, zip3, mix, black, eq3. repeat split; ring. Qed.

(** A texture whose image was never specified, or was specified with
    [null] data, samples as black at every coordinate, under either
    filter. *)
Lemma sample_without_pixels : forall (t : GL.Texture) (coord : vec2),
  GL.image t = GL.NoImage \/ (exists w h, GL.image t = GL.NullImage w h) ->
  eq3 (GL.sample t coord) black.
Proof.
  intros t coord H. unfold GL.sample.
  assert (Htexel : forall i j, GL.texel (GL.image t) i j = black)
    by (intros i j; destruct H as [-> | (w & h & ->)]; reflexivity).
  destruct (GL.imageSize (GL.image t)) as [w h].
  destruct (GL.mag_filter t); rewrite ?Htexel; try apply eq3_refl.
  eapply eq3_trans; [|apply (mix3_black 0)].
  unfold mix3, zip3, mix, black, eq3. repeat split; ring.
Qed.

(** ** Initialization *)

Local Open Scope Z_scope.

Lemma run_ret : forall {A B} (a : A) (k : A -> M B) s, bind (ret a) k s = k a s.
Proof. reflexivity. Qed.

Lemma run_get : forall {B} (k : Service -> M B) s, bind get k s = k s s.
Proof. reflexivity. Qed.

Lemma run_modify : forall {B} (g : Service -> Service) (k : unit -> M B) s,
  bind (modify g) k s = k tt (g s).
Proof. reflexivity. Qed.

Lemma run_call_last : forall env c s,
  (forall c, throws env c = false) -> call env c s = (Ret tt, record c s).
Proof. intros env c s quiet. unfold call. rewrite quiet. reflexivity. Qed.

Lemma run_try_catch : forall {A} (c h : M A) s a s',
  c s = (Ret a, s') -> try_catch c h s = (Ret a, s').
Proof. intros A c h s a s' H. unfold try_catch. rewrite H. reflexivity. Qed.

Lemma withContext_withContext : forall g g' cv,
  withContext g (withContext g' cv) = withContext g cv.
Proof. reflexivity. Qed.

(** Run the statement at the head of a computation, where no call
    throws ([quiet]) and the canvas is known. *)
Ltac run1 env quiet :=
  first
    [ rewrite bind_assoc
    | rewrite run_ret
    | rewrite run_get
    | rewrite run_modify
    | rewrite (run_call env quiet)
    | erewrite (run_gldo env quiet) by reflexivity
    | erewrite (run_glcall env quiet) by reflexivity
    | erewrite (run_gldo_last env quiet) by reflexivity
    | rewrite (run_call_last env _ _ quiet) ];
  cbv beta; cbn [context withContext fst snd]; rewrite ?withContext_withContext.

Ltac run env quiet := repeat run1 env quiet.

(** The platform offers everything [setupWebGL] asks for before the
    textures: a context, both shaders compiled, the program linked. *)
Definition ready (env : Env) : Prop :=
  (webgl2 env = true \/ webgl env = true) /\
  (forall ty, shaderCreated env ty = true /\ shaderCompiles env ty = true) /\
  programCreated env = true /\ programLinks env = true.

(** The canvas of the service, as [getCanvas] returns it, reduced to what
    does not change with its context. *)
Definition canvasShape (s : Service) : option (bool * Z * Z) :=
  option_map (fun cv => (offscreen cv, canvas_width cv, canvas_height cv)) (canvas s).

Lemma setupWebGL_ready : forall env cv s,
  (forall c, throws env c = false) -> ready env ->
  exists s',
    WebGLService.setupWebGL env cv s = (Ret true, s') /\
    gl s' = true /\ program s' = true /\
    canvasShape s' = Some (offscreen cv, canvas_width cv, canvas_height cv) /\
    isOffscreenCanvas s' = offscreen cv /\
    lastPaletteOptions s' = lastPaletteOptions s.
Proof.
  intros env cv s quiet (Hgl & Hsh & Hpc & Hpl).
  destruct (Hsh VERTEX_SHADER) as [Hvc Hvk]. destruct (Hsh FRAGMENT_SHADER) as [Hfc Hfk].
  assert (Hctx : webgl2 env = true \/ (webgl2 env = false /\ webgl env = true)).
  { destruct (webgl2 env); [left; reflexivity|].
    destruct Hgl as [Hgl | Hgl]; [discriminate Hgl | right; split; [reflexivity | exact Hgl]]. }
  destruct (paletteData_defined ["#000000"; "#FFFFFF"] ltac:(simpl; lia)) as [data Hdata].
  unfold WebGLService.setupWebGL, ShaderService.createShader, ShaderService.createProgram,
    WebGLService.setupPositionBuffer,
    TextureService.createMainTexture, TextureService.createErrorTexture,
    TextureService.newTextureObject, PaletteService.createPaletteTexture,
    PaletteService.rasterize.
  rewrite Hvc, Hvk, Hfc, Hfk, Hpc, Hpl, Hdata. cbn [negb List.length Nat.eqb].
  destruct Hctx as [Hw | [Hw Hw1]]; rewrite Hw; try rewrite Hw1;
    destruct (textureCreated env MainTexture);
    destruct (textureCreated env ErrorTexture);
    destruct (textureCreated env PaletteTexture).
  all: eexists; split;
    [ apply run_try_catch;
      repeat (run env quiet;
              cbn [negb orb fst snd GL.createTexture
                   gl program setProgram setGl record withCanvas setIsOffscreenCanvas
                   setTexture setErrorTexture setPaletteTexture]);
      reflexivity
    | unfold canvasShape; repeat split; reflexivity ].
Qed.

(** X18.  Where no call throws, [setupWebGL] returns [true] exactly when
    the platform offers a context, compiles both shaders and links the
    program; texture objects are not asked for.  The service is then ready
    to render: it holds the context, the program and the canvas it was
    given, knows whether that is an offscreen canvas, and has not touched
    the palette settings it remembers. *)
Theorem setupWebGL_succeeds_iff_ready : forall env cv s,
  (forall c, throws env c = false) ->
  (fst (WebGLService.setupWebGL env cv s) = Ret true <-> ready env) /\
  (ready env ->
   let s' := snd (WebGLService.setupWebGL env cv s) in
   gl s' = true /\ program s' = true /\
   canvasShape s' = Some (offscreen cv, canvas_width cv, canvas_height cv) /\
   isOffscreenCanvas s' = offscreen cv /\
   lastPaletteOptions s' = lastPaletteOptions s).
Proof.
  intros env cv s quiet. split; [split|].
  - intros H.
    destruct (WebGLService.setupWebGL env cv s) as [o s'] eqn:E. simpl in H. subst o.
    exact (setupWebGL_true env cv s s' E).
  - intros Hr. destruct (setupWebGL_ready env cv s quiet Hr) as (s' & E & _).
    rewrite E. reflexivity.
  - intros Hr. destruct (setupWebGL_ready env cv s quiet Hr) as (s' & E & H).
    rewrite E. exact H.
Qed.

Lemma platform_ready : ready platform.
Proof.
  unfold ready. split; [left; reflexivity|]. split; [|split; reflexivity].
  intros ty. split; reflexivity.
Qed.

Lemma setupWebGL_succeeds_iff_ready_witness :
  let s' := snd (WebGLService.setupWebGL platform canvas1 WebGLService.new) in
  gl s' = true /\ program s' = true /\
  canvasShape s' = Some (false, 1, 1) /\
  isOffscreenCanvas s' = false /\
  lastPaletteOptions s' = None.
Proof.
  exact (proj2 (setupWebGL_succeeds_iff_ready platform canvas1 WebGLService.new
                  (fun _ => eq_refl))
               platform_ready).
Defined.


Ltac run_setup env quiet :=
  repeat (run env quiet;
          cbn [negb orb andb fst snd GL.createTexture
               gl program setProgram setGl record withCanvas setIsOffscreenCanvas
               setTexture setErrorTexture setPaletteTexture]).

(** Where no call throws, a setup that is denied the context, a shader
    or the program returns [false] and leaves a service without context or
    without program, if it had no program before. *)
Lemma setupWebGL_not_ready : forall env cv s,
  (forall c, throws env c = false) -> ~ ready env -> program s = false ->
  exists s',
    WebGLService.setupWebGL env cv s = (Ret false, s') /\
    (gl s' = false \/ program s' = false).
Proof.
  intros env cv s quiet Hnot Hprog.
  unfold WebGLService.setupWebGL, ShaderService.createShader, ShaderService.createProgram.
  destruct (webgl2 env) eqn:Hw2; [|destruct (webgl env) eqn:Hw1].
  3: { eexists. split; [apply run_try_catch; run_setup env quiet; reflexivity|].
       left. reflexivity. }
  all: destruct (shaderCreated env VERTEX_SHADER) eqn:Hvc;
    destruct (shaderCompiles env VERTEX_SHADER) eqn:Hvk;
    destruct (shaderCreated env FRAGMENT_SHADER) eqn:Hfc;
    destruct (shaderCompiles env FRAGMENT_SHADER) eqn:Hfk;
    try (eexists; split; [apply run_try_catch; run_setup env quiet; reflexivity|];
         right; exact Hprog).
  all: destruct (programCreated env) eqn:Hpc; [destruct (programLinks env) eqn:Hpl|];
    try (eexists; split; [apply run_try_catch; run_setup env quiet; reflexivity|];
         right; reflexivity).
  all: exfalso; apply Hnot; unfold ready; rewrite ?Hw2, ?Hw1, Hpc, Hpl;
    split; [auto|]; split; [|split; reflexivity];
    intros [|]; rewrite ?Hvc, ?Hvk, ?Hfc, ?Hfk; split; reflexivity.
Qed.

(** X19.  Where no call throws, a service with no program whose setup
    returns [false] refuses to render: [ditherImage] returns [false] at
    once, with no call made and nothing changed. *)
Theorem failed_setup_refuses_render :
  forall sin pow env cv s img options,
    (forall c, throws env c = false) -> program s = false ->
    fst (WebGLService.setupWebGL env cv s) = Ret false ->
    WebGLService.ditherImage sin pow env img options
      (snd (WebGLService.setupWebGL env cv s))
    = (Ret false, snd (WebGLService.setupWebGL env cv s)).
Proof.
  intros sin pow env cv s img options quiet Hprog Hfalse.
  assert (Hnot : ~ ready env).
  { intros Hr. destruct (setupWebGL_ready env cv s quiet Hr) as (s' & E & _).
    rewrite E in Hfalse. discriminate Hfalse. }
  destruct (setupWebGL_not_ready env cv s quiet Hnot Hprog) as (s' & E & Hs').
  rewrite E. cbn [snd]. unfold WebGLService.ditherImage. rewrite run_get.
  destruct Hs' as [H | H]; rewrite H; [reflexivity|].
  destruct (gl s'); reflexivity.
Qed.

Lemma failed_setup_refuses_render_witness :
  WebGLService.ditherImage (fun a => a) (fun c _ => c) noFragmentShader
    {| GL.img_width := 1; GL.img_height := 1; GL.img_data := [255; 255; 255; 255] |}
    (paletteOptions 0 None None None None)
    (snd (WebGLService.setupWebGL noFragmentShader canvas1 WebGLService.new))
  = (Ret false, snd (WebGLService.setupWebGL noFragmentShader canvas1 WebGLService.new)).
Proof.
  exact (failed_setup_refuses_render (fun a => a) (fun c _ => c) noFragmentShader
           canvas1 WebGLService.new
           {| GL.img_width := 1; GL.img_height := 1; GL.img_data := [255; 255; 255; 255] |}
           (paletteOptions 0 None None None None)
           (fun _ => eq_refl) eq_refl eq_refl).
Defined.


(** *** What the getters return *)

(** The canvas as [getCanvas] shows it, and the flag
    [isUsingOffscreenCanvas] returns. *)
Definition getters (s : Service) : option (bool * Z * Z) * bool :=
  (canvasShape s, isOffscreenCanvas s).

Lemma stable_getters_call : forall env c, stable getters (call env c).
Proof. intros env c. apply stable_call. intros s. reflexivity. Qed.

Lemma stable_getters_glcall : forall env c {A} (h : GL.Context -> A * GL.Context),
  stable getters (glcall env c h).
Proof.
  intros env c A h. apply stable_glcall. intros s cv Hcv.
  unfold getters, canvasShape.
  cbn [canvas record withCanvas isOffscreenCanvas option_map offscreen canvas_width
       canvas_height withContext].
  rewrite Hcv. reflexivity.
Qed.

Ltac no_getter_step :=
  lazymatch goal with
  | |- stable _ (ret _) => apply stable_ret
  | |- stable _ throw => apply stable_throw
  | |- stable _ get => apply stable_get
  | |- stable _ (call _ _) => apply stable_getters_call
  | |- stable _ (glcall _ _ _) => apply stable_getters_glcall
  | |- stable _ (gldo _ _ _) => apply stable_getters_glcall
  | |- stable _ (modify _) => apply stable_modify; reflexivity
  | |- stable _ (bind _ _) => apply stable_bind; [|intros]
  | |- stable _ (try_catch _ _) => apply stable_try_catch
  | |- stable _ (match ?x with _ => _ end) => destruct x
  end.

Ltac no_getter := repeat no_getter_step.

(** X20.  Whatever fails, [setupWebGL] keeps the canvas it was given:
    afterwards [getCanvas] returns a canvas, of the same kind and size, and,
    unless the [instanceof] test itself threw, [isUsingOffscreenCanvas]
    tells whether it is an offscreen canvas. *)
Theorem setupWebGL_keeps_the_canvas : forall env cv s,
  let s' := snd (WebGLService.setupWebGL env cv s) in
  (exists cv',
     WebGLService.getCanvas s' = (Ret (Some cv'), s') /\
     offscreen cv' = offscreen cv /\
     canvas_width cv' = canvas_width cv /\ canvas_height cv' = canvas_height cv) /\
  (throws env c_instanceof = false ->
   WebGLService.isUsingOffscreenCanvas s' = (Ret (offscreen cv), s')).
Proof.
  intros env cv s s'.
  assert (H : canvasShape s' = Some (offscreen cv, canvas_width cv, canvas_height cv)
              /\ (throws env c_instanceof = false -> isOffscreenCanvas s' = offscreen cv)).
  { assert (T : triple getters (getters s) (WebGLService.setupWebGL env cv)
                  (fun _ x =>
                     fst x = Some (offscreen cv, canvas_width cv, canvas_height cv)
                     /\ (throws env c_instanceof = false -> snd x = offscreen cv))).
    2:{ exact (T s eq_refl). }
    unfold WebGLService.setupWebGL,
      ShaderService.createShader, ShaderService.createProgram,
      WebGLService.setupPositionBuffer, TextureService.createMainTexture,
      TextureService.createErrorTexture, TextureService.newTextureObject,
      PaletteService.createPaletteTexture, PaletteService.rasterize.
    cbn [List.length Nat.eqb].
    set (shape := Some (offscreen cv, canvas_width cv, canvas_height cv)).
    apply (triple_try_catch getters _ _ _
             (fun _ x => fst x = shape
                         /\ (throws env c_instanceof = false -> snd x = offscreen cv))).
    - apply (triple_bind getters _ _ _
               (fun o x => o = Ret tt /\ x = (shape, isOffscreenCanvas s))).
      + intros s0 Hs0. split; [reflexivity|].
        unfold getters in *. injection Hs0 as _ H2.
        apply injective_projections; [reflexivity | exact H2].
      + intros ? x1 [_ ->].
        apply (triple_bind getters _ _ _
                 (fun o x => (o = Ret tt /\ throws env c_instanceof = false
                              \/ o = Throw /\ throws env c_instanceof = true)
                             /\ x = (shape, isOffscreenCanvas s))).
        * intros s0 Hs0. unfold call. destruct (throws env c_instanceof); cbn; auto.
        * intros ? x2 [_ ->].
          apply (triple_bind getters _ _ _
                   (fun o x => o = Ret tt /\ x = (shape, offscreen cv))).
          -- intros s0 Hs0. split; [reflexivity|].
             unfold getters in *. injection Hs0 as H1 _.
             apply injective_projections; [exact H1 | reflexivity].
          -- intros ? x3 [_ ->].
             apply triple_stable; [no_getter | cbn; auto].
          -- intros x3 [E _]. discriminate E.
        * intros x2 [[[E _] | [_ E]] ->]; [discriminate E|].
          cbn. split; [reflexivity|]. intros E'. congruence.
      + intros x1 [E _]. discriminate E.
    - intros a x1 H. exact H.
    - intros x1 H. apply triple_ret. exact H. }
  destruct H as [Hshape Hflag]. split.
  - unfold canvasShape in Hshape. destruct (canvas s') as [cv'|] eqn:E; [|discriminate].
    exists cv'. cbn in Hshape. injection Hshape as H1 H2 H3.
    unfold WebGLService.getCanvas. rewrite run_get, E. auto.
  - intros Hi. unfold WebGLService.isUsingOffscreenCanvas. rewrite run_get, (Hflag Hi).
    reflexivity.
Qed.

(** ** The custom palette editor *)

Lemma filter_indexed_length : forall (l : list string) (index i : Z),
  Z.of_nat (List.length
              (ColorPaletteControl.filter_indexed (fun _ j => negb (j =? index)) i l))
  = Z.of_nat (List.length l)
    - (if (i <=? index) && (index <? i + Z.of_nat (List.length l)) then 1 else 0).
Proof.
  induction l as [|x l IH]; intros index i.
  - cbn [List.length ColorPaletteControl.filter_indexed].
    destruct (Z.leb_spec i index); destruct (Z.ltb_spec index (i + Z.of_nat 0));
      cbn [andb]; lia.
  - cbn [ColorPaletteControl.filter_indexed].
    destruct (Z.eqb_spec i index) as [->|Hne]; cbn [negb List.length].
    + rewrite IH.
      destruct (Z.leb_spec (index + 1) index); [lia|].
      destruct (Z.leb_spec index index); [|lia].
      destruct (Z.ltb_spec index (index + Z.of_nat (S (List.length l)))); [|lia].
      cbn [andb]. lia.
    + rewrite !Nat2Z.inj_succ, IH.
      destruct (Z.leb_spec (i + 1) index); destruct (Z.leb_spec i index); try lia;
        destruct (Z.ltb_spec index (i + 1 + Z.of_nat (List.length l)));
        destruct (Z.ltb_spec index (i + Z.succ (Z.of_nat (List.length l))));
        cbn [andb]; lia.
Qed.

(** X21.  The editor keeps a custom palette of two to sixteen colors
    within these bounds: adding appends "#777777" unless the palette is
    full, removing takes out the color at the given position unless only two
    are left, and either way the palette it leaves rasterizes without
    error. *)
Theorem custom_palette_stays_within_bounds :
  forall (customColors : list string) (options : Types.DitherOptions) (index : Z),
    2 <= Z.of_nat (List.length customColors) <= 16 ->
    let added := fst (ColorPaletteControl.handleAddCustomColor customColors options) in
    let removed :=
      fst (ColorPaletteControl.handleRemoveCustomColor customColors options index) in
    2 <= Z.of_nat (List.length added) <= 16 /\
    2 <= Z.of_nat (List.length removed) <= 16 /\
    (Z.of_nat (List.length customColors) < 16 ->
     added = (customColors ++ ["#777777"])%list) /\
    (2 < Z.of_nat (List.length customColors) ->
     0 <= index < Z.of_nat (List.length customColors) ->
     Z.of_nat (List.length removed) = Z.of_nat (List.length customColors) - 1) /\
    (exists data, PaletteService.paletteData added = Some data) /\
    (exists data, PaletteService.paletteData removed = Some data).
Proof.
  intros customColors options index Hn added removed.
  assert (Ha : 2 <= Z.of_nat (List.length added) <= 16
               /\ (Z.of_nat (List.length customColors) < 16 ->
                   added = (customColors ++ ["#777777"])%list)).
  { unfold added, ColorPaletteControl.handleAddCustomColor.
    destruct (Z.of_nat (List.length customColors) <? 16) eqn:E; cbn [fst].
    - unfold ColorPaletteControl.publish. cbn [fst].
      rewrite length_app. cbn [List.length]. split; [lia | reflexivity].
    - split; [lia | intros; lia]. }
  assert (Hr : 2 <= Z.of_nat (List.length removed) <= 16
               /\ (2 < Z.of_nat (List.length customColors) ->
                   0 <= index < Z.of_nat (List.length customColors) ->
                   Z.of_nat (List.length removed)
                   = Z.of_nat (List.length customColors) - 1)).
  { unfold removed, ColorPaletteControl.handleRemoveCustomColor.
    destruct (2 <? Z.of_nat (List.length customColors)) eqn:E; cbn [fst].
    - unfold ColorPaletteControl.publish. cbn [fst].
      rewrite filter_indexed_length.
      destruct ((0 <=? index) && (index <? 0 + Z.of_nat (List.length customColors))) eqn:E1.
      + split; [lia | intros; lia].
      + split; [lia|]. intros _ Hi. apply andb_false_iff in E1. destruct E1; lia.
    - split; [lia | intros; lia]. }
  destruct Ha as [Ha1 Ha2]. destruct Hr as [Hr1 Hr2].
  repeat split; try lia; try assumption.
  - apply paletteData_defined. lia.
  - apply paletteData_defined. lia.
Qed.

Lemma custom_palette_stays_within_bounds_witness :
  let added :=
    fst (ColorPaletteControl.handleAddCustomColor ["#000000"; "#FFFFFF"]
           (paletteOptions 3 None (Some ["#000000"; "#FFFFFF"]) None None)) in
  let removed :=
    fst (ColorPaletteControl.handleRemoveCustomColor ["#000000"; "#FFFFFF"]
           (paletteOptions 3 None (Some ["#000000"; "#FFFFFF"]) None None) 0) in
  2 <= Z.of_nat (List.length added) <= 16 /\
  2 <= Z.of_nat (List.length removed) <= 16 /\
  (Z.of_nat (List.length ["#000000"; "#FFFFFF"]) < 16 ->
   added = (["#000000"; "#FFFFFF"] ++ ["#777777"])%list) /\
  (2 < Z.of_nat (List.length ["#000000"; "#FFFFFF"]) ->
   0 <= 0 < Z.of_nat (List.length ["#000000"; "#FFFFFF"]) ->
   Z.of_nat (List.length removed) = Z.of_nat (List.length ["#000000"; "#FFFFFF"]) - 1) /\
  (exists data, PaletteService.paletteData added = Some data) /\
  (exists data, PaletteService.paletteData removed = Some data).
Proof.
  apply (custom_palette_stays_within_bounds ["#000000"; "#FFFFFF"]
           (paletteOptions 3 None (Some ["#000000"; "#FFFFFF"]) None None) 0).
  simpl. lia.
Defined.

Lemma published_is_resolved : forall newColors options told,
  snd (ColorPaletteControl.publish newColors options) = Some told ->
  Types.usePalette options = Some true ->
  Types.paletteType options = Some 3 /\
  PaletteService.getPaletteColors told = newColors.
Proof.
  intros newColors options told H Hu. unfold ColorPaletteControl.publish in H.
  cbn [snd] in H.
  destruct (Types.paletteType options) as [[|p|p]|] eqn:Et; try discriminate H.
  destruct p as [[q|q|]|[q|q|]|]; try discriminate H.
  injection H as <-. split; [reflexivity|].
  unfold PaletteService.getPaletteColors, ColorPaletteControl.withCustomPalette.
  cbn [Types.usePalette Types.paletteType Types.customPalette]. rewrite Hu, Et.
  reflexivity.
Qed.

(** X22.  The editor tells the application exactly when the custom
    palette is the selected type, and what it tells is what it shows: with
    the palette in use, the options it hands over resolve to the colors the
    editor now holds. *)
Theorem editor_publishes_what_it_shows :
  forall (customColors : list string) (options told : Types.DitherOptions) (index : Z),
    Types.usePalette options = Some true ->
    (snd (ColorPaletteControl.handleAddCustomColor customColors options) = Some told ->
     Types.paletteType options = Some 3 /\
     PaletteService.getPaletteColors told
     = fst (ColorPaletteControl.handleAddCustomColor customColors options)) /\
    (snd (ColorPaletteControl.handleRemoveCustomColor customColors options index)
     = Some told ->
     Types.paletteType options = Some 3 /\
     PaletteService.getPaletteColors told
     = fst (ColorPaletteControl.handleRemoveCustomColor customColors options index)) /\
    (Types.paletteType options <> Some 3 ->
     snd (ColorPaletteControl.handleAddCustomColor customColors options) = None /\
     snd (ColorPaletteControl.handleRemoveCustomColor customColors options index) = None).
Proof.
  intros customColors options told index Hu.
  unfold ColorPaletteControl.handleAddCustomColor,
    ColorPaletteControl.handleRemoveCustomColor.
  split; [|split].
  - destruct (Z.of_nat (List.length customColors) <? 16); [|discriminate].
    intros H. apply (published_is_resolved _ _ _ H Hu).
  - destruct (2 <? Z.of_nat (List.length customColors)); [|discriminate].
    intros H. apply (published_is_resolved _ _ _ H Hu).
  - intros Hne.
    assert (Hp : forall c, snd (ColorPaletteControl.publish c options) = None).
    { intros c. unfold ColorPaletteControl.publish. cbn [snd].
      destruct (Types.paletteType options) as [[|p|p]|]; try reflexivity.
      destruct p as [[q|q|]|[q|q|]|]; try reflexivity. contradiction Hne. reflexivity. }
    destruct (Z.of_nat (List.length customColors) <? 16);
      destruct (2 <? Z.of_nat (List.length customColors)); rewrite ?Hp; split; reflexivity.
Qed.

Lemma editor_publishes_what_it_shows_witness :
  Types.paletteType (paletteOptions 3 None (Some ["#000000"; "#FFFFFF"]) None None) = Some 3 /\
  PaletteService.getPaletteColors
    (ColorPaletteControl.withCustomPalette ["#000000"; "#FFFFFF"; "#777777"]
       (paletteOptions 3 None (Some ["#000000"; "#FFFFFF"]) None None))
  = fst (ColorPaletteControl.handleAddCustomColor ["#000000"; "#FFFFFF"]
           (paletteOptions 3 None (Some ["#000000"; "#FFFFFF"]) None None)).
Proof.
  exact (proj1 (editor_publishes_what_it_shows ["#000000"; "#FFFFFF"]
                  (paletteOptions 3 None (Some ["#000000"; "#FFFFFF"]) None None)
                  (ColorPaletteControl.withCustomPalette ["#000000"; "#FFFFFF"; "#777777"]
                     (paletteOptions 3 None (Some ["#000000"; "#FFFFFF"]) None None))
                  0 eq_refl)
               eq_refl).
Defined.

(** ** The uniforms of a render *)

(** The uniforms [setupShaderUniforms] leaves, over those it found:
    [u_errorTexture] and [u_passIndex] are not its business, and
    [u_palette] is set only when there is a palette texture. *)
Definition uniformsFor (image : GL.HTMLImageElement) (options : Types.DitherOptions)
           (paletteTexture : option nat) (old : Shader.Uniforms) : Shader.Uniforms :=
  {| Shader.u_image := 0;
     Shader.u_errorTexture := Shader.u_errorTexture old;
     Shader.u_palette :=
       match paletteTexture with Some _ => 2 | None => Shader.u_palette old end;
     Shader.u_resolution :=
       (inject_Z (GL.img_width image), inject_Z (GL.img_height image));
     Shader.u_ditherAmount := Types.ditherAmount options;
     Shader.u_ditherType := Types.ditherType options;
     Shader.u_passIndex := Shader.u_passIndex old;
     Shader.u_pixelStep :=
       (1 / inject_Z (GL.img_width image), 1 / inject_Z (GL.img_height image))%Q;
     Shader.u_bayerSize := match Types.bayerSize options with Some n => n | None => 1 end;
     Shader.u_usePalette :=
       match Types.usePalette options with Some true => true | _ => false end;
     Shader.u_contrast := match Types.contrast options with Some c => c | None => 0%Q end;
     Shader.u_highlights :=
       match Types.highlights options with Some c => c | None => 0%Q end;
     Shader.u_midtones := match Types.midtones options with Some c => c | None => 0%Q end;
     Shader.u_brightness :=
       match Types.brightness options with Some c => c | None => (1 # 2)%Q end |}.

(** The context [setupShaderUniforms] leaves. *)
Definition withRenderUniforms (image : GL.HTMLImageElement) (options : Types.DitherOptions)
           (paletteTexture : option nat) (g : GL.Context) : GL.Context :=
  {| GL.drawingBuffer := GL.drawingBuffer g; GL.viewport_ := GL.viewport_ g;
     GL.clearColor_ := GL.clearColor_ g; GL.textures := GL.textures g;
     GL.activeTexture_ := 0;
     GL.bound := match paletteTexture with
                 | Some t => (2, Some t) :: GL.bound g
                 | None => GL.bound g
                 end;
     GL.unpackFlipY := GL.unpackFlipY g;
     GL.uniforms := uniformsFor image options paletteTexture (GL.uniforms g) |}.

Lemma setupShaderUniforms_run : forall env image options paletteTexture s cv,
  (forall c, throws env c = false) -> canvas s = Some cv ->
  exists s',
    RendererService.setupShaderUniforms env image options paletteTexture s = (Ret tt, s') /\
    canvas s'
    = Some (withContext (withRenderUniforms image options paletteTexture (context cv)) cv) /\
    gl s' = gl s /\ program s' = program s /\ texture s' = texture s /\
    errorTexture s' = errorTexture s /\ Browser.paletteTexture s' = Browser.paletteTexture s /\
    lastPaletteOptions s' = lastPaletteOptions s.
Proof.
  intros env image options paletteTexture s cv quiet Hcv.
  destruct (RendererService.setupShaderUniforms env image options paletteTexture s)
    as [o s'] eqn:E.
  revert E.
  unfold RendererService.setupShaderUniforms, RendererService.getUniformLocation.
  destruct paletteTexture as [t|].
  all: erewrite (run_gldo env quiet) by exact Hcv;
    repeat (run env quiet; cbn [fst snd]);
    intros E; injection E as <- <-;
    eexists; split; [reflexivity|];
    split; [|repeat split; reflexivity].
  all: cbn [canvas record withCanvas]; f_equal; f_equal.
  all: unfold withRenderUniforms, uniformsFor, RendererService.orElse.
  all: destruct (Types.usePalette options) as [[|]|]; reflexivity.
Qed.

(** ** A render, step by step *)

Lemma bind_run : forall {A B} (c : M A) (k : A -> M B) s a s1,
  c s = (Ret a, s1) -> bind c k s = k a s1.
Proof. intros A B c k s a s1 H. unfold bind. rewrite H. reflexivity. Qed.

Lemma run_setCanvasWidth : forall {B} w (k : unit -> M B) s cv,
  canvas s = Some cv ->
  bind (setCanvasWidth w) k s
  = k tt (withCanvas
            (Some {| offscreen := offscreen cv; canvas_width := w;
                     canvas_height := canvas_height cv;
                     context := GL.withBuffer
                                  (GL.filled w (canvas_height cv) GL.transparentBlack)
                                  (context cv) |}) s).
Proof. intros B w k s cv H. unfold bind, setCanvasWidth. rewrite H. reflexivity. Qed.

Lemma run_setCanvasHeight : forall {B} h (k : unit -> M B) s cv,
  canvas s = Some cv ->
  bind (setCanvasHeight h) k s
  = k tt (withCanvas
            (Some {| offscreen := offscreen cv; canvas_width := canvas_width cv;
                     canvas_height := h;
                     context := GL.withBuffer
                                  (GL.filled (canvas_width cv) h GL.transparentBlack)
                                  (context cv) |}) s).
Proof. intros B h k s cv H. unfold bind, setCanvasHeight. rewrite H. reflexivity. Qed.

Lemma withContext_same : forall cv, withContext (context cv) cv = cv.
Proof. intros [o w h g]. reflexivity. Qed.

(** [g1] is [g] but for the texture bindings and, when [pt] names a
    texture object, the contents of that object. *)
Definition sameBut (pt : option nat) (g g1 : GL.Context) : Prop :=
  GL.drawingBuffer g1 = GL.drawingBuffer g /\
  GL.viewport_ g1 = GL.viewport_ g /\
  GL.clearColor_ g1 = GL.clearColor_ g /\
  GL.activeTexture_ g1 = GL.activeTexture_ g /\
  GL.unpackFlipY g1 = GL.unpackFlipY g /\
  GL.uniforms g1 = GL.uniforms g /\
  (forall t, pt <> Some t ->
     nth_error (GL.textures g1) t = nth_error (GL.textures g) t).

(** The palette step of a render, where no call throws: it returns, and
    touches nothing but the palette texture, the texture bindings and the
    settings it remembers. *)
Lemma updatePaletteIfNeeded_run : forall env options s cv,
  (forall c, throws env c = false) -> canvas s = Some cv ->
  Z.of_nat (List.length (PaletteService.getPaletteColors options)) <= 50 ->
  exists s1 g1,
    WebGLService.updatePaletteIfNeeded env options s = (Ret tt, s1) /\
    canvas s1 = Some (withContext g1 cv) /\
    gl s1 = gl s /\ program s1 = program s /\ texture s1 = texture s /\
    errorTexture s1 = errorTexture s /\ paletteTexture s1 = paletteTexture s /\
    sameBut (paletteTexture s) (context cv) g1.
Proof.
  intros env options s cv quiet Hcv Hlen.
  destruct (paletteData_defined (uploadedPalette options)) as [data Hdata].
  { unfold uploadedPalette.
    destruct (List.length (PaletteService.getPaletteColors options)) eqn:E; simpl; lia. }
  unfold WebGLService.updatePaletteIfNeeded. rewrite run_get.
  assert (Hsame : exists s1 g1,
            ret tt s = (Ret tt, s1) /\ canvas s1 = Some (withContext g1 cv) /\
            gl s1 = gl s /\ program s1 = program s /\ texture s1 = texture s /\
            errorTexture s1 = errorTexture s /\ paletteTexture s1 = paletteTexture s /\
            sameBut (paletteTexture s) (context cv) g1).
  { exists s, (context cv). rewrite withContext_same.
    repeat split; try reflexivity. exact Hcv. }
  destruct (gl s) eqn:Hgl; [|exact Hsame].
  destruct (paletteTexture s) as [pt|] eqn:Hpt; [|exact Hsame].
  destruct (WebGLService.key_eq_dec _ _) as [_ | _]; [exact Hsame|]. clear Hsame.
  replace (if negb (List.length (PaletteService.getPaletteColors options) =? 0)%nat
           then PaletteService.updatePaletteTexture env pt
                  (PaletteService.getPaletteColors options)
           else PaletteService.updatePaletteTexture env pt ["#000000"; "#FFFFFF"])
    with (PaletteService.updatePaletteTexture env pt (uploadedPalette options))
    by (unfold uploadedPalette;
        destruct (negb (List.length (PaletteService.getPaletteColors options) =? 0)%nat);
        reflexivity).
  unfold PaletteService.updatePaletteTexture, PaletteService.rasterize. rewrite Hdata.
  rewrite !bind_assoc. erewrite (run_gldo env quiet) by exact Hcv.
  rewrite bind_assoc, run_ret.
  erewrite (run_gldo env quiet) by reflexivity.
  cbn [context withContext]. rewrite withContext_withContext.
  unfold modify.
  eexists. eexists. split; [reflexivity|].
  split; [reflexivity|].
  do 5 (split; [first [reflexivity | exact Hgl | exact Hpt]|]).
  unfold sameBut, GL.texImage2D_bytes, GL.onBound, GL.bindTexture.
  cbn [GL.activeTexture_ GL.bound GL.lookup]. rewrite Z.eqb_refl.
  cbn [GL.textures GL.withTextures GL.drawingBuffer GL.viewport_ GL.clearColor_
       GL.activeTexture_ GL.unpackFlipY GL.uniforms].
  do 6 (split; [reflexivity|]).
  intros t Ht. apply nth_error_updateNth_other. congruence.
Qed.

(** *** The pixels of a render *)

(** The pixel of column [x] and row [y] (row 0 at the bottom) of a
    drawing buffer. *)
Definition pixelAt (b : list (list vec4)) (x y : Z) : option vec4 :=
  match nth_error b (Z.to_nat y) with
  | Some row => nth_error row (Z.to_nat x)
  | None => None
  end.

Lemma nth_error_imap : forall {A B} (f : Z -> A -> B) l i n,
  nth_error (GL.imap f i l) n = option_map (f (i + Z.of_nat n)) (nth_error l n).
Proof.
  intros A B f l. induction l as [|x l IH]; intros i [|n]; simpl; try reflexivity.
  - rewrite Z.add_0_r. reflexivity.
  - rewrite IH. do 2 f_equal. lia.
Qed.

(** A draw call on a cleared buffer that the viewport covers writes the
    fragment of every pixel. *)
Lemma pixelAt_drawArrays : forall sin pow g w h c x y,
  GL.drawingBuffer g = GL.filled w h c -> GL.viewport_ g = (0, 0, w, h) ->
  0 <= x < w -> 0 <= y < h ->
  pixelAt (GL.drawingBuffer (GL.drawArrays sin pow g)) x y = Some (GL.fragment sin pow g x y).
Proof.
  intros sin pow g w h c x y Hb Hv Hx Hy.
  unfold GL.drawArrays. cbn [GL.drawingBuffer GL.withBuffer]. unfold pixelAt.
  rewrite nth_error_imap. rewrite Hb. unfold GL.filled.
  rewrite nth_error_repeat by lia. cbn [option_map].
  rewrite nth_error_imap. rewrite nth_error_repeat by lia. cbn [option_map].
  rewrite !Z.add_0_l, !Z2Nat.id by lia.
  unfold GL.covered. rewrite Hv.
  replace ((0 <=? x) && (x <? 0 + w) && (0 <=? y) && (y <? 0 + h)) with true; [reflexivity|].
  symmetry. rewrite !andb_true_iff.
  repeat split; first [apply Z.leb_le | apply Z.ltb_lt]; lia.
Qed.

(** The image texture a render uploads, over the texture object [tx]. *)
Definition uploaded (p : GL.HTMLImageElement) (tx : GL.Texture) : GL.Texture :=
  GL.setImage (GL.ByteImage (GL.img_width p) (GL.img_height p) true (GL.img_data p)) tx.

Lemma fragment_drawArrays : forall sin pow g x y,
  GL.fragment sin pow (GL.drawArrays sin pow g) x y = GL.fragment sin pow g x y.
Proof.
  intros sin pow g x y. unfold GL.fragment, GL.drawArrays, GL.sampleUnit, GL.boundTexture.
  cbn [GL.withBuffer GL.bound GL.textures GL.uniforms]. reflexivity.
Qed.

(** Unfold the state changes of the calls a render makes before it draws,
    and project. *)
Ltac gl_norm_in H :=
  cbn [context withContext canvas_width canvas_height offscreen
       GL.drawingBuffer GL.viewport_ GL.clearColor_ GL.textures GL.activeTexture_
       GL.bound GL.unpackFlipY GL.uniforms GL.withTextures GL.lookup Z.eqb
       GL.activeTexture GL.texImage2D_image GL.pixelStorei_flipY GL.bindTexture
       GL.clear GL.clearColor GL.viewport GL.withBuffer GL.onBound] in H.

Section StandardRender.
Variable sin : Q -> Q.
Variable pow : Q -> Q -> Q.
Variable env : Env.
Hypothesis quiet : forall c, throws env c = false.

Lemma standard_render_run : forall img options s cv t tx,
gl s = true -> program s = true -> canvas s = Some cv ->
texture s = Some t -> nth_error (GL.textures (context cv)) t = Some tx ->
paletteTexture s <> Some t ->
Types.ditherType options <> 1 ->
Z.of_nat (List.length (PaletteService.getPaletteColors options)) <= 50 ->
exists s' g',
  WebGLService.ditherImage sin pow env img options s = (Ret true, s') /\
  canvas s'
  = Some {| offscreen := offscreen cv;
            canvas_width := GL.img_width (WebGLService.processedImage env img options);
            canvas_height := GL.img_height (WebGLService.processedImage env img options);
            context := g' |} /\
  GL.uniforms g'
  = uniformsFor (WebGLService.processedImage env img options) options (paletteTexture s)
                (GL.uniforms (context cv)) /\
  GL.boundTexture g' 0
  = Some (uploaded (WebGLService.processedImage env img options) tx) /\
  (forall x y,
     0 <= x < GL.img_width (WebGLService.processedImage env img options) ->
     0 <= y < GL.img_height (WebGLService.processedImage env img options) ->
     pixelAt (GL.drawingBuffer g') x y = Some (GL.fragment sin pow g' x y)).
Proof.
intros img options s cv t tx Hgl Hprog Hcv Htex Htx Hpt Hdt Hlen.
set (p := WebGLService.processedImage env img options).
destruct (WebGLService.ditherImage sin pow env img options s) as [o s'] eqn:E.
revert E. unfold WebGLService.ditherImage. rewrite run_get, Hgl, Hprog, Hcv, Htex.
fold p. apply Z.eqb_neq in Hdt. rewrite Hdt.
unfold try_catch, TextureService.loadImageTexture.
rewrite (run_call env quiet).
erewrite run_setCanvasWidth by exact Hcv.
erewrite run_setCanvasHeight by reflexivity.
cbn [context canvas_width canvas_height offscreen].
repeat (lazymatch goal with
        | |- context [bind (WebGLService.updatePaletteIfNeeded _ _) _ _] => fail
        | _ => run1 env quiet
        end).
match goal with
| |- context [bind (WebGLService.updatePaletteIfNeeded env options) _ ?S] =>
    set (s0 := S)
end.
destruct (updatePaletteIfNeeded_run env options s0 _ quiet eq_refl Hlen)
  as (s1 & g1 & Hrun1 & Hc1 & _ & _ & _ & _ & Hpt1 & Hsame).
rewrite (bind_run _ _ _ _ _ Hrun1), run_get.
destruct (setupShaderUniforms_run env p options (paletteTexture s1) s1 _ quiet Hc1)
  as (s2 & Hrun2 & Hc2 & _).
rewrite (bind_run _ _ _ _ _ Hrun2).
erewrite (run_gldo env quiet) by exact Hc2.
erewrite (run_gldo env quiet) by reflexivity.
unfold RendererService.renderStandardDither, try_catch.
erewrite (run_gldo env quiet) by reflexivity.
cbn [context withContext]. rewrite !withContext_withContext.
unfold ret. intros E. injection E as <- <-.
eexists. eexists. split; [reflexivity|]. split; [reflexivity|].
destruct Hsame as (Hbuf & Hview & _ & _ & _ & Huni & Htexs).
specialize (Htexs t Hpt).
cbn [paletteTexture record withCanvas] in Hpt1.
gl_norm_in Hbuf. gl_norm_in Hview. gl_norm_in Huni. gl_norm_in Htexs.
rewrite (nth_error_updateNth _ _ _ _ Htx) in Htexs.
change (List.map (List.map (fun _ : vec4 => (0, 0, 0, 0)%Q))
          (GL.filled (GL.img_width p) (GL.img_height p) GL.transparentBlack))
  with (List.map (List.map (fun _ : vec4 => GL.transparentBlack))
          (GL.filled (GL.img_width p) (GL.img_height p) GL.transparentBlack)) in Hbuf.
rewrite clear_filled in Hbuf.
split; [|split].
- unfold GL.drawArrays, GL.bindTexture, GL.activeTexture, withRenderUniforms.
  cbn [GL.uniforms GL.withBuffer]. rewrite Hpt1, Huni. reflexivity.
- unfold GL.boundTexture, GL.drawArrays, GL.bindTexture, GL.activeTexture.
  cbn [GL.bound GL.textures GL.withBuffer GL.activeTexture_ GL.lookup Z.eqb].
  unfold withRenderUniforms at 1. cbn [GL.textures]. exact Htexs.
- intros x y Hx Hy. rewrite fragment_drawArrays.
  apply (pixelAt_drawArrays sin pow _ (GL.img_width p) (GL.img_height p)
           GL.transparentBlack); assumption.
Qed.

End StandardRender.


(** A draw call that the viewport covers writes the fragment of every
    pixel the buffer has. *)
Lemma pixelAt_drawn : forall sin pow g w h x y old,
  pixelAt (GL.drawingBuffer g) x y = Some old -> GL.viewport_ g = (0, 0, w, h) ->
  0 <= x < w -> 0 <= y < h ->
  pixelAt (GL.drawingBuffer (GL.drawArrays sin pow g)) x y = Some (GL.fragment sin pow g x y).
Proof.
  intros sin pow g w h x y old Hold Hv Hx Hy.
  unfold GL.drawArrays. cbn [GL.drawingBuffer GL.withBuffer]. unfold pixelAt in *.
  rewrite nth_error_imap.
  destruct (nth_error (GL.drawingBuffer g) (Z.to_nat y)) as [row|]; [|discriminate Hold].
  cbn [option_map]. rewrite nth_error_imap, Hold. cbn [option_map].
  rewrite !Z.add_0_l, !Z2Nat.id by lia.
  unfold GL.covered. rewrite Hv.
  replace ((0 <=? x) && (x <? 0 + w) && (0 <=? y) && (y <? 0 + h)) with true; [reflexivity|].
  symmetry. rewrite !andb_true_iff.
  repeat split; first [apply Z.leb_le | apply Z.ltb_lt]; lia.
Qed.

(** The uniforms of the second pass of an error-diffusion render. *)
Definition secondPass (U : Shader.Uniforms) : Shader.Uniforms :=
  {| Shader.u_image := 0; Shader.u_errorTexture := 1;
     Shader.u_palette := Shader.u_palette U;
     Shader.u_resolution := Shader.u_resolution U;
     Shader.u_ditherAmount := Shader.u_ditherAmount U;
     Shader.u_ditherType := Shader.u_ditherType U;
     Shader.u_passIndex := 1;
     Shader.u_pixelStep := Shader.u_pixelStep U;
     Shader.u_bayerSize := Shader.u_bayerSize U;
     Shader.u_usePalette := Shader.u_usePalette U;
     Shader.u_contrast := Shader.u_contrast U;
     Shader.u_highlights := Shader.u_highlights U;
     Shader.u_midtones := Shader.u_midtones U;
     Shader.u_brightness := Shader.u_brightness U |}.

Lemma uniform1i_passIndex : forall v g,
  GL.uniform1i "u_passIndex" v g
  = GL.withUniforms (GL.setU "u_passIndex" v 0%Q (0, 0)%Q (GL.uniforms g)) g.
Proof. reflexivity. Qed.

Lemma uniform1i_image : forall v g,
  GL.uniform1i "u_image" v g
  = GL.withUniforms (GL.setU "u_image" v 0%Q (0, 0)%Q (GL.uniforms g)) g.
Proof. reflexivity. Qed.

Lemma uniform1i_errorTexture : forall v g,
  GL.uniform1i "u_errorTexture" v g
  = GL.withUniforms (GL.setU "u_errorTexture" v 0%Q (0, 0)%Q (GL.uniforms g)) g.
Proof. reflexivity. Qed.

Lemma secondPass_setU : forall U,
  GL.setU "u_passIndex" 1 0%Q (0, 0)%Q
    (GL.setU "u_errorTexture" 1 0%Q (0, 0)%Q
       (GL.setU "u_image" 0 0%Q (0, 0)%Q
          (GL.setU "u_passIndex" 0 0%Q (0, 0)%Q U)))
  = secondPass U.
Proof. reflexivity. Qed.

Lemma drawArrays_state : forall sin pow g,
  GL.viewport_ (GL.drawArrays sin pow g) = GL.viewport_ g /\
  GL.textures (GL.drawArrays sin pow g) = GL.textures g /\
  GL.bound (GL.drawArrays sin pow g) = GL.bound g /\
  GL.activeTexture_ (GL.drawArrays sin pow g) = GL.activeTexture_ g /\
  GL.uniforms (GL.drawArrays sin pow g) = GL.uniforms g.
Proof. intros sin pow g. repeat split; reflexivity. Qed.

Ltac drawn :=
  repeat first
    [ rewrite (proj1 (drawArrays_state _ _ _))
    | rewrite (proj1 (proj2 (drawArrays_state _ _ _)))
    | rewrite (proj1 (proj2 (proj2 (drawArrays_state _ _ _))))
    | rewrite (proj1 (proj2 (proj2 (proj2 (drawArrays_state _ _ _)))))
    | rewrite (proj2 (proj2 (proj2 (proj2 (drawArrays_state _ _ _))))) ].

Ltac gl_norm :=
  cbn [context withContext canvas_width canvas_height offscreen
       GL.drawingBuffer GL.viewport_ GL.clearColor_ GL.textures GL.activeTexture_
       GL.bound GL.unpackFlipY GL.uniforms GL.withTextures GL.withUniforms
       GL.lookup Z.eqb Pos.eqb
       GL.activeTexture GL.texImage2D_image GL.texImage2D_null GL.pixelStorei_flipY
       GL.bindTexture GL.clear GL.clearColor GL.viewport GL.withBuffer GL.onBound
       withRenderUniforms].

Section ErrorDiffusionRender.
Variable sin : Q -> Q.
Variable pow : Q -> Q -> Q.
Variable env : Env.
Hypothesis quiet : forall c, throws env c = false.

Lemma error_diffusion_render_run : forall img options s cv t tx e etx,
gl s = true -> program s = true -> canvas s = Some cv ->
texture s = Some t -> nth_error (GL.textures (context cv)) t = Some tx ->
errorTexture s = Some e -> nth_error (GL.textures (context cv)) e = Some etx ->
e <> t -> paletteTexture s <> Some t -> paletteTexture s <> Some e ->
Types.ditherType options = 1 ->
Z.of_nat (List.length (PaletteService.getPaletteColors options)) <= 50 ->
exists s' g',
  WebGLService.ditherImage sin pow env img options s = (Ret true, s') /\
  canvas s'
  = Some {| offscreen := offscreen cv;
            canvas_width := GL.img_width (WebGLService.processedImage env img options);
            canvas_height := GL.img_height (WebGLService.processedImage env img options);
            context := g' |} /\
  GL.uniforms g'
  = secondPass (uniformsFor (WebGLService.processedImage env img options) options
                  (paletteTexture s) (GL.uniforms (context cv))) /\
  GL.boundTexture g' 0
  = Some (uploaded (WebGLService.processedImage env img options) tx) /\
  GL.boundTexture g' 1
  = Some (GL.setImage
            (GL.NullImage (GL.img_width (WebGLService.processedImage env img options))
                          (GL.img_height (WebGLService.processedImage env img options)))
            etx) /\
  (forall x y,
     0 <= x < GL.img_width (WebGLService.processedImage env img options) ->
     0 <= y < GL.img_height (WebGLService.processedImage env img options) ->
     pixelAt (GL.drawingBuffer g') x y = Some (GL.fragment sin pow g' x y)).
Proof.
intros img options s cv t tx e etx Hgl Hprog Hcv Htex Htx Herr Hetx Het Hpt Hpe Hdt Hlen.
set (p := WebGLService.processedImage env img options).
destruct (WebGLService.ditherImage sin pow env img options s) as [o s'] eqn:E.
revert E. unfold WebGLService.ditherImage. rewrite run_get, Hgl, Hprog, Hcv, Htex, Herr.
fold p. rewrite Hdt. cbn [Z.eqb Pos.eqb].
unfold try_catch at 1. unfold TextureService.loadImageTexture.
rewrite (run_call env quiet).
erewrite run_setCanvasWidth by exact Hcv.
erewrite run_setCanvasHeight by reflexivity.
cbn [context canvas_width canvas_height offscreen].
repeat (lazymatch goal with
        | |- context [bind (WebGLService.updatePaletteIfNeeded _ _) _ _] => fail
        | _ => run1 env quiet
        end).
match goal with
| |- context [bind (WebGLService.updatePaletteIfNeeded env options) _ ?S] =>
    set (s0 := S)
end.
destruct (updatePaletteIfNeeded_run env options s0 _ quiet eq_refl Hlen)
  as (s1 & g1 & Hrun1 & Hc1 & _ & _ & _ & _ & Hpt1 & Hsame).
rewrite (bind_run _ _ _ _ _ Hrun1), run_get.
destruct (setupShaderUniforms_run env p options (paletteTexture s1) s1 _ quiet Hc1)
  as (s2 & Hrun2 & Hc2 & _).
rewrite (bind_run _ _ _ _ _ Hrun2).
unfold RendererService.renderFloydSteinberg, RendererService.getUniformLocation, try_catch.
erewrite (run_gldo env quiet) by exact Hc2.
cbn [context withContext]. rewrite ?withContext_withContext.
run env quiet.
unfold ret. intros E. injection E as <- <-.
eexists. eexists. split; [reflexivity|]. split; [reflexivity|].
destruct Hsame as (Hbuf & Hview & _ & _ & _ & Huni & Htexs).
pose proof (Htexs t Hpt) as Htt. pose proof (Htexs e Hpe) as Hte. clear Htexs.
cbn [paletteTexture record withCanvas] in Hpt1.
gl_norm_in Hbuf. gl_norm_in Hview. gl_norm_in Huni. gl_norm_in Htt. gl_norm_in Hte.
rewrite (nth_error_updateNth _ _ _ _ Htx) in Htt.
rewrite nth_error_updateNth_other in Hte by exact Het. rewrite Hetx in Hte.
change (List.map (List.map (fun _ : vec4 => (0, 0, 0, 0)%Q))
          (GL.filled (GL.img_width p) (GL.img_height p) GL.transparentBlack))
  with (List.map (List.map (fun _ : vec4 => GL.transparentBlack))
          (GL.filled (GL.img_width p) (GL.img_height p) GL.transparentBlack)) in Hbuf.
rewrite clear_filled in Hbuf.
rewrite !uniform1i_passIndex, !uniform1i_image, !uniform1i_errorTexture.
split; [|split; [|split]].
- drawn. gl_norm. drawn. gl_norm. rewrite secondPass_setU, Hpt1, Huni. reflexivity.
- unfold GL.boundTexture. drawn. gl_norm. drawn. gl_norm.
  rewrite nth_error_updateNth_other by congruence. exact Htt.
- unfold GL.boundTexture. drawn. gl_norm. drawn. gl_norm.
  apply nth_error_updateNth. exact Hte.
- intros x y Hx Hy. rewrite fragment_drawArrays.
  eapply (pixelAt_drawn sin pow _ (GL.img_width p) (GL.img_height p)); try assumption.
  gl_norm.
  apply (pixelAt_drawArrays sin pow _ (GL.img_width p) (GL.img_height p)
           GL.transparentBlack); assumption.
Qed.

End ErrorDiffusionRender.


(** ** What a render shows *)


(** A service as a successful [setupWebGL] leaves it on a canvas of one
    pixel: the image, error and palette textures are the objects 0, 1
    and 2. *)
Definition rendering : Service :=
  {| gl := true; program := true; texture := Some 0%nat; errorTexture := Some 1%nat;
     paletteTexture := Some 2%nat;
     canvas := Some {| offscreen := false; canvas_width := 1; canvas_height := 1;
                       context := GL.withTextures [GL.newTexture; GL.newTexture; GL.newTexture]
                                    (GL.newContext 1 1) |};
     lastPaletteOptions := None; isOffscreenCanvas := false; calls := [] |}.

(** A white image of two pixels by one, and options that ask for a type
    of dithering and nothing else. *)
Definition twoWhitePixels : GL.HTMLImageElement :=
  {| GL.img_width := 2; GL.img_height := 1;
     GL.img_data := [255; 255; 255; 255; 255; 255; 255; 255] |}.

Definition plainOptions (type : Z) : Types.DitherOptions :=
  {| Types.ditherAmount := 1%Q; Types.ditherType := type; Types.bayerSize := None;
     Types.downSampling := None; Types.contrast := None; Types.highlights := None;
     Types.midtones := None; Types.brightness := None;
     Types.usePalette := None; Types.paletteType := None;
     Types.paletteColors := None; Types.customPalette := None;
     Types.userPalettes := None; Types.selectedUserPalette := None |}.


(** X24.  A Bayer or ordered render on a ready service, where no call
    throws: it returns [true]; the canvas takes the size of the processed
    image; and every pixel is the fragment program's output at that pixel,
    fully opaque, run with the uniforms of the options and with the image
    sampler reading the processed image, uploaded bottom row first. *)
Theorem standard_render_draws_the_image :
  forall sin pow env img options s cv t tx,
    (forall c, throws env c = false) ->
    gl s = true -> program s = true -> canvas s = Some cv ->
    texture s = Some t -> nth_error (GL.textures (context cv)) t = Some tx ->
    paletteTexture s <> Some t ->
    Types.ditherType options <> 1 ->
    Z.of_nat (List.length (PaletteService.getPaletteColors options)) <= 50 ->
    let p := WebGLService.processedImage env img options in
    let U := uniformsFor p options (paletteTexture s) (GL.uniforms (context cv)) in
    exists s' cv' tex,
      WebGLService.ditherImage sin pow env img options s = (Ret true, s') /\
      canvas s' = Some cv' /\
      canvas_width cv' = GL.img_width p /\ canvas_height cv' = GL.img_height p /\
      (forall coord, tex 0 coord = GL.sample (uploaded p tx) coord) /\
      (forall x y,
         0 <= x < GL.img_width p -> 0 <= y < GL.img_height p ->
         pixelAt (GL.drawingBuffer (context cv')) x y
         = Some (let '(r, g, b) := Shader.main sin pow tex U (GL.fragCoord x y) in
                 (r, g, b, 1%Q))).
Proof.
  intros sin pow env img options s cv t tx quiet Hgl Hprog Hcv Htex Htx Hpt Hdt Hlen p U.
  destruct (standard_render_run sin pow env quiet img options s cv t tx
              Hgl Hprog Hcv Htex Htx Hpt Hdt Hlen)
    as (s' & g' & Hrun & Hc & Hu & Hb & Hpix).
  fold p in Hrun, Hc, Hu, Hb, Hpix.
  exists s'. eexists. exists (GL.sampleUnit g').
  split; [exact Hrun|]. split; [exact Hc|].
  cbn [canvas_width canvas_height context].
  split; [reflexivity|]. split; [reflexivity|]. split.
  - intros coord. unfold GL.sampleUnit. rewrite Hb. reflexivity.
  - intros x y Hx Hy. rewrite (Hpix x y Hx Hy). unfold GL.fragment, U.
    rewrite Hu. reflexivity.
Qed.

Lemma standard_render_draws_the_image_witness :
  fst (WebGLService.ditherImage (fun a => a) (fun c _ => c) platform twoWhitePixels
         (plainOptions 0) rendering) = Ret true.
Proof.
  pose proof (standard_render_draws_the_image (fun a => a) (fun c _ => c) platform
                twoWhitePixels (plainOptions 0) rendering
                {| offscreen := false; canvas_width := 1; canvas_height := 1;
                   context := GL.withTextures [GL.newTexture; GL.newTexture; GL.newTexture]
                                (GL.newContext 1 1) |}
                0%nat GL.newTexture
                (fun _ => eq_refl) eq_refl eq_refl eq_refl eq_refl eq_refl
                ltac:(discriminate) ltac:(discriminate) ltac:(cbv; discriminate)) as H.
  cbv zeta in H. destruct H as (s' & cv' & tex & Hrun & _).
  rewrite Hrun. reflexivity.
Defined.

(** X25.  An error-diffusion render without a palette, on a ready
    service where no call throws, diffuses no error.  It returns [true] and
    the canvas takes the size of the processed image, but the error texture
    is only ever cleared, so the second pass, which draws every pixel again,
    reads zero from it: each pixel is the preprocessed image color quantized
    in place, at [mix(16, 2, ditherAmount)] levels, fully opaque. *)
Theorem error_diffusion_render_quantizes_in_place :
  forall sin pow env img options s cv t tx e etx,
    (forall c, throws env c = false) ->
    gl s = true -> program s = true -> canvas s = Some cv ->
    texture s = Some t -> nth_error (GL.textures (context cv)) t = Some tx ->
    errorTexture s = Some e -> nth_error (GL.textures (context cv)) e = Some etx ->
    e <> t -> paletteTexture s <> Some t -> paletteTexture s <> Some e ->
    Types.ditherType options = 1 ->
    Types.usePalette options <> Some true ->
    let p := WebGLService.processedImage env img options in
    let U := secondPass (uniformsFor p options (paletteTexture s)
                           (GL.uniforms (context cv))) in
    exists s' cv',
      WebGLService.ditherImage sin pow env img options s = (Ret true, s') /\
      canvas s' = Some cv' /\
      canvas_width cv' = GL.img_width p /\ canvas_height cv' = GL.img_height p /\
      (forall x y,
         0 <= x < GL.img_width p -> 0 <= y < GL.img_height p ->
         exists r g b,
           pixelAt (GL.drawingBuffer (context cv')) x y = Some (r, g, b, 1%Q) /\
           eq3 (r, g, b)
               (Shader.reduceColor
                  (Shader.preprocessImage pow U
                     (GL.sample (uploaded p tx) (uvOf U (GL.fragCoord x y))))
                  (mix 16 2 (Types.ditherAmount options)))).
Proof.
  intros sin pow env img options s cv t tx e etx quiet Hgl Hprog Hcv Htex Htx Herr Hetx
         Het Hpt Hpe Hdt Hnp p U.
  assert (Hlen : Z.of_nat (List.length (PaletteService.getPaletteColors options)) <= 50).
  { unfold PaletteService.getPaletteColors.
    destruct (Types.usePalette options) as [[|]|]; [contradiction Hnp; reflexivity | |];
      simpl; lia. }
  destruct (error_diffusion_render_run sin pow env quiet img options s cv t tx e etx
              Hgl Hprog Hcv Htex Htx Herr Hetx Het Hpt Hpe Hdt Hlen)
    as (s' & g' & Hrun & Hc & Hu & Hb0 & Hb1 & Hpix).
  fold p in Hrun, Hc, Hu, Hb0, Hb1, Hpix. fold U in Hu.
  exists s'. eexists. split; [exact Hrun|]. split; [exact Hc|].
  cbn [canvas_width canvas_height context].
  split; [reflexivity|]. split; [reflexivity|].
  intros x y Hx Hy. rewrite (Hpix x y Hx Hy). unfold GL.fragment. rewrite Hu.
  assert (Hpal : Shader.u_usePalette U = false).
  { unfold U, secondPass, uniformsFor. cbn [Shader.u_usePalette].
    destruct (Types.usePalette options) as [[|]|]; [contradiction Hnp|..]; reflexivity. }
  assert (Htype : Shader.u_ditherType U = 1) by exact Hdt.
  assert (Himg : Shader.u_image U = 0) by reflexivity.
  assert (Herrs : Shader.u_errorTexture U = 1) by reflexivity.
  assert (Hamount : Shader.u_ditherAmount U = Types.ditherAmount options) by reflexivity.
  rewrite main_dither.
  destruct (Shader.dither sin (GL.sampleUnit g') U (GL.fragCoord x y)
              (uvOf U (GL.fragCoord x y)) (preprocessed pow (GL.sampleUnit g') U
                                             (GL.fragCoord x y)))
    as [[r g] b] eqn:Ed.
  exists r, g, b. split; [reflexivity|].
  rewrite <- Ed. unfold Shader.dither. rewrite Htype. cbn [Z.eqb Pos.eqb]. rewrite Hamount.
  eapply eq3_trans.
  - apply applyFloydSteinberg_zero_error; [exact Hpal|].
    rewrite Herrs. unfold GL.sampleUnit. rewrite Hb1.
    apply sample_without_pixels. right. eexists. eexists. reflexivity.
  - unfold preprocessed. rewrite Himg. unfold GL.sampleUnit at 1. rewrite Hb0.
    apply eq3_refl.
Qed.

Lemma error_diffusion_render_quantizes_in_place_witness :
  fst (WebGLService.ditherImage (fun a => a) (fun c _ => c) platform twoWhitePixels
         (plainOptions 1) rendering) = Ret true.
Proof.
  pose proof (error_diffusion_render_quantizes_in_place (fun a => a) (fun c _ => c)
                platform twoWhitePixels (plainOptions 1) rendering
                {| offscreen := false; canvas_width := 1; canvas_height := 1;
                   context := GL.withTextures [GL.newTexture; GL.newTexture; GL.newTexture]
                                (GL.newContext 1 1) |}
                0%nat GL.newTexture 1%nat GL.newTexture
                (fun _ => eq_refl) eq_refl eq_refl eq_refl eq_refl eq_refl eq_refl eq_refl
                ltac:(discriminate) ltac:(discriminate) ltac:(discriminate)
                eq_refl ltac:(discriminate)) as H.
  cbv zeta in H. destruct H as (s' & cv' & Hrun & _).
  rewrite Hrun. reflexivity.
Defined.


(** ** Shaders, programs and texture objects *)

(** How often the call [c] has been made. *)
Definition made (c : Call) (s : Service) : nat := count_occ Call_eq_dec (calls s) c.

Lemma made_record : forall c c' s,
  made c (record c' s) = ((if Call_eq_dec c' c then 1 else 0) + made c s)%nat.
Proof.
  intros c c' s. unfold made, record. cbn [calls count_occ].
  destruct (Call_eq_dec c' c); reflexivity.
Qed.

(** X26.  Where no call throws, [createShader] returns a shader exactly
    when the shader object is created and compiles, and it deletes the
    shader object exactly when it is created and does not compile;
    [createProgram] returns a program exactly when the program object is
    created and links. *)
Theorem shader_service_outcomes : forall env ty s,
  (forall c, throws env c = false) ->
  fst (ShaderService.createShader env ty s)
  = Ret (shaderCreated env ty && shaderCompiles env ty) /\
  made c_deleteShader (snd (ShaderService.createShader env ty s))
  = ((if shaderCreated env ty && negb (shaderCompiles env ty) then 1 else 0)
     + made c_deleteShader s)%nat /\
  fst (ShaderService.createProgram env s)
  = Ret (programCreated env && programLinks env).
Proof.
  intros env ty s quiet.
  unfold ShaderService.createShader, ShaderService.createProgram.
  destruct (shaderCreated env ty); destruct (shaderCompiles env ty);
    destruct (programCreated env); destruct (programLinks env);
    cbn [negb andb]; run env quiet;
    unfold ret; cbn [fst snd]; rewrite ?made_record;
    repeat match goal with
           | |- context [Call_eq_dec ?a ?b] => destruct (Call_eq_dec a b); try discriminate
           end;
    repeat split; try reflexivity; try contradiction.
Qed.

Lemma shader_service_outcomes_witness :
  fst (ShaderService.createShader noFragmentShader FRAGMENT_SHADER WebGLService.new)
  = Ret (shaderCreated noFragmentShader FRAGMENT_SHADER
         && shaderCompiles noFragmentShader FRAGMENT_SHADER) /\
  made c_deleteShader
       (snd (ShaderService.createShader noFragmentShader FRAGMENT_SHADER WebGLService.new))
  = ((if shaderCreated noFragmentShader FRAGMENT_SHADER
         && negb (shaderCompiles noFragmentShader FRAGMENT_SHADER) then 1 else 0)
     + made c_deleteShader WebGLService.new)%nat /\
  fst (ShaderService.createProgram noFragmentShader WebGLService.new)
  = Ret (programCreated noFragmentShader && programLinks noFragmentShader).
Proof.
  exact (shader_service_outcomes noFragmentShader FRAGMENT_SHADER WebGLService.new
           (fun _ => eq_refl)).
Defined.

(** The texture object [createMainTexture] and [createErrorTexture]
    leave, with the given filter. *)
Definition emptyTexture (filter : GL.Param) : GL.Texture :=
  {| GL.image := GL.NoImage;
     GL.wrap_s := GL.CLAMP_TO_EDGE; GL.wrap_t := GL.CLAMP_TO_EDGE;
     GL.min_filter := filter; GL.mag_filter := filter |}.

Lemma created_texture : forall (f1 f2 f3 f4 : GL.Texture -> GL.Texture) g,
  let n := List.length (GL.textures g) in
  holds (GL.onBound f4 (GL.onBound f3 (GL.onBound f2 (GL.onBound f1
           (GL.bindTexture (Some n) (GL.withTextures (GL.textures g ++ [GL.newTexture]) g))))))
        n (f4 (f3 (f2 (f1 GL.newTexture)))) (GL.textures g) (GL.unpackFlipY g).
Proof.
  intros f1 f2 f3 f4 g n. do 4 apply holds_onBound.
  apply holds_bindTexture.
  - cbn [GL.textures GL.withTextures]. unfold n. rewrite nth_error_app2 by lia.
    rewrite Nat.sub_diag. reflexivity.
  - reflexivity.
  - intros m x _ Hx. cbn [GL.textures GL.withTextures].
    rewrite nth_error_app1 by (apply nth_error_Some; congruence). exact Hx.
Qed.

(** X27.  Where no call throws and texture objects can be had,
    [createMainTexture] and [createErrorTexture] each return a new texture
    object, without an image and clamped to the edge; the image texture is
    filtered linearly, the error texture by nearest texel.  The texture
    objects that exist are left as they are. *)
Theorem texture_service_creates : forall env s cv,
  (forall c, throws env c = false) ->
  (forall role, textureCreated env role = true) ->
  canvas s = Some cv ->
  let n := List.length (GL.textures (context cv)) in
  (exists s1,
     TextureService.createMainTexture env s = (Ret (Some n), s1) /\
     textureOf n s1 = Some (emptyTexture GL.LINEAR) /\
     (forall t tex, nth_error (GL.textures (context cv)) t = Some tex ->
                    textureOf t s1 = Some tex)) /\
  (exists s1,
     TextureService.createErrorTexture env s = (Ret (Some n), s1) /\
     textureOf n s1 = Some (emptyTexture GL.NEAREST) /\
     (forall t tex, nth_error (GL.textures (context cv)) t = Some tex ->
                    textureOf t s1 = Some tex)).
Proof.
  intros env s cv quiet Hcreated Hcv n.
  unfold TextureService.createMainTexture, TextureService.createErrorTexture,
    TextureService.newTextureObject.
  rewrite !Hcreated.
  split.
  - destruct (created_texture (GL.setParam GL.TEXTURE_WRAP_S GL.CLAMP_TO_EDGE)
                (GL.setParam GL.TEXTURE_WRAP_T GL.CLAMP_TO_EDGE)
                (GL.setParam GL.TEXTURE_MIN_FILTER GL.LINEAR)
                (GL.setParam GL.TEXTURE_MAG_FILTER GL.LINEAR) (context cv))
      as (_ & Hn & _ & Ho).
    rewrite (run_glcall env quiet _ _ _ _ cv Hcv).
    unfold GL.createTexture; cbn [fst snd].
    run env quiet. unfold ret.
    eexists. split; [reflexivity|].
    unfold textureOf. cbn [canvas record withCanvas context withContext].
    split; [exact Hn|].
    intros t tex Htex. apply Ho; [|exact Htex].
    assert (t < List.length (GL.textures (context cv)))%nat
      by (apply nth_error_Some; congruence). lia.
  - destruct (created_texture (GL.setParam GL.TEXTURE_WRAP_S GL.CLAMP_TO_EDGE)
                (GL.setParam GL.TEXTURE_WRAP_T GL.CLAMP_TO_EDGE)
                (GL.setParam GL.TEXTURE_MIN_FILTER GL.NEAREST)
                (GL.setParam GL.TEXTURE_MAG_FILTER GL.NEAREST) (context cv))
      as (_ & Hn & _ & Ho).
    rewrite (run_glcall env quiet _ _ _ _ cv Hcv).
    unfold GL.createTexture; cbn [fst snd].
    run env quiet. unfold ret.
    eexists. split; [reflexivity|].
    unfold textureOf. cbn [canvas record withCanvas context withContext].
    split; [exact Hn|].
    intros t tex Htex. apply Ho; [|exact Htex].
    assert (t < List.length (GL.textures (context cv)))%nat
      by (apply nth_error_Some; congruence). lia.
Qed.

Lemma texture_service_creates_witness :
  exists s1,
    TextureService.createErrorTexture platform paletteReady = (Ret (Some 1%nat), s1) /\
    textureOf 1 s1 = Some (emptyTexture GL.NEAREST) /\
    (forall t tex, nth_error [GL.newTexture] t = Some tex -> textureOf t s1 = Some tex).
Proof.
  exact (proj2 (texture_service_creates platform paletteReady
                  {| offscreen := false; canvas_width := 1; canvas_height := 1;
                     context := GL.withTextures [GL.newTexture] (GL.newContext 1 1) |}
                  (fun _ => eq_refl) (fun _ => eq_refl) eq_refl)).
Defined.


(** ** Looking a color up in the palette *)

Local Open Scope Q_scope.

Lemma lookup_texel : forall flip data i j,
  GL.texel (GL.ByteImage 256 1 flip data) i j = lookupEntry data (GL.clampIndex i 256).
Proof.
  intros flip data i j. unfold GL.texel, lookupEntry.
  assert (Hj : GL.clampIndex j 1 = 0%Z) by (unfold GL.clampIndex; lia).
  rewrite Hj.
  replace (((if flip then 1 - 1 - 0 else 0) * 256 + GL.clampIndex i 256) * 4)%Z
    with (4 * GL.clampIndex i 256)%Z by (destruct flip; lia).
  reflexivity.
Qed.

(** X28.  [findClosestPaletteColor] does not search the palette: with a
    palette in use it reads the lookup texture at the luminance of the
    color.  On the texture [createPaletteTexture] builds, filtered linearly,
    that is a blend of the two entries next to position [256 * lum - 1/2],
    weighted by the distance to each: at the centre of entry [i],
    [lum = (i + 1/2) / 256], it is entry [i] itself; elsewhere it can be a
    color between two palette colors. *)
Theorem palette_lookup_blends_neighbours :
  forall (tex : Z -> vec2 -> vec3) (U : Shader.Uniforms) (t : GL.Texture)
         (flip : bool) (data : list Z) (color : vec3),
    Shader.u_usePalette U = true ->
    (forall coord, tex (Shader.u_palette U) coord = GL.sample t coord) ->
    GL.image t = GL.ByteImage 256 1 flip data -> GL.mag_filter t = GL.LINEAR ->
    let lum := Shader.toGrayscale color in
    let i := Qfloor (lum * 256 - (1 # 2)) in
    eq3 (Shader.findClosestPaletteColor tex U color)
        (mix3 (lookupEntry data (GL.clampIndex i 256))
              (lookupEntry data (GL.clampIndex (i + 1) 256))
              (lum * 256 - (1 # 2) - inject_Z i)) /\
    (forall k : Z, lum == (inject_Z k + (1 # 2)) / 256 ->
       eq3 (Shader.findClosestPaletteColor tex U color)
           (lookupEntry data (GL.clampIndex k 256))).
Proof.
  intros tex U t flip data color Hp Htex Him Hmag lum i.
  assert (Hblend : eq3 (Shader.findClosestPaletteColor tex U color)
                     (mix3 (lookupEntry data (GL.clampIndex i 256))
                           (lookupEntry data (GL.clampIndex (i + 1) 256))
                           (lum * 256 - (1 # 2) - inject_Z i))).
  { unfold Shader.findClosestPaletteColor. rewrite Hp, Htex. fold lum.
    unfold GL.sample. rewrite Him, Hmag. cbn [GL.imageSize fst snd].
    rewrite !lookup_texel.
    change (inject_Z 256) with 256. fold i.
    apply mix3_at_0. reflexivity. }
  split; [exact Hblend|].
  intros k Hk. eapply eq3_trans; [exact Hblend|].
  assert (Hu : lum * 256 - (1 # 2) == inject_Z k) by (rewrite Hk; field).
  assert (Hi : i = k) by (unfold i; rewrite Hu; apply Qfloor_Z).
  rewrite Hi. apply mix3_at_0. rewrite Hu. ring.
Qed.

Lemma palette_lookup_blends_neighbours_witness :
  eq3 (Shader.findClosestPaletteColor
         (fun _ coord => GL.sample (paletteTextureObject false [0%Z; 0%Z; 0%Z; 255%Z]) coord)
         (uniformsOf 0%Z 1 true 0%Z) ((1 # 512), (1 # 512), (1 # 512)))
      (lookupEntry [0%Z; 0%Z; 0%Z; 255%Z] (GL.clampIndex 0%Z 256%Z)).
Proof.
  refine (proj2 (palette_lookup_blends_neighbours
                   (fun _ coord => GL.sample (paletteTextureObject false [0%Z; 0%Z; 0%Z; 255%Z]) coord)
                   (uniformsOf 0%Z 1 true 0%Z) (paletteTextureObject false [0%Z; 0%Z; 0%Z; 255%Z])
                   false [0%Z; 0%Z; 0%Z; 255%Z] ((1 # 512), (1 # 512), (1 # 512))
                   eq_refl (fun _ => eq_refl) eq_refl eq_refl) 0%Z _).
  reflexivity.
Defined.
